(** * User-profile provisioning: the SQL functions and their client wrapper

    A shallow embedding of

    - [public.handle_new_user()], the trigger function of the migration
      "Fix Authentication Schema Issues";
    - [public.get_or_create_user_profile(text)], the Clerk function of
      [supabase/migrations/20250629090643_stark_coral.sql];
    - [getUserProfile] of [src/lib/supabase-clerk.ts];
    - the two earlier versions of [get_or_create_user_profile], the list
      helpers and the profile cache of [src/lib/supabase-clerk.ts], and the
      session start, the cache-first scraping and the view handlers of
      [src/App.tsx].

    SQL text values are [option string] ([None] is SQL NULL), a string
    being the UTF-8 bytes of the text; the [public.users] table is a list
    of rows in insertion order; an INSERT checks the NOT NULL and UNIQUE
    constraints of the table definition.
    [gen_random_uuid()] and [random()] are read from oracles carried by the
    world, so every run is a function of its inputs. *)

From Stdlib Require Import String Ascii List Arith Bool Lia DecimalString.
Import ListNotations.

Local Open Scope list_scope.
Local Open Scope string_scope.

(** ** SQL text values and the string functions the migrations call *)

Module Sql.

(** A nullable [text] expression. *)
Definition text := option string.

(** [a || b]: NULL as soon as one operand is NULL. *)
Definition concat (a b : text) : text :=
  match a, b with
  | Some x, Some y => Some (x ++ y)
  | _, _ => None
  end.

(** [COALESCE(a, b)]. *)
Definition coalesce (a b : text) : text :=
  match a with
  | Some _ => a
  | None => b
  end.

(** [NULLIF(a, b)] with a non-null literal [b]. *)
Definition nullif (a : text) (b : string) : text :=
  match a with
  | Some x => if String.eqb x b then None else Some x
  | None => None
  end.

(** [a = b] used as a condition: NULL counts as not true. *)
Definition eq_true (a : text) (b : string) : bool :=
  match a with
  | Some x => String.eqb x b
  | None => false
  end.

Definition is_null (a : text) : bool :=
  match a with
  | Some _ => false
  | None => true
  end.

Definition is_not_null (a : text) : bool := negb (is_null a).

(** The first field of [s] split on ["@"]: [split_part(s, '@', 1)]. *)
Fixpoint before_at (s : string) : string :=
  match s with
  | EmptyString => EmptyString
  | String c r => if Ascii.eqb c "@" then EmptyString else String c (before_at r)
  end.

(** [split_part] is strict: NULL in, NULL out. *)
Definition split_part_at_1 (s : text) : text := option_map before_at s.

(** [replace(s, c, by)] for a one-character pattern [c]. *)
Fixpoint replace_char (c : ascii) (by_ : string) (s : string) : string :=
  match s with
  | EmptyString => EmptyString
  | String d r =>
      if Ascii.eqb d c then by_ ++ replace_char c by_ r
      else String d (replace_char c by_ r)
  end.

Definition replace (s : text) (c : ascii) (by_ : string) : text :=
  option_map (replace_char c by_) s.

(** [lower]: the letters A to Z, byte by byte.  This is [lower] of a
    database whose character classification is that of the C locale, and
    of every locale on ASCII text; other locales lower-case letters outside
    ASCII as well. *)
Definition lower_ascii (c : ascii) : ascii :=
  let n := nat_of_ascii c in
  if ((65 <=? n) && (n <=? 90))%nat then ascii_of_nat (n + 32) else c.

Fixpoint lower_string (s : string) : string :=
  match s with
  | EmptyString => EmptyString
  | String c r => String (lower_ascii c) (lower_string r)
  end.

Definition lower (s : text) : text := option_map lower_string s.

(** [trim(s)]: spaces removed at both ends. *)
Fixpoint ltrim (s : string) : string :=
  match s with
  | String c r => if Ascii.eqb c " " then ltrim r else s
  | EmptyString => EmptyString
  end.

Fixpoint rtrim (s : string) : string :=
  match s with
  | EmptyString => EmptyString
  | String c r =>
      match rtrim r with
      | EmptyString => if Ascii.eqb c " " then EmptyString else String c EmptyString
      | r' => String c r'
      end
  end.

Definition trim (s : text) : text := option_map (fun x => rtrim (ltrim x)) s.

(** A byte that continues a character of UTF-8 text: [10xxxxxx]. *)
Definition is_continuation (c : ascii) : bool :=
  let n := nat_of_ascii c in ((128 <=? n) && (n <? 192))%nat.

(** The first [n] characters of UTF-8 text: a character lasts until the
    next byte that starts one. *)
Fixpoint take_chars (n : nat) (s : string) : string :=
  match s with
  | EmptyString => EmptyString
  | String c r =>
      if is_continuation c then String c (take_chars n r)
      else
        match n with
        | O => EmptyString
        | S n' => String c (take_chars n' r)
        end
  end.

(** [substring(s from 1 for 8)]: the first 8 characters. *)
Definition substring_1_8 (s : string) : string := take_chars 8 s.


(** [n::text] for a non-negative integer. *)
Definition int_to_text (n : nat) : string :=
  NilEmpty.string_of_uint (Nat.to_uint n).

End Sql.

(** ** jsonb bags read with [->>] *)

Module Jsonb.

(** A JSON object as its key/value pairs. *)
Definition t := list (string * string).

(** [j ->> key]: the value as text, NULL when the key is missing.  A key
    bound to the JSON null reads as NULL too, so a bag without the key
    stands for both. *)
Fixpoint get_text (j : t) (key : string) : Sql.text :=
  match j with
  | [] => None
  | (k, v) :: rest => if String.eqb k key then Some v else get_text rest key
  end.

End Jsonb.

Notation "j '->>' k" := (Jsonb.get_text j k) (at level 35, no associativity).

(** ** The table [public.users] *)

Module Db.

(** One row of [public.users]; the three NOT NULL text columns hold
    strings, [full_name] is nullable. *)
Record users_row := mk_users_row {
  id : string;
  auth_user_id : string;
  username : string;
  email : string;
  full_name : Sql.text;
  created_at : nat;
  updated_at : nat
}.

Inductive column := col_id | col_auth_user_id | col_username | col_email.

(** The errors the functions can see.  [raised] is the
    [RAISE EXCEPTION 'Failed to create user profile for %: %'] of the
    trigger, with the e-mail and the original error it reports. *)
Inductive db_error :=
| not_null_violation (c : column)
| unique_violation (c : column)
| raised (for_email : Sql.text) (cause : db_error).

Definition is_unique_violation (e : db_error) : bool :=
  match e with
  | unique_violation _ => true
  | _ => false
  end.

(** The store and what a run reads from outside: the rows, the draws of
    [gen_random_uuid()] and [random()] still to come, and [now()]. *)
Record world := mk_world {
  users : list users_row;
  uuid_src : nat -> string;
  uuid_pos : nat;
  rand_src : nat -> nat;
  rand_pos : nat;
  now : nat
}.

Definition set_users (w : world) (us : list users_row) : world :=
  mk_world us (uuid_src w) (uuid_pos w) (rand_src w) (rand_pos w) (now w).

Definition next_uuid (w : world) : world :=
  mk_world (users w) (uuid_src w) (S (uuid_pos w)) (rand_src w) (rand_pos w) (now w).

Definition set_rand_pos (w : world) (p : nat) : world :=
  mk_world (users w) (uuid_src w) (uuid_pos w) (rand_src w) p (now w).

(** The VALUES list of
    [INSERT INTO public.users (auth_user_id, username, email, full_name ...)]. *)
Record insert_values := mk_values {
  v_auth_user_id : Sql.text;
  v_username : Sql.text;
  v_email : Sql.text;
  v_full_name : Sql.text
}.

Definition taken (col : users_row -> string) (us : list users_row) (x : string) : bool :=
  existsb (fun r => String.eqb (col r) x) us.

(** One INSERT.  The [id] default draws a uuid; the NOT NULL columns are
    checked first, then the primary key and the UNIQUE columns in the order
    the table declares them.  A rejected INSERT leaves the rows as they
    were.  The foreign key of the trigger's schema to [auth.users(id)] is
    left out: the trigger inserts the id of the row that fired it. *)
Definition insert_users (w : world) (v : insert_values)
  : world * (db_error + users_row) :=
  let new_id := uuid_src w (uuid_pos w) in
  let w1 := next_uuid w in
  match v_auth_user_id v, v_username v, v_email v with
  | None, _, _ => (w1, inl (not_null_violation col_auth_user_id))
  | Some _, None, _ => (w1, inl (not_null_violation col_username))
  | Some _, Some _, None => (w1, inl (not_null_violation col_email))
  | Some a, Some u, Some e =>
      if taken id (users w) new_id then (w1, inl (unique_violation col_id))
      else if taken auth_user_id (users w) a then (w1, inl (unique_violation col_auth_user_id))
      else if taken username (users w) u then (w1, inl (unique_violation col_username))
      else if taken email (users w) e then (w1, inl (unique_violation col_email))
      else
        let row := mk_users_row new_id a u e (v_full_name v) (now w) (now w) in
        (set_users w1 (users w ++ [row])%list, inr row)
  end.

(** [SELECT * FROM public.users WHERE auth_user_id = a]: the first match. *)
Definition select_by_auth_user_id (us : list users_row) (a : string) : option users_row :=
  find (fun r => String.eqb (auth_user_id r) a) us.

(** [EXISTS (SELECT 1 FROM public.users WHERE username = u)]; a NULL [u]
    matches no row. *)
Definition username_exists (us : list users_row) (u : Sql.text) : bool :=
  match u with
  | Some x => taken username us x
  | None => false
  end.

(** What a run did to the table: each INSERT it issued, with its error if
    it was rejected. *)
Record insert_event := mk_event {
  ev_values : insert_values;
  ev_error : option db_error
}.

Definition error_of (r : db_error + users_row) : option db_error :=
  match r with
  | inl e => Some e
  | inr _ => None
  end.

End Db.

(** ** [public.handle_new_user()], the AFTER INSERT trigger on [auth.users]

    Line numbers are those of the migration "Fix Authentication Schema
    Issues". *)

Module Trigger.

Import Sql Db.

(** The columns of the new [auth.users] row the trigger reads. *)
Record auth_users_row := mk_auth_user {
  new_id : string;
  new_email : Sql.text;
  raw_user_meta_data : option Jsonb.t
}.

(** The DECLARE block. *)
Record locals := mk_locals {
  _username : text;
  _full_name : text;
  _first_name : text;
  _last_name : text;
  _email_prefix : text;
  _unique_suffix : text;
  _attempt_count : nat
}.

Definition _max_attempts : nat := 10.

Definition set_username (l : locals) (u : text) : locals :=
  mk_locals u (_full_name l) (_first_name l) (_last_name l)
            (_email_prefix l) (_unique_suffix l) (_attempt_count l).

Definition set_full_name (l : locals) (f : text) : locals :=
  mk_locals (_username l) f (_first_name l) (_last_name l)
            (_email_prefix l) (_unique_suffix l) (_attempt_count l).

Definition set_unique_suffix (l : locals) (s : text) : locals :=
  mk_locals (_username l) (_full_name l) (_first_name l) (_last_name l)
            (_email_prefix l) s (_attempt_count l).

Definition set_attempt_count (l : locals) (n : nat) : locals :=
  mk_locals (_username l) (_full_name l) (_first_name l) (_last_name l)
            (_email_prefix l) (_unique_suffix l) n.

(** Lines 46-60: the e-mail prefix, the metadata, the username default. *)
Definition init_locals (NEW : auth_users_row) : locals :=
  let prefix := split_part_at_1 (new_email NEW) in
  let l :=
    match raw_user_meta_data NEW with
    | Some md =>
        mk_locals (nullif (trim (md ->> "username")) "")
                  (nullif (trim (md ->> "full_name")) "")
                  (nullif (trim (md ->> "first_name")) "")
                  (nullif (trim (md ->> "last_name")) "")
                  prefix None 0
    | None => mk_locals None None None None prefix None 0
    end in
  if is_null (_username l) then set_username l (_email_prefix l) else l.

(** Lines 66-72: the suffix of this attempt. *)
Definition suffix_for (NEW : auth_users_row) (n : nat) : text :=
  if Nat.eqb n 0 then Some ""
  else concat (concat (concat (Some "-") (Some (substring_1_8 (new_id NEW))))
                      (Some "-"))
              (Some (int_to_text n)).

(** Lines 74-85: the final full name. *)
Definition construct_full_name (l : locals) : text :=
  if is_null (_full_name l) then
    if is_not_null (_first_name l) && is_not_null (_last_name l) then
      concat (concat (_first_name l) (Some " ")) (_last_name l)
    else if is_not_null (_first_name l) then _first_name l
    else if is_not_null (_last_name l) then _last_name l
    else _email_prefix l
  else _full_name l.

(** The assignments of one pass of the block, before its INSERT. *)
Definition prepare (NEW : auth_users_row) (l : locals) : locals :=
  let l1 := set_unique_suffix l (suffix_for NEW (_attempt_count l)) in
  set_full_name l1 (construct_full_name l1).

(** Lines 88-96. *)
Definition attempt_values (NEW : auth_users_row) (l : locals) : insert_values :=
  mk_values (Some (new_id NEW)) (concat (_username l) (_unique_suffix l))
            (new_email NEW) (_full_name l).

(** Line 107: the username of the final fallback. *)
Definition fallback_username (NEW : auth_users_row) (l : locals) : text :=
  concat (concat (_email_prefix l) (Some "-"))
         (Some (replace_char "-" "" (new_id NEW))).

(** Lines 108-116. *)
Definition fallback_values (NEW : auth_users_row) (l : locals) : insert_values :=
  mk_values (Some (new_id NEW)) (_username l) (new_email NEW) (_full_name l).

(** Which INSERT of the function an event comes from. *)
Inductive attempt_kind :=
| loop_attempt (n : nat)
| final_fallback.

Definition event := (attempt_kind * insert_event)%type.

(** A finished run: [inr tt] is [RETURN NEW], [inl e] an error that leaves
    the function. *)
Record run := mk_run {
  outcome : db_error + unit;
  final : world;
  trace : list event
}.

Definition record_event (ev : event) (r : run) : run :=
  mk_run (outcome r) (final r) (ev :: trace r).

(** Lines 63-123: the WHILE loop.  [fuel] bounds the passes of the model;
    [None] means the fuel ran out before the loop ended.  An exception
    caught by the block keeps the values of the local variables; the
    fallback INSERT runs inside the handler, so its error is not caught. *)
Fixpoint retry_loop (fuel : nat) (NEW : auth_users_row) (w : world) (l : locals)
  : option run :=
  if (_attempt_count l <? _max_attempts)%nat then
    match fuel with
    | O => None
    | S fuel' =>
        let l1 := prepare NEW l in
        let v := attempt_values NEW l1 in
        let k := loop_attempt (_attempt_count l) in
        match insert_users w v with
        | (w1, inr _) =>
            Some (mk_run (inr tt) w1 [(k, mk_event v None)])
        | (w1, inl (unique_violation c)) =>
            let ev := (k, mk_event v (Some (unique_violation c))) in
            let l2 := set_attempt_count l1 (_attempt_count l1 + 1) in
            if (_max_attempts <=? _attempt_count l2)%nat then
              let l3 := set_username l2 (fallback_username NEW l2) in
              let v' := fallback_values NEW l3 in
              match insert_users w1 v' with
              | (w2, inr _) =>
                  Some (mk_run (inr tt) w2
                          [ev; (final_fallback, mk_event v' None)])
              | (w2, inl e) =>
                  Some (mk_run (inl e) w2
                          [ev; (final_fallback, mk_event v' (Some e))])
              end
            else option_map (record_event ev) (retry_loop fuel' NEW w1 l2)
        | (w1, inl e) =>
            Some (mk_run (inl (raised (new_email NEW) e)) w1
                    [(k, mk_event v (Some e))])
        end
    end
  else Some (mk_run (inr tt) w []).

Definition handle_new_user (fuel : nat) (NEW : auth_users_row) (w : world)
  : option run :=
  retry_loop fuel NEW w (init_locals NEW).

(** *** Reading a trace *)

(** The attempt counters of the INSERTs issued inside the loop, in order. *)
Fixpoint attempt_numbers (tr : list event) : list nat :=
  match tr with
  | [] => []
  | (loop_attempt n, _) :: rest => n :: attempt_numbers rest
  | (final_fallback, _) :: rest => attempt_numbers rest
  end.

(** The fallback INSERTs of a trace. *)
Fixpoint fallbacks (tr : list event) : list insert_event :=
  match tr with
  | [] => []
  | (loop_attempt _, _) :: rest => fallbacks rest
  | (final_fallback, ev) :: rest => ev :: fallbacks rest
  end.

Definition rejected_as_duplicate (ev : insert_event) : bool :=
  match ev_error ev with
  | Some e => is_unique_violation e
  | None => false
  end.

(** The VALUES of attempt [n] for a run that entered the loop with [l0]. *)
Definition candidate (NEW : auth_users_row) (l0 : locals) (n : nat) : insert_values :=
  mk_values (Some (new_id NEW)) (concat (_username l0) (suffix_for NEW n))
            (new_email NEW) (construct_full_name l0).

(** The VALUES of the fallback INSERT for such a run. *)
Definition fallback_candidate (NEW : auth_users_row) (l0 : locals) : insert_values :=
  mk_values (Some (new_id NEW)) (fallback_username NEW l0)
            (new_email NEW) (construct_full_name l0).

(** What the passes of the loop keep of the locals [l0] it was entered
    with: the username, the names, the e-mail prefix, and the full name
    the next pass will insert. *)
Definition carried (l0 l : locals) : Prop :=
  _username l = _username l0 /\
  _first_name l = _first_name l0 /\
  _last_name l = _last_name l0 /\
  _email_prefix l = _email_prefix l0 /\
  construct_full_name l = construct_full_name l0.

(** The traces the loop can leave when it stands at attempt [n]: it stops
    at the first INSERT that is accepted or fails otherwise than by a
    unique violation; a unique violation moves to attempt [n + 1], and at
    the last attempt to the fallback INSERT. *)
Inductive retried (NEW : auth_users_row) (l0 : locals) : nat -> list event -> Prop :=
| settled n e :
    n < _max_attempts ->
    rejected_as_duplicate (mk_event (candidate NEW l0 n) e) = false ->
    retried NEW l0 n [(loop_attempt n, mk_event (candidate NEW l0 n) e)]
| again n c tr :
    S n < _max_attempts ->
    retried NEW l0 (S n) tr ->
    retried NEW l0 n
      ((loop_attempt n, mk_event (candidate NEW l0 n) (Some (unique_violation c))) :: tr)
| exhausted n c e :
    S n = _max_attempts ->
    retried NEW l0 n
      [(loop_attempt n, mk_event (candidate NEW l0 n) (Some (unique_violation c)));
       (final_fallback, mk_event (fallback_candidate NEW l0) e)].

End Trigger.

(** ** [public.get_or_create_user_profile(user_auth_id text)], the Clerk function

    Line numbers are those of
    [supabase/migrations/20250629090643_stark_coral.sql]. *)

Module Clerk.

Import Sql Db.

(** The DECLARE block, without [user_profile]. *)
Record locals := mk_locals {
  _email : text;
  _full_name : text;
  _username : text;
  _first_name : text;
  _last_name : text
}.

(** Lines 215-218: the claims of [auth.jwt()]. *)
Definition extract_claims (jwt : Jsonb.t) : locals :=
  mk_locals (jwt ->> "email") (jwt ->> "name") None
            (jwt ->> "given_name") (jwt ->> "family_name").

(** Lines 220-229: the fallbacks of the full name. *)
Definition fallback_full_name (l : locals) : text :=
  if is_null (_full_name l) || eq_true (_full_name l) "" then
    if is_not_null (_first_name l) && is_not_null (_last_name l) then
      concat (concat (_first_name l) (Some " ")) (_last_name l)
    else if is_not_null (_first_name l) then _first_name l
    else split_part_at_1 (_email l)
  else _full_name l.

(** Line 232: the username before the uniqueness loop. *)
Definition generate_username (l : locals) : text :=
  lower (replace (coalesce (_full_name l) (split_part_at_1 (_email l))) " " "_").

(** Lines 213-232 in sequence. *)
Definition derive (jwt : Jsonb.t) : locals :=
  let l := extract_claims jwt in
  let l1 := mk_locals (_email l) (fallback_full_name l) (_username l)
                      (_first_name l) (_last_name l) in
  mk_locals (_email l1) (_full_name l1) (generate_username l1)
            (_first_name l1) (_last_name l1).

(** Whether lines 215-232 get a username out of the claims: line 232 reads
    the full name, which lines 221-229 take from a name that is not empty
    or from the given name, and the e-mail prefix; without any of them the
    username is NULL. *)
Definition names_a_user (jwt : Jsonb.t) : bool :=
  is_not_null (jwt ->> "email")
  || (is_not_null (jwt ->> "name") && negb (eq_true (jwt ->> "name") ""))
  || is_not_null (jwt ->> "given_name").

(** [floor(random() * 1000)::text]: the next draw of the world, brought
    into the range 0..999. *)
Definition random_suffix (w : world) : string :=
  int_to_text (rand_src w (rand_pos w) mod 1000).

(** Lines 235-237: the WHILE EXISTS loop.  [fuel] bounds the passes of the
    model; [None] means it ran out. *)
Fixpoint unique_username (fuel : nat) (w : world) (u : text) : option (world * text) :=
  if username_exists (users w) u then
    match fuel with
    | O => None
    | S fuel' =>
        unique_username fuel' (set_rand_pos w (S (rand_pos w)))
          (concat (concat u (Some "_")) (Some (random_suffix w)))
    end
  else Some (w, u).

(** Line 244: the e-mail handed to the INSERT. *)
Definition insert_email (user_auth_id : string) (l : locals) : text :=
  coalesce (_email l) (concat (Some user_auth_id) (Some "@clerk.local")).

(** A finished call: the row returned, or the error raised. *)
Record run := mk_run {
  outcome : db_error + users_row;
  final : world;
  trace : list insert_event
}.

(** Lines 205-254.  A row found by the SELECT has a non-null [id], so
    [user_profile IS NULL] holds exactly when no row was found. *)
Definition get_or_create_user_profile
    (fuel : nat) (user_auth_id : string) (jwt : Jsonb.t) (w : world)
  : option run :=
  match select_by_auth_user_id (users w) user_auth_id with
  | Some user_profile => Some (mk_run (inr user_profile) w [])
  | None =>
      let l := derive jwt in
      match unique_username fuel w (_username l) with
      | None => None
      | Some (w1, u) =>
          let v := mk_values (Some user_auth_id) u
                             (insert_email user_auth_id l) (_full_name l) in
          match insert_users w1 v with
          | (w2, inr row) => Some (mk_run (inr row) w2 [mk_event v None])
          | (w2, inl e) => Some (mk_run (inl e) w2 [mk_event v (Some e)])
          end
      end
  end.

(** Enough passes for any oracle: every pass makes the candidate longer,
    and no stored username is longer than the longest one. *)
Definition longest_username (us : list users_row) : nat :=
  fold_right (fun r m => Nat.max (String.length (username r)) m) 0 us.

Definition enough_fuel (w : world) : nat := S (longest_username (users w)).

End Clerk.

(** ** [getUserProfile] of [src/lib/supabase-clerk.ts]

    The console is taken not to throw. *)

Module Client.

Section GetUserProfile.

(** The [User] interface and whatever a failing call reports or throws. *)
Variable User : Type.
Variable js_error : Type.

(** How a JavaScript computation ends. *)
Inductive completion (A : Type) :=
| normal (a : A)
| thrown (e : js_error).

Arguments normal {A} a.
Arguments thrown {A} e.

(** Console output, in order. *)
Inductive console_line :=
| log_line (msg : string)
| error_line (msg : string) (e : js_error).

(** A computation writes console lines and completes. *)
Definition js (A : Type) : Type := (list console_line * completion A)%type.

Definition ret {A} (a : A) : js A := ([], normal a).

Definition bind {A B} (m : js A) (k : A -> js B) : js B :=
  match m with
  | (out, normal a) => let (out', c) := k a in ((out ++ out')%list, c)
  | (out, thrown e) => (out, thrown e)
  end.

(** [try { body } catch (error) { handler }]. *)
Definition try_catch {A} (body : js A) (handler : js_error -> js A) : js A :=
  match body with
  | (out, normal a) => (out, normal a)
  | (out, thrown e) => let (out', c) := handler e in ((out ++ out')%list, c)
  end.

Definition console_log (msg : string) : js unit := ([log_line msg], normal tt).

Definition console_error (msg : string) (e : js_error) : js unit :=
  ([error_line msg e], normal tt).

Definition lift {A} (c : completion A) : js A := ([], c).

(** What [await supabase.rpc(...)] resolves to. *)
Record rpc_response := mk_response {
  data : option User;
  error : option js_error
}.

(** The collaborators: building the client may throw; the awaited rpc
    resolves to a response or rejects. *)
Record environment := mk_environment {
  createClerkSupabaseClient : completion unit;
  rpc : string -> string -> completion rpc_response
}.

(** Lines 113-132. *)
Definition getUserProfile (env : environment) (clerkUserId : string)
  : js (option User) :=
  try_catch
    (bind (console_log "Getting user profile for Clerk user ID") (fun _ =>
     bind (lift (createClerkSupabaseClient env)) (fun _ =>
     bind (lift (rpc env "get_or_create_user_profile" clerkUserId)) (fun res =>
     match error res with
     | Some e =>
         bind (console_error "Error getting user profile" e) (fun _ => ret None)
     | None =>
         bind (console_log "User profile retrieved") (fun _ => ret (data res))
     end))))
    (fun e =>
       bind (console_error "Error getting user profile" e) (fun _ => ret None)).

End GetUserProfile.

Arguments normal {js_error A} a.
Arguments thrown {js_error A} e.
Arguments mk_response {User js_error} data error.
Arguments mk_environment {User js_error} createClerkSupabaseClient rpc.
Arguments getUserProfile {User js_error} env clerkUserId.
Arguments data {User js_error} r.
Arguments error {User js_error} r.

(** The rpc served by the Clerk function over a world: the row comes back
    as [data], an SQL error as [error]; a call the model cannot finish
    within its fuel is a rejection. *)
Definition served_by (fuel : nat) (jwt : Jsonb.t) (w : Db.world)
  : @environment Db.users_row (option Db.db_error) :=
  mk_environment (normal tt)
    (fun _ user_auth_id =>
       match Clerk.get_or_create_user_profile fuel user_auth_id jwt w with
       | Some r =>
           match Clerk.outcome r with
           | inr row => normal (mk_response (Some row) None)
           | inl e => normal (mk_response None (Some (Some e)))
           end
       | None => thrown None
       end).

End Client.

(** ** The contract, in the words of the specification *)

Module Spec.

(** Claims after empty and blank values were read as absent. *)
Record claims := mk_claims {
  c_username : option string;
  c_email : option string;
  c_firstName : option string;
  c_lastName : option string;
  c_fullName : option string
}.

(** "must treat empty/whitespace-only strings identically to absent". *)
Definition present (t : Sql.text) : option string := Sql.nullif (Sql.trim t) "".

(** The claims a metadata bag of [auth.users] presents. *)
Definition claims_of_metadata (md : option Jsonb.t) : claims :=
  match md with
  | Some j =>
      mk_claims (present (j ->> "username")) None (present (j ->> "first_name"))
                (present (j ->> "last_name")) (present (j ->> "full_name"))
  | None => mk_claims None None None None None
  end.

(** "the local-part of email (substring before @)". *)
Definition local_part (email : string) : string := Sql.before_at email.

(** "claims.fullName, else claims.firstName + " " + claims.lastName (both
    required for this branch), else claims.firstName alone, else
    claims.lastName alone, else the local-part of email". *)
Definition displayName (c : claims) (email : string) : string :=
  match c_fullName c with
  | Some f => f
  | None =>
      match c_firstName c, c_lastName c with
      | Some a, Some b => a ++ " " ++ b
      | Some a, None => a
      | None, Some b => b
      | None, None => local_part email
      end
  end.

(** "claims.username if present, else the local-part of email". *)
Definition username_seed (c : claims) (email : string) : string :=
  match c_username c with
  | Some u => u
  | None => local_part email
  end.

(** "a username built from the email local-part plus the full
    external-subject id with separators stripped", read as the two put
    together with nothing between them. *)
Definition final_fallback_username (email subject : string) : string :=
  local_part email ++ Sql.replace_char "-" "" subject.

(** "a fixed maximum (10 attempts)". *)
Definition max_retry_attempts : nat := 10.

End Spec.

(** ** Sample worlds *)

Module Samples.

Import Db.

Definition uuids (n : nat) : string :=
  "0000000" ++ Sql.int_to_text n ++ "-aaaa-4bbb-8ccc-dddddddddddd".

Definition empty_world : world := mk_world [] uuids 0 (fun _ => 5) 0 1000.

Definition with_rows (us : list users_row) : world :=
  mk_world us uuids (List.length us) (fun _ => 5) 0 1000.

(** A row as it would have been stored for another user. *)
Definition other_user (n : nat) (uname mail : string) : users_row :=
  mk_users_row (uuids n) ("other_" ++ Sql.int_to_text n) uname mail None 900 900.

Definition mail_of (n : nat) : string := "u" ++ Sql.int_to_text n ++ "@x.com".

(** The Clerk user of the scenarios, and the row once stored. *)
Definition jane_jwt : Jsonb.t := [("name", "Jane Doe"); ("email", "jane@x.com")].

(** A Clerk user whose full name is the first name of the chain below. *)
Definition plain_jane_jwt : Jsonb.t := [("name", "jane"); ("email", "jane@x.com")].

Definition jane_row : users_row :=
  mk_users_row (uuids 0) "user_2abc" "jane_doe" "jane@x.com" (Some "Jane Doe") 1000 1000.

Definition jane_stored : world := mk_world [jane_row] uuids 1 (fun _ => 5) 0 1000.

(** A new [auth.users] row without metadata. *)
Definition new_jane : Trigger.auth_users_row :=
  Trigger.mk_auth_user "11111111-2222-3333-4444-555555555555" (Some "jane@x.com") None.

(** The usernames the trigger tries for [new_jane] inside its loop. *)
Definition tried_name (k : nat) : string :=
  match k with
  | O => "jane"
  | _ => "jane-11111111-" ++ Sql.int_to_text k
  end.

(** A table where other users hold the first [n] of those usernames. *)
Definition crowded_world (n : nat) : world :=
  with_rows (map (fun k => other_user k (tried_name k) (mail_of k)) (seq 0 n)).

(** A table where another user is stored with the e-mail of [new_jane]. *)
Definition same_email_world : world :=
  with_rows [other_user 0 "bob" "jane@x.com"].

(** ["jane"], ["jane_5"], ["jane_5_5"], ... *)
Fixpoint chained_name (n : nat) : string :=
  match n with
  | O => "jane"
  | S k => chained_name k ++ "_5"
  end.

(** A table where the first [n] names of the chain are taken, with an
    oracle whose [random()] always draws 5. *)
Definition chained_world (n : nat) : world :=
  with_rows (map (fun k => other_user k (chained_name k) (mail_of k)) (seq 0 n)).

End Samples.

(** ** [public.get_or_create_user_profile(user_auth_id uuid)], the Supabase-auth function

    The function of the migration "Fix Authentication Schema Issues" (lines
    178-226) that reads the profile data from [auth.users]. *)

Module SupabaseAuth.

Import Sql Db.

(** What a call can raise: its own exception, or an error of the INSERT. *)
Inductive error :=
| auth_user_not_found (user_auth_id : string)
| rejected (e : db_error).

(** [SELECT * FROM auth.users WHERE id = i]. *)
Definition select_auth_user (auth_users : list Trigger.auth_users_row) (i : string)
  : option Trigger.auth_users_row :=
  find (fun a => String.eqb (Trigger.new_id a) i) auth_users.

(** [auth_user_data.raw_user_meta_data ->> key]; a NULL bag reads as NULL. *)
Definition meta (a : Trigger.auth_users_row) (key : string) : text :=
  match Trigger.raw_user_meta_data a with
  | Some md => md ->> key
  | None => None
  end.

(** Lines 201-204. *)
Definition insert_username (user_auth_id : string) (a : Trigger.auth_users_row) : text :=
  coalesce (nullif (trim (meta a "username")) "")
           (concat (concat (split_part_at_1 (Trigger.new_email a)) (Some "-"))
                   (Some (substring_1_8 user_auth_id))).

(** Lines 206-216: the CASE tests the raw metadata and stores it trimmed. *)
Definition insert_full_name (a : Trigger.auth_users_row) : text :=
  coalesce (nullif (trim (meta a "full_name")) "")
    (if is_not_null (meta a "first_name") && is_not_null (meta a "last_name") then
       concat (concat (trim (meta a "first_name")) (Some " ")) (trim (meta a "last_name"))
     else if is_not_null (meta a "first_name") then trim (meta a "first_name")
     else split_part_at_1 (Trigger.new_email a)).

(** Lines 198-219. *)
Definition insert_row (user_auth_id : string) (a : Trigger.auth_users_row) : insert_values :=
  mk_values (Some user_auth_id) (insert_username user_auth_id a)
            (Trigger.new_email a) (insert_full_name a).

(** A finished call: the row returned, or the error raised. *)
Record run := mk_run {
  outcome : error + users_row;
  final : world;
  trace : list insert_event
}.

(** Lines 183-224.  A row that was found has a non-null [id], so the two
    [IS NULL] tests hold exactly when the SELECT found nothing.  The INSERT
    follows the SELECT that found the [auth.users] row, so it satisfies the
    foreign key of line 138. *)
Definition get_or_create_user_profile
    (auth_users : list Trigger.auth_users_row) (user_auth_id : string) (w : world)
  : run :=
  match select_by_auth_user_id (users w) user_auth_id with
  | Some user_profile => mk_run (inr user_profile) w []
  | None =>
      match select_auth_user auth_users user_auth_id with
      | None => mk_run (inl (auth_user_not_found user_auth_id)) w []
      | Some auth_user_data =>
          let v := insert_row user_auth_id auth_user_data in
          match insert_users w v with
          | (w1, inr row) => mk_run (inr row) w1 [mk_event v None]
          | (w1, inl e) => mk_run (inl (rejected e)) w1 [mk_event v (Some e)]
          end
      end
  end.

(** The foreign key of line 138,
    [auth_user_id uuid ... REFERENCES auth.users(id) ON DELETE CASCADE]:
    every profile references a row of [auth.users].  The states of the two
    tables that the schema admits are those where it holds. *)
Definition references_hold (auth_users : list Trigger.auth_users_row) (w : world) : bool :=
  forallb
    (fun row =>
       existsb (fun a => String.eqb (Trigger.new_id a) (auth_user_id row)) auth_users)
    (users w).

(** [DELETE FROM auth.users WHERE id = i] under that foreign key: the
    profiles that reference the row are deleted with it. *)
Definition delete_auth_user (auth_users : list Trigger.auth_users_row) (w : world)
    (i : string) : list Trigger.auth_users_row * world :=
  (filter (fun a => negb (String.eqb (Trigger.new_id a) i)) auth_users,
   set_users w (filter (fun row => negb (String.eqb (auth_user_id row) i)) (users w))).

End SupabaseAuth.

(** ** [public.get_or_create_user_profile(user_auth_id text)], the first Clerk version

    The function of the migration "Complete Clerk + Supabase Integration"
    (lines 375-409 of the same file), which builds a basic profile from the
    subject id alone. *)

Module ClerkBasic.

Import Sql Db.

(** Lines 396-398. *)
Definition basic_username (user_auth_id : string) : string :=
  "user_" ++ substring_1_8 user_auth_id.

Definition basic_email (user_auth_id : string) : string :=
  basic_username user_auth_id ++ "@example.com".

Definition basic_full_name (user_auth_id : string) : string :=
  "User " ++ substring_1_8 user_auth_id.

Definition insert_row (user_auth_id : string) : insert_values :=
  mk_values (Some user_auth_id) (Some (basic_username user_auth_id))
            (Some (basic_email user_auth_id)) (Some (basic_full_name user_auth_id)).

Record run := mk_run {
  outcome : db_error + users_row;
  final : world;
  trace : list insert_event
}.

(** Lines 382-407. *)
Definition get_or_create_user_profile (user_auth_id : string) (w : world) : run :=
  match select_by_auth_user_id (users w) user_auth_id with
  | Some user_profile => mk_run (inr user_profile) w []
  | None =>
      let v := insert_row user_auth_id in
      match insert_users w v with
      | (w1, inr row) => mk_run (inr row) w1 [mk_event v None]
      | (w1, inl e) => mk_run (inl e) w1 [mk_event v (Some e)]
      end
  end.

End ClerkBasic.

(** ** What a stored text looks like *)

Module Shape.

(** Every character of [s] passes [p]. *)
Fixpoint all_chars (p : ascii -> bool) (s : string) : bool :=
  match s with
  | EmptyString => true
  | String c r => p c && all_chars p r
  end.

Definition is_space (c : ascii) : bool := Ascii.eqb c " ".

Definition is_upper (c : ascii) : bool :=
  let n := nat_of_ascii c in ((65 <=? n) && (n <=? 90))%nat.

(** Neither a space nor an upper-case ASCII letter. *)
Definition handle_char (c : ascii) : bool := negb (is_space c) && negb (is_upper c).

Definition is_digit (c : ascii) : bool :=
  let n := nat_of_ascii c in ((48 <=? n) && (n <=? 57))%nat.

(** What the uniqueness loop of the Clerk function appends: underscores
    and decimal digits. *)
Definition suffix_char (c : ascii) : bool := Ascii.eqb c "_" || is_digit c.

End Shape.

(** ** What the trigger leaves in the table *)

Module TriggerStore.

Import Sql Db Trigger.

(** What a finished run of the loop stored, for a loop entered with [l0]
    and standing at the attempt of [l]. *)
Definition stored_by_loop (NEW : auth_users_row) (l0 : locals) (from : nat)
    (w : world) (r : run) : Prop :=
  match outcome r with
  | inl _ => users (final r) = users w
  | inr _ =>
      exists row,
        users (final r) = (users w ++ [row])%list /\
        auth_user_id row = new_id NEW /\
        new_email NEW = Some (email row) /\
        full_name row = construct_full_name l0 /\
        ((exists k, from <= k < _max_attempts /\
                    v_username (candidate NEW l0 k) = Some (username row))
         \/ fallback_username NEW l0 = Some (username row))
  end.

End TriggerStore.

(** ** More sample worlds *)

Module MoreSamples.

Import Db.

(** A table with one stored user who shares nothing with [Samples.new_jane]. *)
Definition bob_world : world :=
  Samples.with_rows [Samples.other_user 0 "bob" "bob@x.com"].

(** The [auth.users] rows of two users whose ids share the first 8
    characters and whose e-mails share the local part. *)
Definition auth_jane : Trigger.auth_users_row :=
  Trigger.mk_auth_user "11111111-2222-3333-4444-555555555555" (Some "jane@x.com") None.

(** The [auth.users] row that the stored user of [bob_world] references. *)
Definition auth_bob : Trigger.auth_users_row :=
  Trigger.mk_auth_user "other_0" (Some "bob@x.com") None.

Definition auth_jane_too : Trigger.auth_users_row :=
  Trigger.mk_auth_user "11111111-9999-3333-4444-555555555555" (Some "jane@y.org") None.

(** A user whose metadata hold a first name of spaces only. *)
Definition auth_blank_first : Trigger.auth_users_row :=
  Trigger.mk_auth_user "22222222-2222-3333-4444-555555555555" (Some "sam@x.com")
    (Some [("first_name", "   ")]).

End MoreSamples.

(** ** The list helpers of [src/lib/supabase-clerk.ts] and the session start of [App.tsx]

    Every collaborator is called at most once in these functions, so its
    answer is taken as a function of its arguments. *)

Module Session.

Section WithServices.

Variable User : Type.
Variable LinkedInProfile : Type.
Variable ScrapingJob : Type.
Variable js_error : Type.

(** [profile.id]. *)
Variable profile_id : User -> string.


(** What a [select] over several rows resolves to. *)
Record list_response (A : Type) := mk_list_response {
  rows : option (list A);
  failure : option js_error
}.

Arguments rows {A} _.
Arguments failure {A} _.

(** [data || []]. *)
Definition or_empty {A} (r : option (list A)) : list A :=
  match r with
  | Some l => l
  | None => []
  end.

Record services := mk_services {
  backend : Client.environment User js_error;
  profiles_of_user : string -> Client.completion js_error (list_response LinkedInProfile);
  all_profiles : Client.completion js_error (list_response LinkedInProfile);
  jobs_of_user : string -> Client.completion js_error (list_response ScrapingJob)
}.

(** The body shared by the three list helpers: build the client, await
    the query, [[]] on an error, [data || []] otherwise, [[]] when anything
    throws.  The three differ in their query and their console texts. *)
Definition list_helper {A} (svc : services) (starting failed done : string)
    (query : Client.completion js_error (list_response A))
  : Client.js js_error (list A) :=
  Client.try_catch js_error
    (Client.bind js_error (Client.console_log js_error starting) (fun _ =>
     Client.bind js_error
       (Client.lift js_error (Client.createClerkSupabaseClient _ _ (backend svc)))
       (fun _ =>
     Client.bind js_error (Client.lift js_error query) (fun res =>
     match failure res with
     | Some e =>
         Client.bind js_error (Client.console_error js_error failed e)
           (fun _ => Client.ret js_error [])
     | None =>
         Client.bind js_error (Client.console_log js_error done)
           (fun _ => Client.ret js_error (or_empty (rows res)))
     end))))
    (fun e =>
       Client.bind js_error (Client.console_error js_error failed e)
         (fun _ => Client.ret js_error [])).

(** [supabase-clerk.ts], lines 196-218. *)
Definition getUserProfiles (svc : services) (userId : string)
  : Client.js js_error (list LinkedInProfile) :=
  list_helper svc "Getting profiles for user" "Error getting user profiles"
    "Retrieved user profiles" (profiles_of_user svc userId).

(** [supabase-clerk.ts], lines 220-241. *)
Definition getAllProfiles (svc : services) : Client.js js_error (list LinkedInProfile) :=
  list_helper svc "Getting all profiles..." "Error getting all profiles"
    "Retrieved total profiles" (all_profiles svc).

(** [App.tsx], lines 147-170. *)
Definition loadScrapingJobs (svc : services) (userId : string)
  : Client.js js_error (list ScrapingJob) :=
  list_helper svc "Loading scraping jobs for user" "Error loading scraping jobs"
    "Loaded scraping jobs" (jobs_of_user svc userId).

(** The part of the component state the session start writes. *)
Record ui := mk_ui {
  userProfile : option User;
  profiles : list LinkedInProfile;
  scrapingJobs : list ScrapingJob;
  authError : string
}.

Definition setUserProfile (s : ui) (p : option User) : ui :=
  mk_ui p (profiles s) (scrapingJobs s) (authError s).

Definition setProfiles (s : ui) (l : list LinkedInProfile) : ui :=
  mk_ui (userProfile s) l (scrapingJobs s) (authError s).

Definition setScrapingJobs (s : ui) (l : list ScrapingJob) : ui :=
  mk_ui (userProfile s) (profiles s) l (authError s).

Definition setAuthError (s : ui) (msg : string) : ui :=
  mk_ui (userProfile s) (profiles s) (scrapingJobs s) msg.

(** [App.tsx], lines 128-145.  The two loads of [Promise.all] are awaited
    together; nothing is written before both have resolved. *)
Definition loadUserData (svc : services) (userId : string) (s : ui) : Client.js js_error ui :=
  Client.try_catch js_error
    (Client.bind js_error (getUserProfiles svc userId) (fun userProfilesData =>
     Client.bind js_error (loadScrapingJobs svc userId) (fun jobs =>
     Client.ret js_error (setScrapingJobs (setProfiles s userProfilesData) jobs))))
    (fun e =>
       Client.bind js_error (Client.console_error js_error "Error loading user data" e) (fun _ =>
       Client.ret js_error (setAuthError s
              "Failed to load user data. Some features may not work properly."))).

(** [App.tsx], lines 105-125; [user] is [user.id] when Clerk has a user. *)
Definition initializeUserProfile (svc : services) (user : option string) (s : ui) : Client.js js_error ui :=
  match user with
  | None => Client.ret js_error s
  | Some user_id =>
      let s1 := setAuthError s "" in
      Client.try_catch js_error
        (Client.bind js_error (Client.getUserProfile (backend svc) user_id) (fun profile =>
         match profile with
         | Some p => loadUserData svc (profile_id p) (setUserProfile s1 (Some p))
         | None =>
             Client.ret js_error (setAuthError s1
                    "Failed to create user profile. Please try refreshing the page.")
         end))
        (fun e =>
           Client.bind js_error (Client.console_error js_error "Error initializing user profile" e) (fun _ =>
           Client.ret js_error (setAuthError s1
                  "Failed to initialize user profile. Please try again.")))
  end.

End WithServices.

Arguments rows {js_error A} _.
Arguments failure {js_error A} _.
Arguments mk_list_response {js_error A} rows failure.
Arguments mk_services {User LinkedInProfile ScrapingJob js_error}.
Arguments backend {User LinkedInProfile ScrapingJob js_error} _.
Arguments getUserProfiles {User LinkedInProfile ScrapingJob js_error} svc userId.
Arguments getAllProfiles {User LinkedInProfile ScrapingJob js_error} svc.
Arguments loadScrapingJobs {User LinkedInProfile ScrapingJob js_error} svc userId.
Arguments loadUserData {User LinkedInProfile ScrapingJob js_error} svc userId s.
Arguments initializeUserProfile {User LinkedInProfile ScrapingJob js_error} profile_id svc user s.
Arguments mk_ui {User LinkedInProfile ScrapingJob}.
Arguments userProfile {User LinkedInProfile ScrapingJob} _.
Arguments profiles {User LinkedInProfile ScrapingJob} _.
Arguments scrapingJobs {User LinkedInProfile ScrapingJob} _.
Arguments authError {User LinkedInProfile ScrapingJob} _.

(** The services of a session whose rpc is served by the Clerk function
    over a world; the list queries answer with no rows. *)
Definition served_session (fuel : nat) (jwt : Jsonb.t) (w : Db.world)
  : @services Db.users_row unit unit (option Db.db_error) :=
  mk_services (Client.served_by fuel jwt w)
    (fun _ => Client.normal (mk_list_response (Some []) None))
    (Client.normal (mk_list_response (Some []) None))
    (fun _ => Client.normal (mk_list_response (Some []) None)).

End Session.

(** ** The profile cache of [App.tsx] over [checkProfileExists] and [upsertProfile]

    The services keep a state of their own between calls, threaded through
    every call; console output is left out.  A run records what its callers
    can observe: the answer of every cache check and every save, the calls
    to the scraper, and the progress it reports. *)

Module App.

Section WithServices.

(** A scraped profile ([any]) and its [linkedinUrl] field, [None] when the
    field is undefined or null. *)
Variable item : Type.
Variable linkedinUrl : item -> option string.

Variable store : Type.
Variable js_error : Type.

(** The TypeError of reading a property of null. *)
Variable type_error : js_error.

Record LinkedInProfile := mk_profile {
  id : string;
  user_id : string;
  linkedin_url : string;
  profile_data : item;
  last_updated : string;
  created_at : string;
  tags : list string
}.

Record PostgrestError := mk_postgrest_error {
  code : string;
  message : string
}.

(** What a query ending in [.single()] resolves to. *)
Record single_response := mk_single {
  data : option LinkedInProfile;
  error : option PostgrestError
}.

(** The object handed to [.upsert(..., { onConflict: 'linkedin_url' })]. *)
Record upsert_row := mk_upsert {
  u_user_id : string;
  u_linkedin_url : string;
  u_profile_data : item;
  u_tags : list string;
  u_last_updated : string
}.

Record services := mk_services {
  createClerkSupabaseClient : store -> store * Client.completion js_error unit;
  select_by_url : store -> string -> store * Client.completion js_error single_response;
  upsert_on_url : store -> upsert_row -> store * Client.completion js_error single_response;
  scrapeProfiles : store -> list string -> store * Client.completion js_error string;
  getDatasetItems : store -> string -> store * Client.completion js_error (list item);
  now_iso : store -> string
}.

Inductive event :=
| checked (url : string) (found : option LinkedInProfile)
| upserted (userId url : string) (profileData : item) (with_tags : list string)
           (saved : option LinkedInProfile)
| scrape_started (urls : list string) (answer : Client.completion js_error string)
| items_fetched (dataset : string) (answer : Client.completion js_error (list item))
| progress (stage : string) (percent : nat) (text : string).

(** A computation over the services: the events it leaves, the state of
    the services after it, and how it completes. *)
Definition app (A : Type) : Type :=
  store -> list event * store * Client.completion js_error A.

Definition ret {A} (a : A) : app A := fun s => ([], s, Client.normal a).

Definition throw {A} (e : js_error) : app A := fun s => ([], s, Client.thrown e).

Definition bind {A B} (m : app A) (k : A -> app B) : app B :=
  fun s =>
    match m s with
    | (evs, s1, Client.normal a) =>
        match k a s1 with
        | (evs', s2, c) => ((evs ++ evs')%list, s2, c)
        end
    | (evs, s1, Client.thrown e) => (evs, s1, Client.thrown e)
    end.

(** [try { body } catch (error) { handler }]; what the body did before it
    threw stays done. *)
Definition try_catch {A} (body : app A) (handler : js_error -> app A) : app A :=
  fun s =>
    match body s with
    | (evs, s1, Client.normal a) => (evs, s1, Client.normal a)
    | (evs, s1, Client.thrown e) =>
        match handler e s1 with
        | (evs', s2, c) => ((evs ++ evs')%list, s2, c)
        end
    end.

(** A call to a service. *)
Definition call {A} (f : store -> store * Client.completion js_error A) : app A :=
  fun s => let (s1, c) := f s in ([], s1, c).

Definition emit (ev : event) : app unit := fun s => ([ev], s, Client.normal tt).

Definition read_clock (svc : services) : app string :=
  fun s => ([], s, Client.normal (now_iso svc s)).

(** [updateLoadingProgress(stage, progress, message)]. *)
Definition updateLoadingProgress (stage : string) (percent : nat) (text : string)
  : app unit :=
  emit (progress stage percent text).

(** [supabase-clerk.ts], lines 135-157. *)
Definition checkProfileExists (svc : services) (url : string)
  : app (option LinkedInProfile) :=
  bind
    (try_catch
       (bind (call (createClerkSupabaseClient svc)) (fun _ =>
        bind (call (fun s => select_by_url svc s url)) (fun res =>
        match error res with
        | Some e =>
            if negb (String.eqb (code e) "PGRST116") then ret None
            else ret (data res)
        | None => ret (data res)
        end)))
       (fun _ => ret None))
    (fun found => bind (emit (checked url found)) (fun _ => ret found)).

(** [supabase-clerk.ts], lines 159-194; [data.id] is read for the log
    without a guard, so a null [data] throws into the catch. *)
Definition upsertProfile (svc : services) (userId url : string) (profileData : item)
    (with_tags : list string) : app (option LinkedInProfile) :=
  bind
    (try_catch
       (bind (call (createClerkSupabaseClient svc)) (fun _ =>
        bind (read_clock svc) (fun stamp =>
        bind (call (fun s => upsert_on_url svc s
                               (mk_upsert userId url profileData with_tags stamp)))
             (fun res =>
        match error res with
        | Some _ => ret None
        | None =>
            match data res with
            | Some d => ret (Some d)
            | None => throw type_error
            end
        end))))
       (fun _ => ret None))
    (fun saved =>
       bind (emit (upserted userId url profileData with_tags saved))
            (fun _ => ret saved)).

(** [profileData.linkedinUrl] as a condition: a non-empty string. *)
Definition truthy_url (x : item) : option string :=
  match linkedinUrl x with
  | Some u => if String.eqb u "" then None else Some u
  | None => None
  end.

(** [App.tsx], lines 443-451: the cache check of every URL. *)
Fixpoint check_each (svc : services) (profileUrls : list string)
    (results : list item) (urlsToScrape : list string) (savedCost : nat)
  : app (list item * list string * nat) :=
  match profileUrls with
  | [] => ret (results, urlsToScrape, savedCost)
  | url :: rest =>
      bind (checkProfileExists svc url) (fun existingProfile =>
      match existingProfile with
      | Some p =>
          check_each svc rest (results ++ [profile_data p])%list urlsToScrape
                     (savedCost + 1)
      | None =>
          check_each svc rest results (urlsToScrape ++ [url])%list savedCost
      end)
  end.

(** [App.tsx], lines 462-473: the save of every scraped profile that has a
    URL; the item goes into the results from the try and from the catch. *)
Fixpoint save_each (svc : services) (userId : string) (newProfilesData : list item)
    (results : list item) : app (list item) :=
  match newProfilesData with
  | [] => ret results
  | profileData :: rest =>
      match truthy_url profileData with
      | Some url =>
          bind
            (try_catch
               (bind (upsertProfile svc userId url profileData []) (fun _ =>
                ret (results ++ [profileData])%list))
               (fun _ => ret (results ++ [profileData])%list))
            (fun results' => save_each svc userId rest results')
      | None => save_each svc userId rest results
      end
  end.

(** [App.tsx], lines 435-479. *)
Definition getProfilesWithOptimization (svc : services) (profileUrls : list string)
    (userId : string) : app (list item) :=
  bind (updateLoadingProgress "scraping_profiles" 30
          "Checking database for existing profiles...") (fun _ =>
  bind (check_each svc profileUrls [] [] 0) (fun '(results, urlsToScrape, savedCost) =>
  bind
    (if (0 <? List.length urlsToScrape)%nat then
       bind (updateLoadingProgress "scraping_profiles" 50
               ("Scraping " ++ Sql.int_to_text (List.length urlsToScrape)
                ++ " new profiles (saved " ++ Sql.int_to_text savedCost
                ++ " API calls)...")) (fun _ =>
       bind (fun s =>
               let (s1, c) := scrapeProfiles svc s urlsToScrape in
               ([scrape_started urlsToScrape c], s1, c)) (fun datasetId =>
       bind (fun s =>
               let (s1, c) := getDatasetItems svc s datasetId in
               ([items_fetched datasetId c], s1, c)) (fun newProfilesData =>
       bind (updateLoadingProgress "scraping_profiles" 70 "Saving new profiles...")
            (fun _ => save_each svc userId newProfilesData results))))
     else ret results)
    (fun results' =>
  bind (updateLoadingProgress "scraping_profiles" 90
          ("Completed! Saved " ++ Sql.int_to_text savedCost
           ++ " API calls by using cached profiles.")) (fun _ =>
  ret results')))).

(** *** Reading a run *)

Fixpoint checks (tr : list event) : list (string * option LinkedInProfile) :=
  match tr with
  | [] => []
  | checked url found :: rest => (url, found) :: checks rest
  | _ :: rest => checks rest
  end.

(** The data of the profiles the cache held, and the URLs it did not hold. *)
Fixpoint hits (cs : list (string * option LinkedInProfile)) : list item :=
  match cs with
  | [] => []
  | (_, Some p) :: rest => profile_data p :: hits rest
  | (_, None) :: rest => hits rest
  end.

Fixpoint misses (cs : list (string * option LinkedInProfile)) : list string :=
  match cs with
  | [] => []
  | (_, Some _) :: rest => misses rest
  | (url, None) :: rest => url :: misses rest
  end.

(** The saves: who saved which item under which URL and with which tags. *)
Fixpoint saves (tr : list event) : list (string * string * item * list string) :=
  match tr with
  | [] => []
  | upserted userId url x with_tags _ :: rest => (userId, url, x, with_tags) :: saves rest
  | _ :: rest => saves rest
  end.

(** How the scraper answered when it was started, and when its dataset was
    read. *)
Fixpoint scrape_answers (tr : list event)
  : list (list string * Client.completion js_error string) :=
  match tr with
  | [] => []
  | scrape_started urls c :: rest => (urls, c) :: scrape_answers rest
  | _ :: rest => scrape_answers rest
  end.

Fixpoint fetches (tr : list event)
  : list (string * Client.completion js_error (list item)) :=
  match tr with
  | [] => []
  | items_fetched dataset c :: rest => (dataset, c) :: fetches rest
  | _ :: rest => fetches rest
  end.

(** The saves a list of scraped items asks for: one for each item with a
    URL, under that URL and without tags. *)
Fixpoint to_save (userId : string) (items : list item)
  : list (string * string * item * list string) :=
  match items with
  | [] => []
  | x :: rest =>
      match truthy_url x with
      | Some url => (userId, url, x, []) :: to_save userId rest
      | None => to_save userId rest
      end
  end.

(** The items a save loop keeps: those with a URL. *)
Definition with_url (items : list item) : list item :=
  filter (fun x => match truthy_url x with Some _ => true | None => false end) items.

(** What [checkProfileExists] answers, read off the two calls it makes:
    the row only when the query resolved with it and reported no error
    other than "no rows" (PGRST116). *)
Definition check_answer (svc : services) (url : string) (s : store)
  : store * option LinkedInProfile :=
  match createClerkSupabaseClient svc s with
  | (s1, Client.thrown _) => (s1, None)
  | (s1, Client.normal _) =>
      match select_by_url svc s1 url with
      | (s2, Client.thrown _) => (s2, None)
      | (s2, Client.normal res) =>
          (s2,
           match error res with
           | Some e => if String.eqb (code e) "PGRST116" then data res else None
           | None => data res
           end)
      end
  end.

(** What [upsertProfile] answers: the row only when the upsert resolved
    with it and without an error. *)
Definition save_answer (svc : services) (userId url : string) (profileData : item)
    (with_tags : list string) (s : store) : store * option LinkedInProfile :=
  match createClerkSupabaseClient svc s with
  | (s1, Client.thrown _) => (s1, None)
  | (s1, Client.normal _) =>
      match upsert_on_url svc s1
              (mk_upsert userId url profileData with_tags (now_iso svc s1)) with
      | (s2, Client.thrown _) => (s2, None)
      | (s2, Client.normal res) =>
          (s2, match error res with Some _ => None | None => data res end)
      end
  end.

Definition events_of {A} (r : list event * store * Client.completion js_error A)
  : list event := fst (fst r).

Definition completion_of {A} (r : list event * store * Client.completion js_error A)
  : Client.completion js_error A := snd r.

End WithServices.

Arguments mk_profile {item}.
Arguments profile_data {item} _.
Arguments linkedin_url {item} _.
Arguments mk_single {item}.
Arguments data {item} _.
Arguments error {item} _.
Arguments mk_upsert {item}.
Arguments mk_services {item store js_error}.
Arguments scrapeProfiles {item store js_error} _ _ _.
Arguments getDatasetItems {item store js_error} _ _ _.
Arguments checked {item js_error}.
Arguments upserted {item js_error}.
Arguments scrape_started {item js_error}.
Arguments items_fetched {item js_error}.
Arguments progress {item js_error}.
Arguments checkProfileExists {item store js_error} svc url.
Arguments upsertProfile {item store js_error} type_error svc userId url profileData with_tags.
Arguments truthy_url {item} linkedinUrl x.
Arguments check_each {item store js_error} svc profileUrls results urlsToScrape savedCost.
Arguments save_each {item} linkedinUrl {store js_error} type_error svc userId newProfilesData results.
Arguments getProfilesWithOptimization {item} linkedinUrl {store js_error} type_error svc profileUrls userId.
Arguments checks {item js_error} tr.
Arguments hits {item} cs.
Arguments misses {item} cs.
Arguments saves {item js_error} tr.
Arguments with_url {item} linkedinUrl items.
Arguments scrape_answers {item js_error} tr.
Arguments fetches {item js_error} tr.
Arguments to_save {item} linkedinUrl userId items.
Arguments check_answer {item store js_error} svc url s.
Arguments save_answer {item store js_error} svc userId url profileData with_tags s.
Arguments events_of {item store js_error A} r.
Arguments completion_of {item store js_error A} r.

End App.

(** ** Moving between the views of [App.tsx] *)

Module Navigation.

Inductive tab := scraper | profiles | jobs | storage.

Inductive view :=
| form | comments | profile_details | profile_table | profiles_list
| single_profile_details | user_profile | storage_view.

Section WithItems.

Variable item : Type.

(** The part of the component state the view handlers write. *)
Record nav := mk_nav {
  activeTab : tab;
  currentView : view;
  previousView : view;
  profileDetails : list item;
  selectedProfileForDetails : option item
}.

(** Lines 699-710. *)
Definition handleBackToPrevious (s : nav) : nav :=
  match previousView s with
  | comments =>
      mk_nav (activeTab s) comments (previousView s) (profileDetails s)
             (selectedProfileForDetails s)
  | profiles_list =>
      mk_nav profiles profiles_list (previousView s) (profileDetails s)
             (selectedProfileForDetails s)
  | profile_table =>
      mk_nav (activeTab s) profile_table (previousView s) (profileDetails s)
             (selectedProfileForDetails s)
  | _ =>
      mk_nav (activeTab s) form (previousView s) (profileDetails s)
             (selectedProfileForDetails s)
  end.

(** Lines 712-722. *)
Definition handleViewProfileDetails (profile : item) (s : nav) : nav :=
  match activeTab s with
  | profiles =>
      mk_nav (activeTab s) single_profile_details profiles_list (profileDetails s)
             (Some profile)
  | _ =>
      mk_nav (activeTab s) profile_details (currentView s) [profile]
             (selectedProfileForDetails s)
  end.

(** Lines 724-727. *)
Definition handleBackToProfilesList (s : nav) : nav :=
  mk_nav (activeTab s) profiles_list (previousView s) (profileDetails s) None.

(** Lines 730-760, the views it sets; the lists it loads are not part of
    this state. *)
Definition handleTabChange (t : tab) (s : nav) : nav :=
  mk_nav t
    match t with
    | profiles => profiles_list
    | scraper => form
    | jobs => form
    | storage => storage_view
    end
    (previousView s) (profileDetails s) (selectedProfileForDetails s).

End WithItems.

Arguments mk_nav {item}.
Arguments activeTab {item} _.
Arguments currentView {item} _.
Arguments previousView {item} _.
Arguments profileDetails {item} _.
Arguments selectedProfileForDetails {item} _.
Arguments handleBackToPrevious {item} s.
Arguments handleViewProfileDetails {item} profile s.
Arguments handleBackToProfilesList {item} s.
Arguments handleTabChange {item} t s.

End Navigation.

(** ** Sample services for the profile cache *)

Module CacheSamples.

(** An item is its own URL; the services remember the cached URLs and the
    URLs last handed to the scraper, whose dataset holds one item for each
    of them and one item without a URL. *)
Definition item := string.

Definition linkedinUrl (x : item) : option string := Some x.

Definition store := (list string * list string)%type.

Definition cached_profile (url : string) : App.LinkedInProfile item :=
  App.mk_profile "id" "owner" url url "2025-06-29" "2025-06-29" [].

Definition no_rows : App.PostgrestError :=
  App.mk_postgrest_error "PGRST116" "no rows".

Definition select_by_url (s : store) (url : string)
  : store * Client.completion string (App.single_response item) :=
  (s, Client.normal
        (if existsb (String.eqb url) (fst s)
         then App.mk_single (Some (cached_profile url)) None
         else App.mk_single None (Some no_rows))).

Definition upsert_on_url (s : store) (row : App.upsert_row item)
  : store * Client.completion string (App.single_response item) :=
  ((App.u_linkedin_url _ row :: fst s, snd s),
   Client.normal (App.mk_single (Some (cached_profile (App.u_linkedin_url _ row))) None)).

Definition working : App.services item store string :=
  App.mk_services
    (fun s => (s, Client.normal tt))
    select_by_url upsert_on_url
    (fun s urls => ((fst s, urls), Client.normal "dataset-1"))
    (fun s _ => (s, Client.normal (snd s ++ [""])%list))
    (fun _ => "2025-06-29T09:06:43.000Z").

(** The same services with a scraper that refuses to start. *)
Definition out_of_credit : App.services item store string :=
  App.mk_services
    (fun s => (s, Client.normal tt))
    select_by_url upsert_on_url
    (fun s _ => (s, Client.thrown "out of credit"))
    (fun s _ => (s, Client.normal []))
    (fun _ => "2025-06-29T09:06:43.000Z").

Definition two_cached : store := (["https://l.in/ann"; "https://l.in/bob"], []).

End CacheSamples.

(** * Properties *)

(** ** The SQL helpers *)

Module SqlFacts.

Import Sql.

Example before_at_ex : before_at "jane@x.com" = "jane".
Proof. reflexivity. Qed.

Example trim_ex : trim (Some "  a b  ") = Some "a b".
Proof. reflexivity. Qed.

Example int_to_text_ex : int_to_text 10 = "10" /\ int_to_text 0 = "0".
Proof. split; reflexivity. Qed.

Example lower_ex : lower (Some "Jane Doe") = Some "jane doe".
Proof. reflexivity. Qed.

Example substring_1_8_ex :
  substring_1_8 "11111111-2222-3333-4444-555555555555" = "11111111" /\
  substring_1_8 "user_2abc" = "user_2ab" /\ substring_1_8 "abc" = "abc".
Proof. repeat split. Qed.

(** On ASCII text the first 8 characters are the first 8 bytes. *)
Lemma take_chars_ascii n : forall s,
  Shape.all_chars (fun c => negb (is_continuation c)) s = true ->
  take_chars n s = String.substring 0 n s.
Proof.
  induction n as [|n IH]; intros [|c s]; simpl; try reflexivity.
  - intros H. apply andb_prop in H. destruct H as [H _].
    apply negb_true_iff in H. now rewrite H.
  - intros H. apply andb_prop in H. destruct H as [H Hs].
    apply negb_true_iff in H. rewrite H. f_equal. now apply IH.
Qed.

(** A character of two bytes counts once: of the text "e-acute, a, b" the
    first two characters are three bytes. *)
Example take_chars_counts_characters :
  take_chars 2 (String (ascii_of_nat 195) (String (ascii_of_nat 169) "ab"))
  = String (ascii_of_nat 195) (String (ascii_of_nat 169) "a").
Proof. reflexivity. Qed.

Lemma length_append (a b : string) :
  String.length (a ++ b) = String.length a + String.length b.
Proof. induction a as [|c a IH]; simpl; [reflexivity | now rewrite IH]. Qed.

Lemma append_nil_r (a : string) : a ++ "" = a.
Proof. induction a as [|c a IH]; simpl; [reflexivity | now rewrite IH]. Qed.

Lemma append_assoc (a b c : string) : (a ++ b) ++ c = a ++ (b ++ c).
Proof. induction a as [|x a IH]; simpl; [reflexivity | now rewrite IH]. Qed.

Lemma concat_empty_r (a : text) : concat a (Some "") = a.
Proof. destruct a as [s|]; simpl; [now rewrite append_nil_r | reflexivity]. Qed.

Lemma concat_some (a b : text) (s : string) :
  concat a b = Some s -> exists x y, a = Some x /\ b = Some y /\ s = x ++ y.
Proof.
  destruct a as [x|], b as [y|]; simpl; try discriminate.
  intros [= <-]. now exists x, y.
Qed.

Lemma is_null_true (a : text) : is_null a = true -> a = None.
Proof. destruct a; simpl; [discriminate | reflexivity]. Qed.

Lemma is_null_false (a : text) : is_null a = false -> exists s, a = Some s.
Proof. destruct a as [s|]; simpl; [now exists s | discriminate]. Qed.

End SqlFacts.

(** ** Inserting and selecting *)

Module DbFacts.

Import Db.

Lemma insert_accepted w v w' row :
  insert_users w v = (w', inr row) ->
  users w' = (users w ++ [row])%list /\
  v_auth_user_id v = Some (auth_user_id row) /\
  v_username v = Some (username row) /\
  v_email v = Some (email row) /\
  full_name row = v_full_name v /\
  id row = uuid_src w (uuid_pos w).
Proof.
  unfold insert_users.
  destruct (v_auth_user_id v) as [a|]; [|discriminate].
  destruct (v_username v) as [u|]; [|discriminate].
  destruct (v_email v) as [e|]; [|discriminate].
  repeat match goal with
         | |- context [if ?b then _ else _] => destruct b; [discriminate|]
         end.
  intros [= <- <-]. simpl. repeat split.
Qed.

Lemma insert_rejected w v w' e :
  insert_users w v = (w', inl e) -> users w' = users w.
Proof.
  unfold insert_users.
  destruct (v_auth_user_id v) as [a|]; [|now intros [= <- _]].
  destruct (v_username v) as [u|]; [|now intros [= <- _]].
  destruct (v_email v) as [m|]; [|now intros [= <- _]].
  repeat match goal with
         | |- context [if ?b then _ else _] => destruct b; [now intros [= <- _]|]
         end.
  discriminate.
Qed.

(** A NULL username is rejected by the NOT NULL constraint, whatever the
    table holds. *)
Lemma insert_null_username w a m f :
  insert_users w (mk_values (Some a) None m f)
  = (next_uuid w, inl (not_null_violation col_username)).
Proof. reflexivity. Qed.

(** An e-mail already stored makes the INSERT a unique violation,
    whatever the username. *)
Lemma insert_email_taken w a u m f :
  taken email (users w) m = true ->
  exists c, insert_users w (mk_values (Some a) (Some u) (Some m) f)
            = (next_uuid w, inl (unique_violation c)).
Proof.
  intros H. unfold insert_users; simpl.
  destruct (taken id _ _); [eauto|].
  destruct (taken auth_user_id _ _); [eauto|].
  destruct (taken username _ _); [eauto|].
  rewrite H. eauto.
Qed.

(** An INSERT draws a uuid, never a [random()]. *)
Lemma insert_keeps_rand_pos w v :
  rand_pos (fst (insert_users w v)) = rand_pos w.
Proof.
  unfold insert_users.
  destruct (v_auth_user_id v) as [a|]; [|reflexivity].
  destruct (v_username v) as [u|]; [|reflexivity].
  destruct (v_email v) as [e|]; [|reflexivity].
  repeat match goal with
         | |- context [if ?b then _ else _] => destruct b; [reflexivity|]
         end.
  reflexivity.
Qed.

Lemma select_after_insert us a row :
  select_by_auth_user_id us a = None ->
  auth_user_id row = a ->
  select_by_auth_user_id (us ++ [row])%list a = Some row.
Proof.
  unfold select_by_auth_user_id. intros Hnone <-.
  induction us as [|r us IH]; simpl in *.
  - now rewrite String.eqb_refl.
  - destruct (String.eqb (auth_user_id r) (auth_user_id row)); [discriminate|].
    now apply IH.
Qed.

Lemma select_finds us a row :
  select_by_auth_user_id us a = Some row -> In row us /\ auth_user_id row = a.
Proof.
  unfold select_by_auth_user_id. intros H.
  apply find_some in H. destruct H as [Hin Heq].
  split; [assumption | now apply String.eqb_eq].
Qed.

End DbFacts.

(** ** More on inserting *)

Module DbMore.

Import Db.

Lemma taken_false_iff col us x :
  taken col us x = false <-> ~ In x (map col us).
Proof.
  unfold taken. induction us as [|r us IH]; simpl.
  - split; [intros _ [] | reflexivity].
  - destruct (String.eqb (col r) x) eqn:E; simpl.
    + apply String.eqb_eq in E. split; [discriminate | intros H; exfalso; auto].
    + apply String.eqb_neq in E. rewrite IH. split.
      * intros H [H1|H1]; auto.
      * intros H H1. apply H. now right.
Qed.

(** A row none of whose keys is stored is accepted and appended. *)
Lemma insert_accepts w a u m f :
  taken id (users w) (uuid_src w (uuid_pos w)) = false ->
  taken auth_user_id (users w) a = false ->
  taken username (users w) u = false ->
  taken email (users w) m = false ->
  let row := mk_users_row (uuid_src w (uuid_pos w)) a u m f (now w) (now w) in
  insert_users w (mk_values (Some a) (Some u) (Some m) f)
  = (set_users (next_uuid w) (users w ++ [row])%list, inr row).
Proof.
  intros H1 H2 H3 H4. unfold insert_users. simpl.
  now rewrite H1, H2, H3, H4.
Qed.

(** An INSERT whose username is not stored is not rejected for its
    username. *)
Lemma insert_free_username w v w' e :
  username_exists (users w) (v_username v) = false ->
  insert_users w v = (w', inl e) ->
  e <> unique_violation col_username.
Proof.
  unfold insert_users, username_exists.
  destruct (v_auth_user_id v) as [a|]; [|intros _ [= _ <-]; discriminate].
  destruct (v_username v) as [u|]; [|intros _ [= _ <-]; discriminate].
  destruct (v_email v) as [m|]; [|intros _ [= _ <-]; discriminate].
  intros Hfree.
  destruct (taken id _ _); [intros [= _ <-]; discriminate|].
  destruct (taken auth_user_id _ _); [intros [= _ <-]; discriminate|].
  rewrite Hfree.
  destruct (taken email _ _); [intros [= _ <-]; discriminate|].
  discriminate.
Qed.

(** An INSERT whose username is stored is rejected as a duplicate, whatever
    else it carries. *)
Lemma insert_taken_username w a u m f :
  taken username (users w) u = true ->
  exists c, insert_users w (mk_values (Some a) (Some u) (Some m) f)
            = (next_uuid w, inl (unique_violation c)).
Proof.
  intros H. unfold insert_users; simpl.
  destruct (taken id _ _); [eauto|].
  destruct (taken auth_user_id _ _); [eauto|].
  rewrite H. eauto.
Qed.

Lemma select_none_not_taken us a :
  select_by_auth_user_id us a = None -> taken auth_user_id us a = false.
Proof.
  unfold select_by_auth_user_id, taken. induction us as [|r us IH]; simpl;
    [reflexivity|].
  destruct (String.eqb (auth_user_id r) a); [discriminate | exact IH].
Qed.

Lemma select_skips_other us a row :
  auth_user_id row <> a ->
  select_by_auth_user_id (us ++ [row])%list a = select_by_auth_user_id us a.
Proof.
  unfold select_by_auth_user_id. intros Hne.
  induction us as [|r us IH]; simpl.
  - apply String.eqb_neq in Hne. now rewrite Hne.
  - destruct (String.eqb (auth_user_id r) a); [reflexivity | exact IH].
Qed.

Lemma taken_app col us row x :
  taken col (us ++ [row])%list x = taken col us x || String.eqb (col row) x.
Proof.
  unfold taken. rewrite existsb_app. simpl. now rewrite orb_false_r.
Qed.

End DbMore.

(** ** [get_or_create_user_profile]: the loop ends, the call returns *)

Module ClerkFacts.

Import Sql Db Clerk.

Lemma taken_not_longer us x :
  taken username us x = true -> String.length x <= longest_username us.
Proof.
  unfold taken. induction us as [|r us IH]; simpl; [discriminate|].
  destruct (String.eqb (username r) x) eqn:E; simpl.
  - intros _. apply String.eqb_eq in E. subst x. apply Nat.le_max_l.
  - intros H. specialize (IH H). lia.
Qed.

Lemma unique_username_null fuel w : unique_username fuel w None = Some (w, None).
Proof. destruct fuel; reflexivity. Qed.

(** The loop only moves the cursor of [random()]. *)
Lemma unique_username_frame fuel : forall w u w' u',
  unique_username fuel w u = Some (w', u') ->
  users w' = users w /\ uuid_src w' = uuid_src w /\ uuid_pos w' = uuid_pos w /\
  username_exists (users w) u' = false.
Proof.
  induction fuel as [|fuel IH]; intros w u w' u'; simpl;
    destruct (username_exists (users w) u) eqn:E; try discriminate.
  - intros [= <- <-]. auto.
  - intros H. apply IH in H. simpl in H. exact H.
  - intros [= <- <-]. auto.
Qed.

(** Every pass appends at least two characters, so the candidate outgrows
    the stored usernames. *)
Lemma unique_username_terminates fuel : forall w s,
  longest_username (users w) < String.length s + fuel ->
  exists w' u', unique_username fuel w (Some s) = Some (w', u').
Proof.
  induction fuel as [|fuel IH]; intros w s Hlen; simpl;
    destruct (taken username (users w) s) eqn:E; eauto.
  - apply taken_not_longer in E. lia.
  - apply IH. simpl. rewrite !SqlFacts.length_append. simpl. lia.
Qed.

(** Each pass draws [random()] once, so the cursor counts the passes:
    never more than the longest stored username has characters, plus one. *)
Lemma unique_username_passes fuel : forall w s w' u',
  unique_username fuel w (Some s) = Some (w', u') ->
  rand_pos w' <= rand_pos w + (longest_username (users w) + 1 - String.length s).
Proof.
  induction fuel as [|fuel IH]; intros w s w' u'; simpl;
    destruct (taken username (users w) s) eqn:E; try discriminate.
  - intros [= <- _]. lia.
  - intros H. apply IH in H. cbn [users set_rand_pos rand_pos] in H.
    apply taken_not_longer in E.
    rewrite !SqlFacts.length_append in H.
    change (String.length "_") with 1 in H. lia.
  - intros [= <- _]. lia.
Qed.

(** The loop only appends to the candidate it was given. *)
Lemma unique_username_extends fuel : forall w s w' u',
  unique_username fuel w (Some s) = Some (w', u') ->
  exists suffix, u' = Some (s ++ suffix).
Proof.
  induction fuel as [|fuel IH]; intros w s w' u'; simpl;
    destruct (taken username (users w) s) eqn:E; try discriminate.
  - intros [= _ <-]. exists "". now rewrite SqlFacts.append_nil_r.
  - intros H. apply IH in H. destruct H as [suffix ->].
    exists ("_" ++ random_suffix w ++ suffix).
    now rewrite !SqlFacts.append_assoc.
  - intros [= _ <-]. exists "". now rewrite SqlFacts.append_nil_r.
Qed.

(** When the candidate is taken, the next one is the candidate, an
    underscore and the draw of this pass; later passes only append. *)
Lemma unique_username_first_retry fuel w s w' u' :
  unique_username fuel w (Some s) = Some (w', u') ->
  taken username (users w) s = true ->
  exists suffix, u' = Some (s ++ "_" ++ random_suffix w ++ suffix).
Proof.
  intros H Htaken. destruct fuel as [|fuel]; simpl in H; rewrite Htaken in H;
    [discriminate|].
  apply unique_username_extends in H. destruct H as [suffix ->].
  exists suffix. now rewrite !SqlFacts.append_assoc.
Qed.

Lemma unique_username_free fuel w u :
  username_exists (users w) u = false -> unique_username fuel w u = Some (w, u).
Proof. intros H. destruct fuel; simpl; now rewrite H. Qed.

Lemma unique_username_enough fuel w u :
  enough_fuel w <= fuel -> exists w' u', unique_username fuel w u = Some (w', u').
Proof.
  unfold enough_fuel. intros H. destruct u as [s|].
  - apply unique_username_terminates. lia.
  - rewrite unique_username_null. eauto.
Qed.

(** With [enough_fuel] the call always finishes. *)
Lemma get_or_create_total fuel uid jwt w :
  enough_fuel w <= fuel ->
  exists r, get_or_create_user_profile fuel uid jwt w = Some r.
Proof.
  intros H. unfold get_or_create_user_profile.
  destruct (select_by_auth_user_id (users w) uid); [eauto|].
  destruct (unique_username_enough fuel w (_username (derive jwt)) H)
    as (w1 & u & ->).
  destruct (insert_users w1 _) as [w2 [e|row]]; eauto.
Qed.

(** The shape of a call that found no row: one INSERT, with the e-mail of
    line 244 and the full name of lines 220-229. *)
Lemma get_or_create_creates fuel uid jwt w r :
  select_by_auth_user_id (users w) uid = None ->
  get_or_create_user_profile fuel uid jwt w = Some r ->
  exists w1 u,
    unique_username fuel w (_username (derive jwt)) = Some (w1, u) /\
    let v := mk_values (Some uid) u (insert_email uid (derive jwt))
                       (_full_name (derive jwt)) in
    trace r = [mk_event v (error_of (snd (insert_users w1 v)))] /\
    final r = fst (insert_users w1 v) /\
    match snd (insert_users w1 v) with
    | inr row => outcome r = inr row
    | inl e => outcome r = inl e
    end.
Proof.
  intros Hsel. unfold get_or_create_user_profile. rewrite Hsel.
  destruct (unique_username fuel w _) as [[w1 u]|]; [|discriminate].
  intros H. exists w1, u. split; [reflexivity|]. cbv zeta.
  destruct (insert_users w1 _) as [w2 [e|row]]; injection H as <-; simpl; auto.
Qed.

(** Line 244: the e-mail claim when there is one, else the placeholder. *)
Lemma insert_email_value uid jwt :
  insert_email uid (derive jwt)
  = Some match jwt ->> "email" with
         | Some m => m
         | None => uid ++ "@clerk.local"
         end.
Proof.
  unfold insert_email, derive, extract_claims. simpl.
  destruct (jwt ->> "email"); reflexivity.
Qed.

(** Line 232 gives a username exactly for the claims that name a user. *)
Lemma username_of_claims jwt :
  names_a_user jwt = true <-> exists s, _username (derive jwt) = Some s.
Proof.
  unfold names_a_user, derive, generate_username, fallback_full_name, extract_claims.
  simpl.
  destruct (jwt ->> "email") as [m|]; simpl;
    (destruct (jwt ->> "name") as [n|]; simpl;
     [destruct (String.eqb n "") eqn:E; simpl|]);
    destruct (jwt ->> "given_name"), (jwt ->> "family_name"); simpl;
    split; intros H; try reflexivity; try discriminate; eauto;
    destruct H as [? H]; discriminate.
Qed.

(** The first call for a subject without a profile, when the claims name
    a user and neither the e-mail of line 244 nor the generated id is
    stored: the row is created and appended. *)
Lemma first_call_creates fuel uid jwt w r :
  select_by_auth_user_id (users w) uid = None ->
  get_or_create_user_profile fuel uid jwt w = Some r ->
  names_a_user jwt = true ->
  taken id (users w) (uuid_src w (uuid_pos w)) = false ->
  taken email (users w)
    match jwt ->> "email" with
    | Some m => m
    | None => uid ++ "@clerk.local"
    end = false ->
  exists p, outcome r = inr p /\ users (final r) = (users w ++ [p])%list.
Proof.
  intros Hsel Hr Hname Hid Hmail.
  destruct (get_or_create_creates fuel uid jwt w r Hsel Hr)
    as (w1 & u & Hloop & _ & Hfinal & Hout).
  apply username_of_claims in Hname. destruct Hname as [s Hs].
  rewrite Hs in Hloop.
  destruct (unique_username_extends _ _ _ _ _ Hloop) as [suffix ->].
  apply unique_username_frame in Hloop.
  destruct Hloop as (Hus & Hsrc & Hpos & Hfree). simpl in Hfree.
  rewrite insert_email_value in Hfinal, Hout.
  rewrite DbMore.insert_accepts in Hfinal, Hout;
    rewrite ?Hus, ?Hsrc, ?Hpos; auto using DbMore.select_none_not_taken.
  simpl in Hout, Hfinal. eexists. split; [exact Hout|].
  rewrite Hfinal. simpl. now rewrite Hus.
Qed.

(** A call that raises has stored nothing. *)
Lemma failed_call_stores_nothing fuel uid jwt w r e :
  get_or_create_user_profile fuel uid jwt w = Some r ->
  outcome r = inl e ->
  users (final r) = users w /\ select_by_auth_user_id (users w) uid = None.
Proof.
  intros Hr He.
  destruct (select_by_auth_user_id (users w) uid) as [row|] eqn:Hsel.
  - unfold get_or_create_user_profile in Hr. rewrite Hsel in Hr.
    injection Hr as <-. discriminate.
  - split; [|reflexivity].
    destruct (get_or_create_creates fuel uid jwt w r Hsel Hr)
      as (w1 & u & Hloop & _ & Hfinal & Hout).
    apply unique_username_frame in Hloop. destruct Hloop as (Hus & _).
    destruct (insert_users w1 _) as [w2 [e'|row]] eqn:Hins; simpl in *.
    + apply DbFacts.insert_rejected in Hins. now rewrite Hfinal, Hins.
    + congruence.
Qed.

(** A call that returns a profile leaves it in the table as the row of
    the subject. *)
Lemma returned_profile_is_selected fuel uid jwt w r p :
  get_or_create_user_profile fuel uid jwt w = Some r ->
  outcome r = inr p ->
  select_by_auth_user_id (users (final r)) uid = Some p.
Proof.
  intros Hr Hp.
  destruct (select_by_auth_user_id (users w) uid) as [row|] eqn:Hsel.
  - unfold get_or_create_user_profile in Hr. rewrite Hsel in Hr.
    injection Hr as <-. simpl in *. congruence.
  - destruct (get_or_create_creates fuel uid jwt w r Hsel Hr)
      as (w1 & u & Hloop & _ & Hfinal & Hout).
    apply unique_username_frame in Hloop. destruct Hloop as (Hus & _).
    destruct (insert_users w1 _) as [w2 [e|row]] eqn:Hins; simpl in *.
    + congruence.
    + assert (row = p) by congruence. subst row.
      apply DbFacts.insert_accepted in Hins.
      destruct Hins as (Hrows & Hauth & _). simpl in Hauth.
      injection Hauth as Hauth.
      rewrite Hfinal, Hrows, Hus.
      now apply DbFacts.select_after_insert.
Qed.

End ClerkFacts.

(** ** [get_or_create_user_profile]: the read path and the created row *)

Module ClerkProps.

Import Sql Db Clerk ClerkFacts.

(** C9. If a row of [public.users] already carries the given
    [user_auth_id], the call returns exactly that row, issues no INSERT,
    and leaves the world, and so the table, as it was. *)
Theorem existing_profile_returned_unchanged fuel uid jwt w row :
  select_by_auth_user_id (users w) uid = Some row ->
  get_or_create_user_profile fuel uid jwt w = Some (mk_run (inr row) w [])
  /\ In row (users w).
Proof.
  intros H. unfold get_or_create_user_profile. rewrite H.
  split; [reflexivity|]. now apply DbFacts.select_finds in H.
Qed.

Lemma existing_profile_returned_unchanged_witness :
  get_or_create_user_profile 0 "user_2abc" [("email", "new@x.com")] Samples.jane_stored
  = Some (mk_run (inr Samples.jane_row) Samples.jane_stored [])
  /\ In Samples.jane_row (users Samples.jane_stored).
Proof.
  apply (existing_profile_returned_unchanged 0 "user_2abc"
           [("email", "new@x.com")] Samples.jane_stored Samples.jane_row).
  reflexivity.
Defined.

(** C1. Two calls in a row for the same [user_auth_id].  The first call
    finishes.  It returns a profile when the subject has one already, and
    for a subject without a profile when the claims name a user and
    neither the e-mail of line 244 nor the generated id is stored yet.
    When it returns a profile, the second call, whatever claims it
    carries, returns that same profile (so the same [id]) on the read
    path: no INSERT, the world unchanged.  When it raises, it has stored
    nothing, and the second call is no read: it issues the INSERT again. *)
Theorem get_or_create_twice_same_profile fuel uid jwt jwt' w :
  enough_fuel w <= fuel ->
  exists r1,
    get_or_create_user_profile fuel uid jwt w = Some r1 /\
    (select_by_auth_user_id (users w) uid <> None \/
     (names_a_user jwt = true /\
      taken id (users w) (uuid_src w (uuid_pos w)) = false /\
      taken email (users w)
        match jwt ->> "email" with
        | Some m => m
        | None => uid ++ "@clerk.local"
        end = false) ->
     exists p, outcome r1 = inr p) /\
    match outcome r1 with
    | inr p =>
        forall fuel',
          get_or_create_user_profile fuel' uid jwt' (final r1)
          = Some (mk_run (inr p) (final r1) [])
    | inl _ =>
        users (final r1) = users w /\
        exists r2 ev,
          get_or_create_user_profile fuel uid jwt' (final r1) = Some r2 /\
          trace r2 = [ev]
    end.
Proof.
  intros Hfuel.
  destruct (get_or_create_total fuel uid jwt w Hfuel) as [r Hr].
  exists r. split; [assumption|]. split.
  - destruct (select_by_auth_user_id (users w) uid) as [row|] eqn:Hsel.
    + intros _. unfold get_or_create_user_profile in Hr. rewrite Hsel in Hr.
      injection Hr as <-. now exists row.
    + intros [Hex|(Hname & Hid & Hmail)]; [congruence|].
      destruct (first_call_creates fuel uid jwt w r Hsel Hr Hname Hid Hmail)
        as (p & Hp & _).
      now exists p.
  - destruct (outcome r) as [e|p] eqn:Hout.
    + destruct (failed_call_stores_nothing fuel uid jwt w r e Hr Hout) as [Hus Hsel].
      split; [assumption|].
      assert (Hfuel' : enough_fuel (final r) <= fuel).
      { unfold enough_fuel in *. now rewrite Hus. }
      destruct (get_or_create_total fuel uid jwt' (final r) Hfuel') as [r2 Hr2].
      rewrite <- Hus in Hsel.
      destruct (get_or_create_creates fuel uid jwt' (final r) r2 Hsel Hr2)
        as (w1 & u & _ & Htr & _).
      eexists r2, _. split; [assumption | exact Htr].
    + intros fuel'. unfold get_or_create_user_profile.
      now rewrite (returned_profile_is_selected fuel uid jwt w r p Hr Hout).
Qed.

Lemma get_or_create_twice_same_profile_witness :
  exists r1,
    get_or_create_user_profile 1 "user_2abc" Samples.jane_jwt Samples.empty_world
    = Some r1 /\
    (select_by_auth_user_id (users Samples.empty_world) "user_2abc" <> None \/
     (names_a_user Samples.jane_jwt = true /\
      taken id (users Samples.empty_world)
        (uuid_src Samples.empty_world (uuid_pos Samples.empty_world)) = false /\
      taken email (users Samples.empty_world)
        match Samples.jane_jwt ->> "email" with
        | Some m => m
        | None => "user_2abc" ++ "@clerk.local"
        end = false) ->
     exists p, outcome r1 = inr p) /\
    match outcome r1 with
    | inr p =>
        forall fuel',
          get_or_create_user_profile fuel' "user_2abc" [] (final r1)
          = Some (mk_run (inr p) (final r1) [])
    | inl _ =>
        users (final r1) = users Samples.empty_world /\
        exists r2 ev,
          get_or_create_user_profile 1 "user_2abc" [] (final r1) = Some r2 /\
          trace r2 = [ev]
    end.
Proof.
  apply (get_or_create_twice_same_profile 1 "user_2abc" Samples.jane_jwt []
           Samples.empty_world).
  apply Nat.le_refl.
Defined.

(** The first call of the witness does create the row. *)
Example jane_is_created :
  option_map outcome
    (get_or_create_user_profile 1 "user_2abc" Samples.jane_jwt Samples.empty_world)
  = Some (inr Samples.jane_row).
Proof. reflexivity. Qed.

(** Two calls in a row that return no profile, the second of which
    issues the INSERT again: for a new subject whose e-mail another
    profile holds, and for a new subject without claims. *)
Lemma two_calls_without_a_profile :
  (exists r1 r2 ev,
      get_or_create_user_profile 1 "user_2new" [("email", "jane@x.com")]
        Samples.jane_stored = Some r1 /\
      outcome r1 = inl (unique_violation col_email) /\
      get_or_create_user_profile 1 "user_2new" [("email", "jane@x.com")] (final r1)
      = Some r2 /\
      outcome r2 = inl (unique_violation col_email) /\
      trace r2 = [ev]) /\
  (exists r1 r2 ev,
      get_or_create_user_profile 1 "sub_123" [] Samples.empty_world = Some r1 /\
      outcome r1 = inl (not_null_violation col_username) /\
      get_or_create_user_profile 1 "sub_123" [] (final r1) = Some r2 /\
      outcome r2 = inl (not_null_violation col_username) /\
      trace r2 = [ev]).
Proof.
  split; eexists _, _, _; vm_compute; repeat split; reflexivity.
Qed.



(** With a name among the claims the profile of the witness is created. *)
Example named_without_email_is_created :
  option_map outcome
    (get_or_create_user_profile 1 "user_2abc" [("name", "Jane Doe")] Samples.empty_world)
  = Some (inr (mk_users_row (Samples.uuids 0) "user_2abc" "jane_doe"
                 "user_2abc@clerk.local" (Some "Jane Doe") 1000 1000)).
Proof. reflexivity. Qed.


End ClerkProps.

(** ** [handle_new_user]: what the retry loop can do *)

Module TriggerFacts.

Import Sql Db Trigger.

Lemma carried_refl l : carried l l.
Proof. repeat split. Qed.

Lemma construct_full_name_stable l f :
  f = construct_full_name l ->
  construct_full_name (set_full_name l f) = construct_full_name l.
Proof.
  intros ->. unfold construct_full_name at 1. simpl.
  destruct (is_null (construct_full_name l)) eqn:E; [|reflexivity].
  apply SqlFacts.is_null_true in E.
  unfold construct_full_name in *.
  destruct (is_null (_full_name l)) eqn:F; [reflexivity|].
  apply SqlFacts.is_null_false in F. destruct F as [s F].
  rewrite F in E. discriminate.
Qed.

Lemma carried_prepare NEW l0 l k :
  carried l0 l -> carried l0 (set_attempt_count (prepare NEW l) k).
Proof.
  intros (Hu & Hf & Hl & Hp & Hc). unfold carried. simpl.
  repeat split; try assumption.
  rewrite <- Hc.
  change (construct_full_name
            (set_attempt_count
               (set_full_name (set_unique_suffix l (suffix_for NEW (_attempt_count l)))
                  (construct_full_name
                     (set_unique_suffix l (suffix_for NEW (_attempt_count l))))) k)
          = construct_full_name l).
  transitivity (construct_full_name
                  (set_full_name
                     (set_unique_suffix l (suffix_for NEW (_attempt_count l)))
                     (construct_full_name
                        (set_unique_suffix l (suffix_for NEW (_attempt_count l)))))).
  - reflexivity.
  - now rewrite construct_full_name_stable.
Qed.

Lemma attempt_values_candidate NEW l0 l :
  carried l0 l ->
  attempt_values NEW (prepare NEW l) = candidate NEW l0 (_attempt_count l).
Proof.
  intros (Hu & _ & _ & _ & Hc). unfold attempt_values, candidate. simpl.
  rewrite Hu, <- Hc. reflexivity.
Qed.

Lemma fallback_values_candidate NEW l0 l k :
  carried l0 l ->
  let l2 := set_attempt_count (prepare NEW l) k in
  fallback_values NEW (set_username l2 (fallback_username NEW l2))
  = fallback_candidate NEW l0.
Proof.
  intros (_ & _ & _ & Hp & Hc). unfold fallback_values, fallback_candidate,
    fallback_username. simpl. rewrite Hp, <- Hc. reflexivity.
Qed.

(** Every finished run of the loop leaves a trace of the shape [retried]. *)
Lemma retry_loop_retried fuel : forall NEW w l0 l r,
  carried l0 l ->
  _attempt_count l < _max_attempts ->
  retry_loop fuel NEW w l = Some r ->
  retried NEW l0 (_attempt_count l) (trace r).
Proof.
  induction fuel as [|fuel IH]; intros NEW w l0 l r Hc Hlt;
    cbn [retry_loop];
    destruct (Nat.ltb_spec (_attempt_count l) _max_attempts) as [_|Hge];
    try lia; [discriminate|].
  cbv zeta.
  rewrite (attempt_values_candidate NEW l0 l Hc).
  destruct (insert_users w (candidate NEW l0 (_attempt_count l)))
    as [w1 [e|row]].
  - destruct e as [c|c|m e].
    + intros [= <-]. now apply settled.
    + change (_attempt_count (set_attempt_count (prepare NEW l)
                                (_attempt_count (prepare NEW l) + 1)))
        with (_attempt_count l + 1).
      change (_attempt_count (prepare NEW l)) with (_attempt_count l).
      destruct (Nat.leb_spec _max_attempts (_attempt_count l + 1)) as [Hlast|Hmore].
      * rewrite (fallback_values_candidate NEW l0 l (_attempt_count l + 1) Hc).
        destruct (insert_users w1 (fallback_candidate NEW l0)) as [w2 [e|row]];
          intros [= <-]; apply exhausted; lia.
      * destruct (retry_loop fuel NEW w1 _) as [r'|] eqn:Hrec; [|discriminate].
        cbn [option_map]. intros [= <-]. cbn [record_event trace].
        apply again; [lia|].
        apply (IH NEW w1 l0 _ r' (carried_prepare NEW l0 l _ Hc)) in Hrec.
        -- cbn [_attempt_count set_attempt_count] in Hrec.
           now rewrite Nat.add_1_r in Hrec.
        -- cbn [_attempt_count set_attempt_count]. lia.
    + intros [= <-]. now apply settled.
  - intros [= <-]. now apply settled.
Qed.

(** The loop needs at most as many passes as attempts are left. *)
Lemma retry_loop_total fuel : forall NEW w l,
  _max_attempts - _attempt_count l <= fuel ->
  exists r, retry_loop fuel NEW w l = Some r.
Proof.
  induction fuel as [|fuel IH]; intros NEW w l Hfuel; cbn [retry_loop];
    destruct (Nat.ltb_spec (_attempt_count l) _max_attempts) as [Hlt|Hge];
    eauto; try lia.
  cbv zeta.
  destruct (insert_users w _) as [w1 [e|row]]; eauto.
  destruct e as [c|c|m e]; eauto.
  change (_attempt_count (set_attempt_count (prepare NEW l)
                            (_attempt_count (prepare NEW l) + 1)))
    with (_attempt_count l + 1).
  change (_attempt_count (prepare NEW l)) with (_attempt_count l).
  destruct (Nat.leb_spec _max_attempts (_attempt_count l + 1)) as [Hlast|Hmore].
  - destruct (insert_users w1 _) as [w2 [e|row]]; eauto.
  - destruct (IH NEW w1 (set_attempt_count (prepare NEW l) (_attempt_count l + 1)))
      as [r' ->]; [cbn [_attempt_count set_attempt_count]; lia|].
    cbn [option_map]. eauto.
Qed.

(** *** What a trace of that shape tells *)

Section Shape.

Variable NEW : auth_users_row.
Variable l0 : locals.

(** The counters go up one by one from [n], at most to the last
    attempt; at most one fallback INSERT follows them, and only after
    the last attempt. *)
Lemma retried_numbers n tr :
  retried NEW l0 n tr ->
  exists m,
    attempt_numbers tr = seq n m /\ 1 <= m /\ n + m <= _max_attempts /\
    List.length (fallbacks tr) <= 1 /\
    (fallbacks tr <> [] -> n + m = _max_attempts) /\
    List.length tr = m + List.length (fallbacks tr).
Proof.
  induction 1 as [n e Hn He | n c tr Hn Hr IH | n c e Hn].
  - exists 1. simpl. repeat split; try lia. congruence.
  - destruct IH as (m & Hnum & Hm & Hle & Hfb & Hlast & Hlen).
    exists (S m). simpl. rewrite Hnum. repeat split; try lia.
    intros Hne. specialize (Hlast Hne). lia.
  - exists 1. simpl. repeat split; try lia.
Qed.

Lemma retried_candidate n tr :
  retried NEW l0 n tr ->
  forall k ev, In (loop_attempt k, ev) tr -> ev_values ev = candidate NEW l0 k.
Proof.
  induction 1 as [n e Hn He | n c tr Hn Hr IH | n c e Hn]; intros k ev; simpl.
  - intros [[= <- <-]|[]]. reflexivity.
  - intros [[= <- <-]|Hin]; [reflexivity | now apply IH].
  - intros [[= <- <-]|[[=]|[]]]. reflexivity.
Qed.

Lemma retried_fallback n tr :
  retried NEW l0 n tr ->
  forall ev, In ev (fallbacks tr) ->
    ev_values ev = fallback_candidate NEW l0 /\
    forall k ev', In (loop_attempt k, ev') tr -> rejected_as_duplicate ev' = true.
Proof.
  induction 1 as [n e Hn He | n c tr Hn Hr IH | n c e Hn]; intros ev; simpl.
  - intros [].
  - intros Hin. destruct (IH ev Hin) as [Hv Hall]. split; [assumption|].
    intros k ev' [[= <- <-]|Hin']; [reflexivity | now apply (Hall k)].
  - intros [<-|[]]. split; [reflexivity|].
    intros k ev' [[= <- <-]|[[=]|[]]]. reflexivity.
Qed.

(** When every attempt of the loop was a unique violation, the loop went
    up to the last attempt and the fallback INSERT was issued. *)
Lemma retried_exhausts n tr :
  retried NEW l0 n tr ->
  (forall k ev, In (loop_attempt k, ev) tr -> rejected_as_duplicate ev = true) ->
  exists ev, fallbacks tr = [ev] /\
             attempt_numbers tr = seq n (_max_attempts - n).
Proof.
  induction 1 as [n e Hn He | n c tr Hn Hr IH | n c e Hn]; intros Hall.
  - specialize (Hall n _ (or_introl eq_refl)). congruence.
  - destruct IH as (ev & Hfb & Hnum).
    { intros k ev Hin. apply (Hall k). now right. }
    exists ev. cbn [fallbacks attempt_numbers]. split; [assumption|].
    rewrite Hnum.
    replace (_max_attempts - n) with (S (_max_attempts - S n)) by lia.
    reflexivity.
  - eexists. cbn [fallbacks attempt_numbers]. split; [reflexivity|].
    replace (_max_attempts - n) with 1 by lia. reflexivity.
Qed.

(** The first two INSERTs. *)
Lemma retried_first_retry tr :
  retried NEW l0 0 tr ->
  exists ev0 rest,
    tr = (loop_attempt 0, ev0) :: rest /\
    ev_values ev0 = candidate NEW l0 0 /\
    (rejected_as_duplicate ev0 = false -> rest = []) /\
    (rejected_as_duplicate ev0 = true ->
     exists ev1 rest', rest = (loop_attempt 1, ev1) :: rest' /\
                       ev_values ev1 = candidate NEW l0 1).
Proof.
  intros H. inversion H as [n e Hn He | n c tr' Hn Hr | n c e Hn]; subst.
  - eexists _, []. repeat split. intros Hdup. congruence.
  - eexists _, tr'. repeat split; [discriminate|]. intros _.
    inversion Hr; subst; eexists _, _; split; reflexivity.
  - unfold _max_attempts in Hn. discriminate.
Qed.

End Shape.

Lemma init_locals_carries NEW :
  _email_prefix (init_locals NEW) = split_part_at_1 (new_email NEW) /\
  _attempt_count (init_locals NEW) = 0.
Proof.
  unfold init_locals.
  destruct (raw_user_meta_data NEW) as [md|]; cbn [_username];
    match goal with |- context [if ?b then _ else _] => destruct b end;
    split; reflexivity.
Qed.

(** The trace of a finished trigger run. *)
Lemma handle_new_user_retried fuel NEW w r :
  handle_new_user fuel NEW w = Some r ->
  retried NEW (init_locals NEW) 0 (trace r).
Proof.
  unfold handle_new_user. intros H.
  destruct (init_locals_carries NEW) as [_ H0].
  rewrite <- H0.
  apply (retry_loop_retried fuel NEW w (init_locals NEW) (init_locals NEW) r);
    [apply carried_refl | rewrite H0; unfold _max_attempts; lia | exact H].
Qed.

(** The first INSERT of a finished run carries the seeded username. *)
Lemma handle_new_user_first_insert fuel NEW w r :
  handle_new_user fuel NEW w = Some r ->
  exists ev0 rest,
    trace r = (loop_attempt 0, ev0) :: rest /\
    v_username (ev_values ev0) = _username (init_locals NEW) /\
    (rejected_as_duplicate ev0 = true ->
     exists ev1 rest',
       rest = (loop_attempt 1, ev1) :: rest' /\
       ev_values ev1 = candidate NEW (init_locals NEW) 1).
Proof.
  intros Hr. apply handle_new_user_retried in Hr.
  destruct (retried_first_retry _ _ _ Hr) as (ev0 & rest & Htr & Hv0 & _ & Hnext).
  exists ev0, rest. split; [assumption|]. split; [|assumption].
  rewrite Hv0. unfold candidate, suffix_for. simpl.
  apply SqlFacts.concat_empty_r.
Qed.

Lemma handle_new_user_total fuel NEW w :
  _max_attempts <= fuel -> exists r, handle_new_user fuel NEW w = Some r.
Proof.
  intros H. apply retry_loop_total. lia.
Qed.

End TriggerFacts.

(** ** [handle_new_user]: retries, fallback, and which violations are retried *)

Module TriggerProps.

Import Sql Db Trigger TriggerFacts.

(** The username and the full name the trigger starts from are those of
    the contract, for every new row with an e-mail. *)
Lemma init_locals_follow_contract NEW m :
  new_email NEW = Some m ->
  let c := Spec.claims_of_metadata (raw_user_meta_data NEW) in
  _username (init_locals NEW) = Some (Spec.username_seed c m) /\
  construct_full_name (init_locals NEW) = Some (Spec.displayName c m).
Proof.
  intros Hm. unfold init_locals, Spec.username_seed, Spec.displayName,
    Spec.claims_of_metadata, Spec.present, Spec.local_part. rewrite Hm.
  destruct (raw_user_meta_data NEW) as [md|]; simpl.
  - destruct (nullif (trim (md ->> "username")) "") as [u|];
      destruct (nullif (trim (md ->> "full_name")) "") as [f|];
      destruct (nullif (trim (md ->> "first_name")) "") as [a|];
      destruct (nullif (trim (md ->> "last_name")) "") as [b|];
      simpl; split; try reflexivity.
    all: unfold construct_full_name; simpl; now rewrite SqlFacts.append_assoc.
  - split; reflexivity.
Qed.

(** The first retry of [new_jane] in a table where ["jane"] is taken. *)
Example first_retry_of_jane :
  option_map (fun r => map (fun e => (fst e, v_username (ev_values (snd e)))) (trace r))
    (handle_new_user 10 Samples.new_jane (Samples.crowded_world 1))
  = Some [(loop_attempt 0, Some "jane"); (loop_attempt 1, Some "jane-11111111-1")].
Proof. vm_compute. reflexivity. Qed.

(** After ten collisions the trigger inserts the e-mail prefix, a hyphen,
    and the id without its hyphens, not the two put together directly. *)
Example fallback_username_keeps_a_hyphen :
  exists r ev,
    handle_new_user 10 Samples.new_jane (Samples.crowded_world 10) = Some r /\
    fallbacks (trace r) = [ev] /\
    ev_error ev = None /\
    v_username (ev_values ev) = Some "jane-11111111222233334444555555555555" /\
    v_username (ev_values ev)
    <> Some (Spec.final_fallback_username "jane@x.com" (new_id Samples.new_jane)).
Proof.
  eexists; eexists. split; [vm_compute; reflexivity|].
  split; [vm_compute; reflexivity|].
  split; [reflexivity|]. split; [reflexivity|].
  vm_compute. discriminate.
Qed.

(** Every run of [handle_new_user] finishes, and its first INSERT carries
    the seeded username; when it is a unique violation, the next INSERT is
    attempt 1 with the seed followed by a hyphen, the first 8 characters of
    [NEW.id], a hyphen and the attempt number.  At most one fallback INSERT
    is issued; it comes after attempts 0 to 9 were all unique violations,
    and then it is issued; its username is the e-mail prefix, a hyphen, and
    [NEW.id] with its hyphens removed. *)
Lemma trigger_retry_and_fallback fuel NEW w :
  _max_attempts <= fuel ->
  exists r,
    handle_new_user fuel NEW w = Some r /\
    (exists ev0 rest,
        trace r = (loop_attempt 0, ev0) :: rest /\
        v_username (ev_values ev0) = _username (init_locals NEW) /\
        (rejected_as_duplicate ev0 = true ->
         exists ev1 rest',
           rest = (loop_attempt 1, ev1) :: rest' /\
           v_username (ev_values ev1)
           = concat (_username (init_locals NEW))
                    (Some ("-" ++ substring_1_8 (new_id NEW) ++ "-" ++ "1"))))
    /\ List.length (fallbacks (trace r)) <= 1
    /\ (forall ev, In ev (fallbacks (trace r)) ->
          v_username (ev_values ev)
          = concat (concat (split_part_at_1 (new_email NEW)) (Some "-"))
                   (Some (replace_char "-" "" (new_id NEW)))
          /\ attempt_numbers (trace r) = seq 0 _max_attempts
          /\ forall k ev', In (loop_attempt k, ev') (trace r) ->
                           rejected_as_duplicate ev' = true)
    /\ ((forall k ev, In (loop_attempt k, ev) (trace r) ->
                      rejected_as_duplicate ev = true) ->
        exists ev, fallbacks (trace r) = [ev]).
Proof.
  intros Hfuel.
  destruct (handle_new_user_total fuel NEW w Hfuel) as [r Hrun].
  exists r. split; [assumption|].
  pose proof (handle_new_user_retried _ _ _ _ Hrun) as Hr.
  destruct (init_locals_carries NEW) as [Hprefix _].
  split; [|split; [|split]].
  - destruct (handle_new_user_first_insert _ _ _ _ Hrun)
      as (ev0 & rest & Htr & Hv0 & Hnext).
    exists ev0, rest. split; [assumption|]. split; [assumption|].
    intros Hdup. destruct (Hnext Hdup) as (ev1 & rest' & -> & Hv1).
    exists ev1, rest'. split; [reflexivity|].
    rewrite Hv1. unfold candidate, suffix_for. simpl.
    now rewrite SqlFacts.append_assoc.
  - destruct (retried_numbers _ _ _ _ Hr) as (m & _ & _ & _ & Hfb & _).
    exact Hfb.
  - intros ev Hin.
    destruct (retried_fallback _ _ _ _ Hr ev Hin) as [Hv Hall].
    destruct (retried_numbers _ _ _ _ Hr) as (m & Hnum & _ & _ & _ & Hlast & _).
    split; [|split].
    + rewrite Hv. unfold fallback_candidate, fallback_username. simpl.
      now rewrite Hprefix.
    + rewrite Hnum. f_equal.
      assert (fallbacks (trace r) <> []) as Hne
          by (intros E; rewrite E in Hin; exact Hin).
      specialize (Hlast Hne). lia.
    + exact Hall.
  - intros Hall. destruct (retried_exhausts _ _ _ _ Hr Hall) as (ev & Hfb & _).
    now exists ev.
Qed.

(** Whatever the column of a unique violation on the first INSERT, the
    trigger goes on to attempt 1. *)
Lemma any_unique_violation_is_retried fuel NEW w r ev0 rest c :
  handle_new_user fuel NEW w = Some r ->
  trace r = (loop_attempt 0, ev0) :: rest ->
  ev_error ev0 = Some (unique_violation c) ->
  exists ev1 rest', rest = (loop_attempt 1, ev1) :: rest'.
Proof.
  intros Hrun Htr He.
  destruct (handle_new_user_first_insert _ _ _ _ Hrun)
    as (ev0' & rest0 & Htr' & _ & Hnext).
  rewrite Htr in Htr'. injection Htr' as <- <-.
  destruct Hnext as (ev1 & rest' & -> & _).
  - unfold rejected_as_duplicate. now rewrite He.
  - now exists ev1, rest'.
Qed.

(** C3, on the code. Another user is stored with the e-mail of the new
    row: every INSERT of the trigger is a unique violation on [email], and
    the handler, which catches any unique violation, goes through all ten
    attempts and the fallback before the error leaves the function. *)
Theorem email_violation_is_retried :
  exists r,
    handle_new_user 10 Samples.new_jane Samples.same_email_world = Some r /\
    outcome r = inl (unique_violation col_email) /\
    attempt_numbers (trace r) = seq 0 10 /\
    List.length (fallbacks (trace r)) = 1 /\
    List.length (trace r) = 11 /\
    Forall (fun e => ev_error (snd e) = Some (unique_violation col_email)) (trace r) /\
    users (final r) = users Samples.same_email_world.
Proof.
  eexists. split; [vm_compute; reflexivity|].
  split; [reflexivity|]. split; [reflexivity|]. split; [reflexivity|].
  split; [reflexivity|]. split; [|reflexivity].
  repeat constructor.
Qed.

End TriggerProps.

(** ** The two provisioning functions side by side *)

Module ProvisioningProps.

Import Sql Db.

(** With ["jane"] taken and [random()] drawing 5, the Clerk function
    retries with ["jane_5"]: no hyphens, no part of the id of the new row,
    no attempt number. *)
Example clerk_retry_appends_a_random_number :
  exists r row,
    Clerk.get_or_create_user_profile 2 "user_2abc" Samples.plain_jane_jwt
      (Samples.chained_world 1) = Some r /\
    Clerk.outcome r = inr row /\
    username row = "jane_5" /\
    username row <> "jane" ++ "-" ++ substring_1_8 (id row) ++ "-" ++ "1".
Proof.
  eexists; eexists. split; [vm_compute; reflexivity|].
  split; [reflexivity|]. split; [reflexivity|].
  vm_compute. discriminate.
Qed.

(** C2, as stated, fails twice.  The fallback username of the trigger has
    a hyphen between the e-mail prefix and the stripped id; and the retry
    of [get_or_create_user_profile] does not use the id and the attempt
    number at all. *)
Lemma retry_claim_fails_on_both_functions :
  (exists r ev,
      Trigger.handle_new_user 10 Samples.new_jane (Samples.crowded_world 10) = Some r /\
      Trigger.fallbacks (Trigger.trace r) = [ev] /\
      v_username (ev_values ev)
      <> Some (Spec.final_fallback_username "jane@x.com"
                 (Trigger.new_id Samples.new_jane)))
  /\
  (exists r row,
      Clerk.get_or_create_user_profile 2 "user_2abc" Samples.plain_jane_jwt
        (Samples.chained_world 1) = Some r /\
      Clerk.outcome r = inr row /\
      username row <> "jane" ++ "-" ++ substring_1_8 (id row) ++ "-" ++ "1").
Proof.
  split.
  - destruct TriggerProps.fallback_username_keeps_a_hyphen
      as (r & ev & Hr & Hfb & _ & _ & Hne).
    exists r, ev. split; [exact Hr|]. split; [exact Hfb | exact Hne].
  - destruct clerk_retry_appends_a_random_number as (r & row & Hr & Hout & _ & Hne).
    exists r, row. split; [exact Hr|]. split; [exact Hout | exact Hne].
Qed.

(** C2, amended. In [handle_new_user], when the seeded username collides,
    the first retry carries the seed followed by a hyphen, the first 8
    characters of [NEW.id], a hyphen and the attempt number; after attempts
    0 to 9 were all unique violations exactly one fallback INSERT is made,
    whose username is the e-mail prefix, a hyphen, and [NEW.id] with its
    hyphens removed.  [get_or_create_user_profile] retries differently:
    when its candidate is taken, the username it inserts starts with the
    candidate, an underscore and the number drawn from [random()]; it
    issues one INSERT and no fallback. *)
Theorem retry_suffix_and_final_fallback fuel NEW w fuel' uid jwt w' :
  Trigger._max_attempts <= fuel ->
  Clerk.enough_fuel w' <= fuel' ->
  select_by_auth_user_id (users w') uid = None ->
  (exists r,
      Trigger.handle_new_user fuel NEW w = Some r /\
      (exists ev0 rest,
          Trigger.trace r = (Trigger.loop_attempt 0, ev0) :: rest /\
          v_username (ev_values ev0) = Trigger._username (Trigger.init_locals NEW) /\
          (Trigger.rejected_as_duplicate ev0 = true ->
           exists ev1 rest',
             rest = (Trigger.loop_attempt 1, ev1) :: rest' /\
             v_username (ev_values ev1)
             = concat (Trigger._username (Trigger.init_locals NEW))
                      (Some ("-" ++ substring_1_8 (Trigger.new_id NEW) ++ "-" ++ "1"))))
      /\ List.length (Trigger.fallbacks (Trigger.trace r)) <= 1
      /\ (forall ev, In ev (Trigger.fallbacks (Trigger.trace r)) ->
            v_username (ev_values ev)
            = concat (concat (split_part_at_1 (Trigger.new_email NEW)) (Some "-"))
                     (Some (replace_char "-" "" (Trigger.new_id NEW)))
            /\ Trigger.attempt_numbers (Trigger.trace r) = seq 0 Trigger._max_attempts
            /\ forall k ev', In (Trigger.loop_attempt k, ev') (Trigger.trace r) ->
                             Trigger.rejected_as_duplicate ev' = true)
      /\ ((forall k ev, In (Trigger.loop_attempt k, ev) (Trigger.trace r) ->
                        Trigger.rejected_as_duplicate ev = true) ->
          exists ev, Trigger.fallbacks (Trigger.trace r) = [ev]))
  /\
  (exists r' ev,
      Clerk.get_or_create_user_profile fuel' uid jwt w' = Some r' /\
      Clerk.trace r' = [ev] /\
      forall s, Clerk._username (Clerk.derive jwt) = Some s ->
                taken username (users w') s = true ->
                exists suffix,
                  v_username (ev_values ev)
                  = Some (s ++ "_" ++ Clerk.random_suffix w' ++ suffix)).
Proof.
  intros Hfuel Hfuel' Hsel. split.
  - apply TriggerProps.trigger_retry_and_fallback. exact Hfuel.
  - destruct (ClerkFacts.get_or_create_total fuel' uid jwt w' Hfuel') as [r' Hr'].
    destruct (ClerkFacts.get_or_create_creates fuel' uid jwt w' r' Hsel Hr')
      as (w1 & u & Hloop & Htr & _).
    exists r'. eexists. split; [assumption|]. split; [exact Htr|].
    intros s Hs Htaken. simpl. rewrite Hs in Hloop.
    exact (ClerkFacts.unique_username_first_retry _ _ _ _ _ Hloop Htaken).
Qed.

Lemma retry_suffix_and_final_fallback_witness :
  (exists r,
      Trigger.handle_new_user 10 Samples.new_jane (Samples.crowded_world 10) = Some r /\
      List.length (Trigger.fallbacks (Trigger.trace r)) <= 1 /\
      (forall ev, In ev (Trigger.fallbacks (Trigger.trace r)) ->
          v_username (ev_values ev)
          = concat (concat (split_part_at_1 (Trigger.new_email Samples.new_jane)) (Some "-"))
                   (Some (replace_char "-" "" (Trigger.new_id Samples.new_jane)))))
  /\
  (exists r' ev,
      Clerk.get_or_create_user_profile 5 "user_2abc" Samples.plain_jane_jwt
        (Samples.chained_world 1) = Some r' /\
      Clerk.trace r' = [ev] /\
      forall s, Clerk._username (Clerk.derive Samples.plain_jane_jwt) = Some s ->
                taken username (users (Samples.chained_world 1)) s = true ->
                exists suffix,
                  v_username (ev_values ev)
                  = Some (s ++ "_" ++ Clerk.random_suffix (Samples.chained_world 1)
                            ++ suffix)).
Proof.
  destruct (retry_suffix_and_final_fallback 10 Samples.new_jane
              (Samples.crowded_world 10) 5 "user_2abc" Samples.plain_jane_jwt
              (Samples.chained_world 1))
    as ((r & Hrun & _ & Hone & Hfb & _) & Hclerk).
  - apply Nat.le_refl.
  - vm_compute. apply Nat.le_refl.
  - reflexivity.
  - split; [|exact Hclerk].
    exists r. split; [assumption|]. split; [assumption|].
    intros ev Hin. exact (proj1 (Hfb ev Hin)).
Defined.

(** C4, as stated, fails on the loop of [get_or_create_user_profile]: it
    has no attempt counter and no fixed maximum.  With the first eleven
    names of the chain taken and [random()] drawing 5 every time, it makes
    eleven passes before it finds a free username. *)
Lemma clerk_loop_exceeds_ten_passes :
  exists r row,
    Clerk.get_or_create_user_profile 12 "user_2abc" Samples.plain_jane_jwt
      (Samples.chained_world 11)
    = Some r /\
    rand_pos (Clerk.final r) - rand_pos (Samples.chained_world 11) = 11 /\
    Spec.max_retry_attempts < 11 /\
    Clerk.outcome r = inr row /\
    username row = Samples.chained_name 11.
Proof.
  eexists; eexists. split; [vm_compute; reflexivity|].
  split; [reflexivity|]. split; [unfold Spec.max_retry_attempts; lia|].
  split; reflexivity.
Qed.

(** C4, amended. [handle_new_user] always finishes; the INSERTs of its
    loop carry the attempt counters 0, 1, 2, ... and are at most 10; at
    most one fallback INSERT follows, so at most 11 INSERTs are issued.
    [get_or_create_user_profile] always finishes too: its loop has no
    fixed maximum, but it makes at most one pass more than the longest
    stored username has characters, and the call issues at most one
    INSERT. *)
Theorem retry_loops_end fuel NEW w fuel' uid jwt w' :
  Trigger._max_attempts <= fuel ->
  Clerk.enough_fuel w' <= fuel' ->
  (exists r,
      Trigger.handle_new_user fuel NEW w = Some r /\
      exists m,
        Trigger.attempt_numbers (Trigger.trace r) = seq 0 m /\
        m <= Spec.max_retry_attempts /\
        List.length (Trigger.fallbacks (Trigger.trace r)) <= 1 /\
        List.length (Trigger.trace r) <= Spec.max_retry_attempts + 1)
  /\
  (exists r',
      Clerk.get_or_create_user_profile fuel' uid jwt w' = Some r' /\
      rand_pos (Clerk.final r') - rand_pos w'
      <= Clerk.longest_username (users w') + 1 /\
      List.length (Clerk.trace r') <= 1).
Proof.
  intros Hfuel Hfuel'. split.
  - destruct (TriggerFacts.handle_new_user_total fuel NEW w Hfuel) as [r Hr].
    exists r. split; [assumption|].
    apply TriggerFacts.handle_new_user_retried in Hr.
    destruct (TriggerFacts.retried_numbers _ _ _ _ Hr)
      as (m & Hnum & _ & Hle & Hfb & _ & Hlen).
    exists m. unfold Spec.max_retry_attempts, Trigger._max_attempts in *.
    repeat split; [assumption | lia | assumption | lia].
  - destruct (ClerkFacts.get_or_create_total fuel' uid jwt w' Hfuel') as [r' Hr'].
    exists r'. split; [assumption|].
    destruct (select_by_auth_user_id (users w') uid) as [row|] eqn:Hsel.
    + unfold Clerk.get_or_create_user_profile in Hr'. rewrite Hsel in Hr'.
      injection Hr' as <-. simpl. split; lia.
    + destruct (ClerkFacts.get_or_create_creates fuel' uid jwt w' r' Hsel Hr')
        as (w1 & u & Hloop & Htr & Hfinal & _).
      rewrite Htr, Hfinal, DbFacts.insert_keeps_rand_pos. split; [|simpl; lia].
      destruct (Clerk._username (Clerk.derive jwt)) as [s|].
      * apply ClerkFacts.unique_username_passes in Hloop. lia.
      * rewrite ClerkFacts.unique_username_null in Hloop.
        injection Hloop as <- _. lia.
Qed.

Lemma retry_loops_end_witness :
  (exists r,
      Trigger.handle_new_user 10 Samples.new_jane (Samples.crowded_world 10) = Some r /\
      exists m,
        Trigger.attempt_numbers (Trigger.trace r) = seq 0 m /\
        m <= Spec.max_retry_attempts /\
        List.length (Trigger.fallbacks (Trigger.trace r)) <= 1 /\
        List.length (Trigger.trace r) <= Spec.max_retry_attempts + 1)
  /\
  (exists r',
      Clerk.get_or_create_user_profile 25 "user_2abc" Samples.plain_jane_jwt
        (Samples.chained_world 11) = Some r' /\
      rand_pos (Clerk.final r') - rand_pos (Samples.chained_world 11)
      <= Clerk.longest_username (users (Samples.chained_world 11)) + 1 /\
      List.length (Clerk.trace r') <= 1).
Proof.
  apply (retry_loops_end 10 Samples.new_jane (Samples.crowded_world 10)
           25 "user_2abc" Samples.plain_jane_jwt (Samples.chained_world 11)).
  - apply Nat.le_refl.
  - vm_compute. apply Nat.le_refl.
Defined.

(** C5, on the code. With only a family name among the claims the Clerk
    function stores the e-mail prefix as full name, where the contract
    gives the last name; the trigger [handle_new_user] has the branch and
    stores the last name. *)
Theorem last_name_alone_is_skipped_by_clerk_function :
  (exists r row,
      Clerk.get_or_create_user_profile 1 "user_2abc"
        [("family_name", "Doe"); ("email", "jane@x.com")] Samples.empty_world
      = Some r /\
      Clerk.outcome r = inr row /\
      full_name row = Some "jane" /\
      Spec.displayName (Spec.mk_claims None (Some "jane@x.com") None (Some "Doe") None)
        "jane@x.com" = "Doe")
  /\
  (exists r ev,
      Trigger.handle_new_user 10
        (Trigger.mk_auth_user "11111111-2222-3333-4444-555555555555"
           (Some "jane@x.com") (Some [("last_name", "Doe")]))
        Samples.empty_world = Some r /\
      Trigger.trace r = [(Trigger.loop_attempt 0, ev)] /\
      ev_error ev = None /\
      v_full_name (ev_values ev) = Some "Doe").
Proof.
  split.
  - eexists; eexists. split; [vm_compute; reflexivity|].
    split; [reflexivity|]. split; reflexivity.
  - eexists; eexists. split; [vm_compute; reflexivity|].
    split; [reflexivity|]. split; reflexivity.
Qed.

(** C6, as stated, fails on [get_or_create_user_profile]: it reads no
    username claim and seeds the username from the full name, so the
    stored username is neither the claimed one nor the e-mail prefix. *)
Lemma clerk_username_comes_from_the_full_name :
  exists r row,
    Clerk.get_or_create_user_profile 1 "user_2abc"
      [("username", "jdoe"); ("name", "Jane Doe"); ("email", "jane@x.com")]
      Samples.empty_world = Some r /\
    Clerk.outcome r = inr row /\
    username row = "jane_doe" /\
    username row
    <> Spec.username_seed
         (Spec.mk_claims (Some "jdoe") (Some "jane@x.com") None None (Some "Jane Doe"))
         "jane@x.com" /\
    username row
    <> Spec.username_seed
         (Spec.mk_claims None (Some "jane@x.com") None None (Some "Jane Doe"))
         "jane@x.com".
Proof.
  eexists; eexists. split; [vm_compute; reflexivity|].
  split; [reflexivity|]. split; [reflexivity|].
  split; vm_compute; discriminate.
Qed.

(** C6, amended. Both functions finish.  The first INSERT of
    [handle_new_user] carries the
    metadata username when it is present and not blank, and otherwise the
    e-mail prefix.  The INSERT of [get_or_create_user_profile], issued when
    no row is found, carries a username that starts with the full name it
    derived, in lower case and with underscores for spaces (the e-mail
    prefix only when no full name was derived), and is exactly that when
    no stored username equals it. *)
Theorem username_seed_of_each_function fuel NEW w fuel' uid jwt w' :
  Trigger._max_attempts <= fuel ->
  Clerk.enough_fuel w' <= fuel' ->
  select_by_auth_user_id (users w') uid = None ->
  (exists r ev rest,
      Trigger.handle_new_user fuel NEW w = Some r /\
      Trigger.trace r = (Trigger.loop_attempt 0, ev) :: rest /\
      v_username (ev_values ev)
      = coalesce (Spec.c_username (Spec.claims_of_metadata (Trigger.raw_user_meta_data NEW)))
                 (split_part_at_1 (Trigger.new_email NEW)))
  /\
  (let seed :=
     lower (replace (coalesce (Clerk.fallback_full_name (Clerk.extract_claims jwt))
                              (split_part_at_1 (jwt ->> "email"))) " " "_") in
   exists r' ev,
     Clerk.get_or_create_user_profile fuel' uid jwt w' = Some r' /\
     Clerk.trace r' = [ev] /\
     (username_exists (users w') seed = false -> v_username (ev_values ev) = seed) /\
     (forall s, seed = Some s ->
                exists suffix, v_username (ev_values ev) = Some (s ++ suffix))).
Proof.
  intros Hfuel Hfuel' Hsel. split.
  - destruct (TriggerFacts.handle_new_user_total fuel NEW w Hfuel) as [r Hr].
    destruct (TriggerFacts.handle_new_user_first_insert fuel NEW w r Hr)
      as (ev & rest & Htr & Hv & _).
    exists r, ev, rest. split; [assumption|]. split; [assumption|]. rewrite Hv.
    unfold Trigger.init_locals, Spec.claims_of_metadata, Spec.present.
    destruct (Trigger.raw_user_meta_data NEW) as [md|]; simpl;
      [destruct (nullif (trim (md ->> "username")) "")|]; reflexivity.
  - cbv zeta.
    destruct (ClerkFacts.get_or_create_total fuel' uid jwt w' Hfuel') as [r' Hr'].
    destruct (ClerkFacts.get_or_create_creates fuel' uid jwt w' r' Hsel Hr')
      as (w1 & u & Hloop & Htr & _).
    exists r'. eexists. split; [assumption|]. split; [exact Htr|]. simpl.
    change (Clerk._username (Clerk.derive jwt))
      with (lower (replace (coalesce (Clerk.fallback_full_name (Clerk.extract_claims jwt))
                                     (split_part_at_1 (jwt ->> "email"))) " " "_"))
      in Hloop.
    split.
    + intros Hfree.
      rewrite (ClerkFacts.unique_username_free fuel' w' _ Hfree) in Hloop.
      now injection Hloop as _ <-.
    + intros s Hs. rewrite Hs in Hloop.
      now apply ClerkFacts.unique_username_extends in Hloop.
Qed.

Lemma username_seed_of_each_function_witness :
  (exists r ev rest,
      Trigger.handle_new_user 10 Samples.new_jane Samples.empty_world = Some r /\
      Trigger.trace r = (Trigger.loop_attempt 0, ev) :: rest /\
      v_username (ev_values ev)
      = coalesce (Spec.c_username
                    (Spec.claims_of_metadata (Trigger.raw_user_meta_data Samples.new_jane)))
                 (split_part_at_1 (Trigger.new_email Samples.new_jane)))
  /\
  (let seed :=
     lower (replace (coalesce (Clerk.fallback_full_name (Clerk.extract_claims Samples.jane_jwt))
                              (split_part_at_1 (Samples.jane_jwt ->> "email"))) " " "_") in
   exists r' ev,
     Clerk.get_or_create_user_profile 1 "user_2abc" Samples.jane_jwt Samples.empty_world
     = Some r' /\
     Clerk.trace r' = [ev] /\
     (username_exists (users Samples.empty_world) seed = false ->
      v_username (ev_values ev) = seed) /\
     (forall s, seed = Some s ->
                exists suffix, v_username (ev_values ev) = Some (s ++ suffix))).
Proof.
  apply (username_seed_of_each_function 10 Samples.new_jane Samples.empty_world
           1 "user_2abc" Samples.jane_jwt Samples.empty_world).
  - apply Nat.le_refl.
  - apply Nat.le_refl.
  - reflexivity.
Defined.

(** With only a family name and an e-mail among the claims, the Clerk
    function takes the e-mail prefix as full name. *)
Lemma clerk_full_name_skips_family_name jwt b m :
  jwt ->> "name" = None ->
  jwt ->> "given_name" = None ->
  jwt ->> "family_name" = Some b ->
  jwt ->> "email" = Some m ->
  Clerk._full_name (Clerk.derive jwt) = Some (before_at m).
Proof.
  intros Hn Hg Hf Hm. unfold Clerk.derive, Clerk.fallback_full_name,
    Clerk.extract_claims. simpl. now rewrite Hn, Hg, Hf, Hm.
Qed.

(** Without any claim the Clerk function has no name and no e-mail to
    derive a username from: whatever the table holds, its INSERT carries
    a NULL username and is rejected. *)
Lemma empty_claims_are_rejected fuel uid w :
  select_by_auth_user_id (users w) uid = None ->
  exists r,
    Clerk.get_or_create_user_profile fuel uid [] w = Some r /\
    Clerk.outcome r = inl (not_null_violation col_username) /\
    users (Clerk.final r) = users w.
Proof.
  intros Hsel. unfold Clerk.get_or_create_user_profile. rewrite Hsel.
  change (Clerk._username (Clerk.derive [])) with (@None string).
  rewrite ClerkFacts.unique_username_null.
  eexists. split; [reflexivity|]. split; reflexivity.
Qed.

(** C8, on the code. Empty claims, subject ["sub_123"], no row yet: the
    INSERT carries the e-mail ["sub_123@clerk.local"], but a NULL full
    name and a NULL username; it violates NOT NULL on [username], the call
    raises, and no profile is stored. *)
Theorem empty_claims_create_no_profile :
  exists r,
    Clerk.get_or_create_user_profile 1 "sub_123" [] Samples.empty_world = Some r /\
    Clerk.outcome r = inl (not_null_violation col_username) /\
    users (Clerk.final r) = [] /\
    Clerk.trace r
    = [mk_event (mk_values (Some "sub_123") None (Some "sub_123@clerk.local") None)
                (Some (not_null_violation col_username))].
Proof.
  eexists. split; [vm_compute; reflexivity|].
  split; [reflexivity|]. split; reflexivity.
Qed.

End ProvisioningProps.

(** ** [getUserProfile]: nothing is thrown *)

Module ClientProps.

Import Client.

Section Wrapper.

Variable User : Type.
Variable js_error : Type.

(** What the wrapper resolves to, read off its collaborators. *)
Lemma getUserProfile_value (env : @environment User js_error) (clerkUserId : string) :
  snd (getUserProfile env clerkUserId)
  = normal
      match createClerkSupabaseClient _ _ env with
      | thrown _ => None
      | normal _ =>
          match rpc _ _ env "get_or_create_user_profile" clerkUserId with
          | thrown _ => None
          | normal res =>
              match error res with
              | Some _ => None
              | None => data res
              end
          end
      end.
Proof.
  unfold getUserProfile.
  destruct (createClerkSupabaseClient _ _ env) as [[]|e]; [|reflexivity].
  destruct (rpc _ _ env "get_or_create_user_profile" clerkUserId) as [res|e];
    [|reflexivity].
  simpl. destruct (error res); reflexivity.
Qed.

(** C10. For every behaviour of its collaborators [getUserProfile]
    completes normally, with a [User] or with null, and nothing is
    thrown: an exception thrown while the client is built, a rejected
    rpc and an error reported by the rpc all become null; only a
    response without error hands its data on. *)
Theorem getUserProfile_never_throws
    (env : @environment User js_error) (clerkUserId : string) :
  exists out,
    getUserProfile env clerkUserId
    = (out,
       normal
         match createClerkSupabaseClient _ _ env with
         | thrown _ => None
         | normal _ =>
             match rpc _ _ env "get_or_create_user_profile" clerkUserId with
             | thrown _ => None
             | normal res =>
                 match error res with
                 | Some _ => None
                 | None => data res
                 end
             end
         end).
Proof.
  pose proof (getUserProfile_value env clerkUserId) as Hv.
  destruct (getUserProfile env clerkUserId) as [out c]. simpl in Hv.
  exists out. now rewrite Hv.
Qed.

End Wrapper.

(** Served by the Clerk function, the wrapper turns the rejected INSERT of
    the empty claims into null. *)
Example empty_claims_read_as_null :
  snd (getUserProfile (served_by 1 [] Samples.empty_world) "sub_123") = normal None.
Proof. vm_compute. reflexivity. Qed.

End ClientProps.

(** * Further properties of the provisioning functions *)

(** ** More on the strings *)

Module ShapeFacts.

Import Sql Shape.

Lemma all_chars_app p a b :
  all_chars p (a ++ b) = all_chars p a && all_chars p b.
Proof.
  induction a as [|c a IH]; simpl; [reflexivity|].
  now rewrite IH, andb_assoc.
Qed.

Lemma lower_not_space_is_handle c :
  Ascii.eqb c " " = false -> handle_char (lower_ascii c) = true.
Proof.
  destruct c as [[] [] [] [] [] [] [] []]; vm_compute; intros H;
    (reflexivity || discriminate H).
Qed.

(** [lower(replace(x, ' ', '_'))] has no space and no upper-case letter. *)
Lemma lower_replace_is_handle x :
  all_chars handle_char (lower_string (replace_char " " "_" x)) = true.
Proof.
  induction x as [|c x IH]; simpl; [reflexivity|].
  destruct (Ascii.eqb c " ") eqn:E; simpl.
  - exact IH.
  - now rewrite (lower_not_space_is_handle c E), IH.
Qed.

Lemma digits_are_handle (u : Decimal.uint) :
  all_chars handle_char (NilEmpty.string_of_uint u) = true.
Proof. induction u; simpl; auto. Qed.

Lemma int_to_text_is_handle n : all_chars handle_char (int_to_text n) = true.
Proof. apply digits_are_handle. Qed.

Lemma digits_are_suffix (u : Decimal.uint) :
  all_chars suffix_char (NilEmpty.string_of_uint u) = true.
Proof. induction u; simpl; auto. Qed.

Lemma int_to_text_is_suffix n : all_chars suffix_char (int_to_text n) = true.
Proof. apply digits_are_suffix. Qed.

Lemma append_inj_l (a b c : string) : a ++ b = a ++ c -> b = c.
Proof.
  induction a as [|x a IH]; simpl; [auto|]. intros [= H]. auto.
Qed.

End ShapeFacts.

(** ** [get_or_create_user_profile] of the Clerk migration, further *)

Module ClerkMore.

Import Sql Db Clerk ClerkFacts.

(** The loop keeps a property of the characters that the underscore and the
    digits have. *)
Lemma unique_username_keeps_chars p fuel :
  p "_"%char = true ->
  (forall n, Shape.all_chars p (int_to_text n) = true) ->
  forall w s w' s',
    unique_username fuel w (Some s) = Some (w', Some s') ->
    Shape.all_chars p s = true -> Shape.all_chars p s' = true.
Proof.
  intros Hu Hd. induction fuel as [|fuel IH]; intros w s w' s'; simpl;
    destruct (taken username (users w) s); try discriminate.
  - now intros [= _ <-].
  - intros H Hs. apply IH in H; [assumption|].
    rewrite !ShapeFacts.all_chars_app, Hs. simpl. rewrite Hu.
    unfold random_suffix. now rewrite Hd.
  - now intros [= _ <-].
Qed.

(** The Clerk function looks the username up before it inserts, so in a
    call that runs alone its INSERT is never a unique violation on
    [username]: whatever goes wrong, it is not a username collision. *)
Theorem username_is_never_the_duplicate fuel uid jwt w :
  enough_fuel w <= fuel ->
  exists r,
    get_or_create_user_profile fuel uid jwt w = Some r /\
    outcome r <> inl (unique_violation col_username).
Proof.
  intros Hfuel.
  destruct (get_or_create_total fuel uid jwt w Hfuel) as [r Hr].
  exists r. split; [assumption|].
  destruct (select_by_auth_user_id (users w) uid) as [row|] eqn:Hsel.
  - unfold get_or_create_user_profile in Hr. rewrite Hsel in Hr.
    injection Hr as <-. discriminate.
  - destruct (get_or_create_creates fuel uid jwt w r Hsel Hr)
      as (w1 & u & Hloop & _ & _ & Hout).
    apply unique_username_frame in Hloop. destruct Hloop as (Hus & _ & _ & Hfree).
    destruct (insert_users w1 _) as [w2 [e|row]] eqn:Hins; simpl in Hout;
      rewrite Hout; [|discriminate].
    intros [= He]. revert He.
    eapply DbMore.insert_free_username; [|exact Hins].
    simpl. now rewrite Hus.
Qed.

Lemma username_is_never_the_duplicate_witness :
  exists r,
    get_or_create_user_profile 25 "user_2abc" Samples.plain_jane_jwt
      (Samples.chained_world 11) = Some r /\
    outcome r <> inl (unique_violation col_username).
Proof.
  apply (username_is_never_the_duplicate 25 "user_2abc" Samples.plain_jane_jwt
           (Samples.chained_world 11)).
  vm_compute. apply Nat.le_refl.
Defined.

(** A first-time user whose claims carry an e-mail that no row holds is
    always provisioned, however many usernames collide: exactly one row is
    appended, with the subject id, that e-mail, and a username no other row
    had. *)
Theorem user_with_fresh_email_is_provisioned fuel uid jwt w m :
  enough_fuel w <= fuel ->
  select_by_auth_user_id (users w) uid = None ->
  jwt ->> "email" = Some m ->
  taken email (users w) m = false ->
  taken id (users w) (uuid_src w (uuid_pos w)) = false ->
  exists r row,
    get_or_create_user_profile fuel uid jwt w = Some r /\
    outcome r = inr row /\
    users (final r) = (users w ++ [row])%list /\
    auth_user_id row = uid /\ email row = m /\
    taken username (users w) (username row) = false.
Proof.
  intros Hfuel Hsel Hmail Hfresh Hid.
  destruct (get_or_create_total fuel uid jwt w Hfuel) as [r Hr].
  destruct (get_or_create_creates fuel uid jwt w r Hsel Hr)
    as (w1 & u & Hloop & _ & Hfinal & Hout).
  assert (Hseed : exists s, _username (derive jwt) = Some s).
  { unfold derive, generate_username, fallback_full_name, extract_claims. simpl.
    rewrite Hmail. simpl.
    destruct (jwt ->> "name") as [n|]; simpl;
      [destruct (String.eqb n ""); simpl|];
      destruct (jwt ->> "given_name"), (jwt ->> "family_name"); simpl; eauto. }
  destruct Hseed as [s Hs]. rewrite Hs in Hloop.
  destruct (unique_username_extends _ _ _ _ _ Hloop) as [suffix ->].
  apply unique_username_frame in Hloop.
  destruct Hloop as (Hus & Hsrc & Hpos & Hfree). simpl in Hfree.
  assert (Hem : insert_email uid (derive jwt) = Some m).
  { unfold insert_email, derive, extract_claims. simpl. now rewrite Hmail. }
  rewrite Hem in *.
  rewrite DbMore.insert_accepts in Hfinal, Hout.
  - simpl in Hout, Hfinal. eexists r, _. split; [exact Hr|].
    split; [exact Hout|]. split; [now rewrite Hfinal, Hus|].
    simpl. repeat split. exact Hfree.
  - now rewrite Hus, Hsrc, Hpos.
  - rewrite Hus. now apply DbMore.select_none_not_taken.
  - now rewrite Hus.
  - now rewrite Hus.
  - now rewrite Hus, Hsrc, Hpos.
  - rewrite Hus. now apply DbMore.select_none_not_taken.
  - now rewrite Hus.
  - now rewrite Hus.
Qed.

Lemma user_with_fresh_email_is_provisioned_witness :
  exists r row,
    get_or_create_user_profile 25 "user_2abc" Samples.plain_jane_jwt
      (Samples.chained_world 11) = Some r /\
    outcome r = inr row /\
    users (final r) = (users (Samples.chained_world 11) ++ [row])%list /\
    auth_user_id row = "user_2abc" /\ email row = "jane@x.com" /\
    taken username (users (Samples.chained_world 11)) (username row) = false.
Proof.
  apply (user_with_fresh_email_is_provisioned 25 "user_2abc" Samples.plain_jane_jwt
           (Samples.chained_world 11) "jane@x.com").
  - vm_compute. apply Nat.le_refl.
  - vm_compute. reflexivity.
  - reflexivity.
  - vm_compute. reflexivity.
  - vm_compute. reflexivity.
Defined.

(** What the loop appends to the candidate it was given is made of
    underscores and digits. *)
Lemma unique_username_suffix fuel : forall w s w' u',
  unique_username fuel w (Some s) = Some (w', u') ->
  exists suffix,
    u' = Some (s ++ suffix) /\ Shape.all_chars Shape.suffix_char suffix = true.
Proof.
  induction fuel as [|fuel IH]; intros w s w' u'; simpl;
    destruct (taken username (users w) s) eqn:E; try discriminate.
  - intros [= _ <-]. exists "". now rewrite SqlFacts.append_nil_r.
  - intros H. apply IH in H. destruct H as (suffix & -> & Hs).
    exists ("_" ++ random_suffix w ++ suffix). split.
    + now rewrite !SqlFacts.append_assoc.
    + cbn [Shape.all_chars append]. rewrite ShapeFacts.all_chars_app, Hs.
      unfold random_suffix. now rewrite ShapeFacts.int_to_text_is_suffix.
  - intros [= _ <-]. exists "". now rewrite SqlFacts.append_nil_r.
Qed.

(** The username the Clerk function stores for a new subject is the
    value of line 232, [lower(replace(COALESCE(_full_name, e-mail prefix),
    ' ', '_'))], followed by what the loop appended, which is made of
    underscores and decimal digits only; the whole has no space and no
    upper-case ASCII letter. *)
Theorem stored_username_is_a_handle fuel uid jwt w :
  enough_fuel w <= fuel ->
  select_by_auth_user_id (users w) uid = None ->
  exists r,
    get_or_create_user_profile fuel uid jwt w = Some r /\
    forall row, outcome r = inr row ->
      exists base suffix,
        lower (replace (coalesce (_full_name (derive jwt))
                                 (split_part_at_1 (jwt ->> "email"))) " " "_")
        = Some base /\
        username row = base ++ suffix /\
        Shape.all_chars Shape.suffix_char suffix = true /\
        Shape.all_chars Shape.handle_char (username row) = true.
Proof.
  intros Hfuel Hsel.
  destruct (get_or_create_total fuel uid jwt w Hfuel) as [r Hr].
  exists r. split; [assumption|]. intros row Hrow.
  destruct (get_or_create_creates fuel uid jwt w r Hsel Hr)
    as (w1 & u & Hloop & _ & _ & Hout).
  destruct (insert_users w1 _) as [w2 [e|row']] eqn:Hins; simpl in Hout;
    [congruence|].
  assert (row' = row) by congruence. subst row'.
  apply DbFacts.insert_accepted in Hins. destruct Hins as (_ & _ & Hu & _).
  simpl in Hu. subst u.
  destruct (_username (derive jwt)) as [s|] eqn:Hs.
  - assert (Hhandle : Shape.all_chars Shape.handle_char s = true).
    { unfold derive, generate_username in Hs. simpl in Hs.
      destruct (coalesce _ _) as [x|]; simpl in Hs; [|discriminate].
      injection Hs as <-. apply ShapeFacts.lower_replace_is_handle. }
    pose proof (unique_username_keeps_chars Shape.handle_char fuel eq_refl
                  ShapeFacts.int_to_text_is_handle _ _ _ _ Hloop Hhandle) as Hall.
    destruct (unique_username_suffix _ _ _ _ _ Hloop) as (suffix & [= Hu] & Hsuf).
    exists s, suffix. repeat split; auto.
  - rewrite unique_username_null in Hloop. discriminate.
Qed.

Lemma stored_username_is_a_handle_witness :
  exists r,
    get_or_create_user_profile 25 "user_2abc" Samples.plain_jane_jwt
      (Samples.chained_world 11) = Some r /\
    forall row, outcome r = inr row ->
      exists base suffix,
        lower (replace (coalesce (_full_name (derive Samples.plain_jane_jwt))
                                 (split_part_at_1 (Samples.plain_jane_jwt ->> "email")))
                       " " "_")
        = Some base /\
        username row = base ++ suffix /\
        Shape.all_chars Shape.suffix_char suffix = true /\
        Shape.all_chars Shape.handle_char (username row) = true.
Proof.
  apply (stored_username_is_a_handle 25 "user_2abc" Samples.plain_jane_jwt
           (Samples.chained_world 11)).
  - vm_compute. apply Nat.le_refl.
  - vm_compute. reflexivity.
Defined.

(** In the run of the witness the loop appended ["_5"] eleven times. *)
Example jane_after_eleven_collisions :
  option_map (fun r => option_map username
                         (match outcome r with inr row => Some row | inl _ => None end))
    (get_or_create_user_profile 25 "user_2abc" Samples.plain_jane_jwt
       (Samples.chained_world 11))
  = Some (Some ("jane" ++ "_5_5_5_5_5_5_5_5_5_5_5")).
Proof. vm_compute. reflexivity. Qed.

(** The Clerk function only ever appends: a call that raises leaves the
    table as it was, a call that returns a profile either found it among
    the rows or appended it as the one new row; no stored row is changed
    or removed, and at most one INSERT is issued. *)
Theorem table_grows_by_the_new_row_only fuel uid jwt w :
  enough_fuel w <= fuel ->
  exists r added,
    get_or_create_user_profile fuel uid jwt w = Some r /\
    users (final r) = (users w ++ added)%list /\
    List.length (trace r) <= 1 /\
    match outcome r with
    | inl _ => added = []
    | inr row => (added = [] /\ In row (users w)) \/ added = [row]
    end.
Proof.
  intros Hfuel.
  destruct (get_or_create_total fuel uid jwt w Hfuel) as [r Hr].
  destruct (select_by_auth_user_id (users w) uid) as [row|] eqn:Hsel.
  - exists r, []. split; [assumption|].
    unfold get_or_create_user_profile in Hr. rewrite Hsel in Hr.
    injection Hr as <-. simpl. rewrite app_nil_r.
    apply DbFacts.select_finds in Hsel. intuition.
  - destruct (get_or_create_creates fuel uid jwt w r Hsel Hr)
      as (w1 & u & Hloop & Htr & Hfinal & Hout).
    apply unique_username_frame in Hloop. destruct Hloop as (Hus & _).
    destruct (insert_users w1 _) as [w2 [e|row]] eqn:Hins; simpl in *.
    + exists r, []. split; [assumption|].
      apply DbFacts.insert_rejected in Hins.
      rewrite app_nil_r, Hfinal, Hins, Hus, Htr, Hout. simpl. intuition.
    + exists r, [row]. split; [assumption|].
      apply DbFacts.insert_accepted in Hins. destruct Hins as (Hrows & _).
      rewrite Hfinal, Hrows, Hus, Htr, Hout. simpl. intuition.
Qed.

Lemma table_grows_by_the_new_row_only_witness :
  exists r added,
    get_or_create_user_profile 25 "user_2abc" Samples.plain_jane_jwt
      (Samples.chained_world 11) = Some r /\
    users (final r) = (users (Samples.chained_world 11) ++ added)%list /\
    List.length (trace r) <= 1 /\
    match outcome r with
    | inl _ => added = []
    | inr row => (added = [] /\ In row (users (Samples.chained_world 11)))
                 \/ added = [row]
    end.
Proof.
  apply (table_grows_by_the_new_row_only 25 "user_2abc" Samples.plain_jane_jwt
           (Samples.chained_world 11)).
  vm_compute. apply Nat.le_refl.
Defined.

End ClerkMore.

(** ** [handle_new_user], further *)

Module TriggerMore.

Import Sql Db Trigger TriggerFacts TriggerStore.

Lemma retry_loop_stores fuel : forall NEW w l0 l r,
  carried l0 l ->
  _attempt_count l < _max_attempts ->
  retry_loop fuel NEW w l = Some r ->
  stored_by_loop NEW l0 (_attempt_count l) w r.
Proof.
  induction fuel as [|fuel IH]; intros NEW w l0 l r Hc Hlt;
    cbn [retry_loop];
    destruct (Nat.ltb_spec (_attempt_count l) _max_attempts) as [_|Hge];
    try lia; [discriminate|].
  cbv zeta.
  rewrite (attempt_values_candidate NEW l0 l Hc).
  destruct (insert_users w (candidate NEW l0 (_attempt_count l)))
    as [w1 [e|row]] eqn:Hins.
  - pose proof (DbFacts.insert_rejected _ _ _ _ Hins) as Hsame.
    destruct e as [c|c|m e].
    + intros [= <-]. exact Hsame.
    + change (_attempt_count (set_attempt_count (prepare NEW l)
                                (_attempt_count (prepare NEW l) + 1)))
        with (_attempt_count l + 1).
      change (_attempt_count (prepare NEW l)) with (_attempt_count l).
      destruct (Nat.leb_spec _max_attempts (_attempt_count l + 1)) as [Hlast|Hmore].
      * rewrite (fallback_values_candidate NEW l0 l (_attempt_count l + 1) Hc).
        destruct (insert_users w1 (fallback_candidate NEW l0)) as [w2 [e|row]] eqn:Hfb;
          intros [= <-]; unfold stored_by_loop; cbn [outcome final].
        -- apply DbFacts.insert_rejected in Hfb. congruence.
        -- apply DbFacts.insert_accepted in Hfb.
           destruct Hfb as (Hrows & Ha & Hu & Hm & Hf & _). simpl in Ha, Hu, Hm, Hf.
           exists row. rewrite Hrows, Hsame. injection Ha as Ha.
           repeat split; auto.
      * destruct (retry_loop fuel NEW w1 _) as [r'|] eqn:Hrec; [|discriminate].
        cbn [option_map]. intros [= <-].
        apply (IH NEW w1 l0 _ r' (carried_prepare NEW l0 l _ Hc)) in Hrec;
          [|cbn [_attempt_count set_attempt_count]; lia].
        cbn [_attempt_count set_attempt_count] in Hrec.
        unfold stored_by_loop in *. cbn [record_event outcome final].
        destruct (outcome r') as [e|[]].
        -- congruence.
        -- destruct Hrec as (row & Hrows & Ha & Hm & Hf & Hu).
           exists row. rewrite <- Hsame. repeat split; auto.
           destruct Hu as [(k & Hk & Hu)|Hu]; [left; exists k; split; [lia|auto]|now right].
    + intros [= <-]. exact Hsame.
  - intros [= <-]. unfold stored_by_loop; cbn [outcome final].
    apply DbFacts.insert_accepted in Hins.
    destruct Hins as (Hrows & Ha & Hu & Hm & Hf & _). simpl in Ha, Hu, Hm, Hf.
    exists row. injection Ha as Ha. repeat split; auto.
    left. exists (_attempt_count l). split; [lia|]. exact Hu.
Qed.

Lemma handle_new_user_stores fuel NEW w :
  _max_attempts <= fuel ->
  exists r,
    handle_new_user fuel NEW w = Some r /\
    stored_by_loop NEW (init_locals NEW) 0 w r.
Proof.
  intros Hfuel.
  destruct (handle_new_user_total fuel NEW w Hfuel) as [r Hr].
  exists r. split; [assumption|].
  destruct (init_locals_carries NEW) as [_ H0].
  rewrite <- H0.
  apply (retry_loop_stores fuel NEW w (init_locals NEW) (init_locals NEW) r);
    [apply carried_refl | rewrite H0; unfold _max_attempts; lia | exact Hr].
Qed.

(** The trigger stores its one row or nothing: when it raises, the table is
    as before; when it returns, exactly one row was appended, carrying the
    id and the e-mail of the new [auth.users] row, and the rows that were
    there are untouched. *)
Theorem trigger_stores_one_row_or_nothing fuel NEW w :
  _max_attempts <= fuel ->
  exists r,
    handle_new_user fuel NEW w = Some r /\
    match outcome r with
    | inl _ => users (final r) = users w
    | inr _ =>
        exists row,
          users (final r) = (users w ++ [row])%list /\
          auth_user_id row = new_id NEW /\
          new_email NEW = Some (email row)
    end.
Proof.
  intros Hfuel.
  destruct (handle_new_user_stores fuel NEW w Hfuel) as (r & Hr & Hst).
  exists r. split; [assumption|].
  unfold stored_by_loop in Hst. destruct (outcome r); [assumption|].
  destruct Hst as (row & H1 & H2 & H3 & _). now exists row.
Qed.

Lemma trigger_stores_one_row_or_nothing_witness :
  exists r,
    handle_new_user 10 Samples.new_jane (Samples.crowded_world 10) = Some r /\
    match outcome r with
    | inl _ => users (final r) = users (Samples.crowded_world 10)
    | inr _ =>
        exists row,
          users (final r) = (users (Samples.crowded_world 10) ++ [row])%list /\
          auth_user_id row = new_id Samples.new_jane /\
          new_email Samples.new_jane = Some (email row)
    end.
Proof.
  apply (trigger_stores_one_row_or_nothing 10 Samples.new_jane
           (Samples.crowded_world 10)).
  apply Nat.le_refl.
Defined.

(** The username the trigger ends up storing is the seeded one, or the seed
    followed by a hyphen, the first 8 characters of the id, a hyphen and an
    attempt number from 1 to 9, or the fallback made of the e-mail prefix, a
    hyphen and the id without its hyphens; nothing else. *)
Theorem trigger_username_is_one_of_its_candidates fuel NEW w :
  _max_attempts <= fuel ->
  exists r,
    handle_new_user fuel NEW w = Some r /\
    forall row, outcome r = inr tt ->
      In row (users (final r)) ->
      ~ In row (users w) ->
      Some (username row) = _username (init_locals NEW)
      \/ (exists k, 1 <= k <= 9 /\
            Some (username row)
            = concat (_username (init_locals NEW))
                     (Some ("-" ++ substring_1_8 (new_id NEW) ++ "-" ++ int_to_text k)))
      \/ Some (username row)
         = concat (concat (split_part_at_1 (new_email NEW)) (Some "-"))
                  (Some (replace_char "-" "" (new_id NEW))).
Proof.
  intros Hfuel.
  destruct (handle_new_user_stores fuel NEW w Hfuel) as (r & Hr & Hst).
  exists r. split; [assumption|].
  intros row Hout Hin Hnew.
  unfold stored_by_loop in Hst. rewrite Hout in Hst.
  destruct Hst as (row' & Hrows & _ & _ & _ & Hu).
  rewrite Hrows in Hin. apply in_app_or in Hin.
  destruct Hin as [Hin|[<-|[]]]; [contradiction|].
  destruct (init_locals_carries NEW) as [Hprefix _].
  destruct Hu as [(k & Hk & Hu)|Hu].
  - destruct k as [|k].
    + left. rewrite <- Hu. unfold candidate, suffix_for. simpl.
      now rewrite SqlFacts.concat_empty_r.
    + right. left. exists (S k). unfold _max_attempts in Hk. split; [lia|].
      rewrite <- Hu. unfold candidate, suffix_for.
      cbn [Nat.eqb v_username].
      destruct (_username (init_locals NEW)); cbn [concat]; [|reflexivity].
      now rewrite !SqlFacts.append_assoc.
  - right. right. rewrite <- Hu. unfold fallback_username. now rewrite Hprefix.
Qed.

Lemma trigger_username_is_one_of_its_candidates_witness :
  exists r,
    handle_new_user 10 Samples.new_jane (Samples.crowded_world 3) = Some r /\
    forall row, outcome r = inr tt ->
      In row (users (final r)) ->
      ~ In row (users (Samples.crowded_world 3)) ->
      Some (username row) = _username (init_locals Samples.new_jane)
      \/ (exists k, 1 <= k <= 9 /\
            Some (username row)
            = concat (_username (init_locals Samples.new_jane))
                     (Some ("-" ++ substring_1_8 (new_id Samples.new_jane) ++ "-"
                            ++ int_to_text k)))
      \/ Some (username row)
         = concat (concat (split_part_at_1 (new_email Samples.new_jane)) (Some "-"))
                  (Some (replace_char "-" "" (new_id Samples.new_jane))).
Proof.
  apply (trigger_username_is_one_of_its_candidates 10 Samples.new_jane
           (Samples.crowded_world 3)).
  apply Nat.le_refl.
Defined.

(** In the table of the witness the row is stored under the third retry. *)
Example jane_gets_the_third_suffix :
  option_map (fun r => (outcome r, map username (users (final r))))
    (handle_new_user 10 Samples.new_jane (Samples.crowded_world 3))
  = Some (inr tt, ["jane"; "jane-11111111-1"; "jane-11111111-2"; "jane-11111111-3"]).
Proof. vm_compute. reflexivity. Qed.

(** The full name the trigger stores for a row with an e-mail is the
    metadata full name when it is not blank, else first and last name
    joined by a space when neither is blank, else the first name, else the
    last name, else the e-mail prefix. *)
Theorem trigger_stores_the_full_name_by_precedence fuel NEW w m :
  _max_attempts <= fuel ->
  new_email NEW = Some m ->
  exists r,
    handle_new_user fuel NEW w = Some r /\
    forall row, outcome r = inr tt ->
      In row (users (final r)) -> ~ In row (users w) ->
      full_name row
      = Some (Spec.displayName (Spec.claims_of_metadata (raw_user_meta_data NEW)) m).
Proof.
  intros Hfuel Hm.
  destruct (handle_new_user_stores fuel NEW w Hfuel) as (r & Hr & Hst).
  exists r. split; [assumption|].
  intros row Hout Hin Hnew.
  unfold stored_by_loop in Hst. rewrite Hout in Hst.
  destruct Hst as (row' & Hrows & _ & _ & Hf & _).
  rewrite Hrows in Hin. apply in_app_or in Hin.
  destruct Hin as [Hin|[<-|[]]]; [contradiction|].
  rewrite Hf. now apply TriggerProps.init_locals_follow_contract.
Qed.

Lemma trigger_stores_the_full_name_by_precedence_witness :
  exists r,
    handle_new_user 10 Samples.new_jane (Samples.crowded_world 3) = Some r /\
    forall row, outcome r = inr tt ->
      In row (users (final r)) -> ~ In row (users (Samples.crowded_world 3)) ->
      full_name row
      = Some (Spec.displayName
                (Spec.claims_of_metadata (raw_user_meta_data Samples.new_jane))
                "jane@x.com").
Proof.
  apply (trigger_stores_the_full_name_by_precedence 10 Samples.new_jane
           (Samples.crowded_world 3) "jane@x.com").
  - apply Nat.le_refl.
  - reflexivity.
Defined.

(** Without an e-mail the username the trigger starts from is the one of
    the metadata, or NULL. *)
Lemma username_without_email NEW :
  new_email NEW = None ->
  _username (init_locals NEW) = nullif (trim (SupabaseAuth.meta NEW "username")) "".
Proof.
  intros Hm. unfold init_locals, SupabaseAuth.meta. rewrite Hm.
  destruct (raw_user_meta_data NEW) as [md|]; simpl; [|reflexivity].
  destruct (nullif (trim (md ->> "username")) ""); reflexivity.
Qed.

(** A new [auth.users] row without an e-mail is not retried: the first
    INSERT violates NOT NULL, on [username] when the metadata give no
    username that is not blank and on [email] otherwise, the handler for
    other errors raises "Failed to create user profile", that INSERT is
    the only one, and nothing is stored. *)
Theorem missing_email_fails_at_once fuel NEW w :
  1 <= fuel ->
  new_email NEW = None ->
  let c := match nullif (trim (SupabaseAuth.meta NEW "username")) "" with
           | None => col_username
           | Some _ => col_email
           end in
  exists r v,
    handle_new_user fuel NEW w = Some r /\
    outcome r = inl (raised None (not_null_violation c)) /\
    trace r = [(loop_attempt 0, mk_event v (Some (not_null_violation c)))] /\
    v_username v = nullif (trim (SupabaseAuth.meta NEW "username")) "" /\
    v_email v = None /\
    users (final r) = users w.
Proof.
  intros Hfuel Hm. cbv zeta. destruct fuel as [|fuel]; [lia|].
  unfold handle_new_user. cbn [retry_loop].
  destruct (init_locals_carries NEW) as [_ H0]. rewrite H0.
  change (0 <? _max_attempts)%nat with true. cbv zeta.
  rewrite (attempt_values_candidate NEW (init_locals NEW) (init_locals NEW)
             (carried_refl _)).
  rewrite H0.
  assert (Hu : v_username (candidate NEW (init_locals NEW) 0)
               = nullif (trim (SupabaseAuth.meta NEW "username")) "").
  { unfold candidate. cbn [v_username suffix_for Nat.eqb].
    rewrite (username_without_email NEW Hm).
    destruct (nullif _ _); simpl; [|reflexivity].
    now rewrite SqlFacts.append_nil_r. }
  assert (Hins : insert_users w (candidate NEW (init_locals NEW) 0)
                 = (next_uuid w,
                    inl (not_null_violation
                           match nullif (trim (SupabaseAuth.meta NEW "username")) "" with
                           | None => col_username
                           | Some _ => col_email
                           end))).
  { unfold insert_users. rewrite Hu. unfold candidate at 1 2. cbn [v_auth_user_id v_email].
    rewrite Hm. destruct (nullif _ _); reflexivity. }
  rewrite Hins. rewrite Hm.
  eexists _, (candidate NEW (init_locals NEW) 0).
  split; [reflexivity|]. cbn [outcome trace final].
  repeat split; auto.
Qed.

Lemma missing_email_fails_at_once_witness :
  let NEW := mk_auth_user "11111111-2222-3333-4444-555555555555" None
               (Some [("username", "jane")]) in
  exists r v,
    handle_new_user 10 NEW Samples.empty_world = Some r /\
    outcome r = inl (raised None (not_null_violation col_email)) /\
    trace r = [(loop_attempt 0, mk_event v (Some (not_null_violation col_email)))] /\
    v_username v = Some "jane" /\
    v_email v = None /\
    users (final r) = users Samples.empty_world.
Proof.
  apply (missing_email_fails_at_once 10
           (mk_auth_user "11111111-2222-3333-4444-555555555555" None
              (Some [("username", "jane")])) Samples.empty_world).
  - repeat constructor.
  - reflexivity.
Defined.

(** With a blank username in the metadata the violation is on [username]. *)
Example blank_username_without_email :
  option_map outcome
    (handle_new_user 10
       (mk_auth_user "11111111-2222-3333-4444-555555555555" None
          (Some [("username", "  ")])) Samples.empty_world)
  = Some (inl (raised None (not_null_violation col_username))).
Proof. vm_compute. reflexivity. Qed.

(** When neither the seeded username, nor the e-mail, nor the id of the
    new row is stored yet, the trigger succeeds with its first INSERT: one
    statement, no suffix, and the row carries the seed as username. *)
Theorem free_seed_is_stored_as_it_is fuel NEW w u m :
  1 <= fuel ->
  new_email NEW = Some m ->
  _username (init_locals NEW) = Some u ->
  taken id (users w) (uuid_src w (uuid_pos w)) = false ->
  taken auth_user_id (users w) (new_id NEW) = false ->
  taken username (users w) u = false ->
  taken email (users w) m = false ->
  exists r row,
    handle_new_user fuel NEW w = Some r /\
    outcome r = inr tt /\
    List.length (trace r) = 1 /\
    users (final r) = (users w ++ [row])%list /\
    username row = u /\ email row = m /\ auth_user_id row = new_id NEW.
Proof.
  intros Hfuel Hm Hu H1 H2 H3 H4. destruct fuel as [|fuel]; [lia|].
  unfold handle_new_user. cbn [retry_loop].
  destruct (init_locals_carries NEW) as [_ H0]. rewrite H0.
  change (0 <? _max_attempts)%nat with true. cbv zeta.
  rewrite (attempt_values_candidate NEW (init_locals NEW) (init_locals NEW)
             (carried_refl _)).
  rewrite H0. unfold candidate, suffix_for. cbn [Nat.eqb].
  rewrite Hu, Hm. cbn [concat]. rewrite SqlFacts.append_nil_r.
  rewrite (DbMore.insert_accepts w (new_id NEW) u m _ H1 H2 H3 H4).
  eexists _, _. split; [reflexivity|]. cbn. repeat split.
Qed.

Lemma free_seed_is_stored_as_it_is_witness :
  exists r row,
    handle_new_user 10 Samples.new_jane MoreSamples.bob_world = Some r /\
    outcome r = inr tt /\
    List.length (trace r) = 1 /\
    users (final r) = (users MoreSamples.bob_world ++ [row])%list /\
    username row = "jane" /\ email row = "jane@x.com" /\
    auth_user_id row = new_id Samples.new_jane.
Proof.
  apply (free_seed_is_stored_as_it_is 10 Samples.new_jane MoreSamples.bob_world
           "jane" "jane@x.com").
  - repeat constructor.
  - reflexivity.
  - reflexivity.
  - vm_compute. reflexivity.
  - vm_compute. reflexivity.
  - vm_compute. reflexivity.
  - vm_compute. reflexivity.
Defined.

End TriggerMore.

(** ** [get_or_create_user_profile(uuid)] of the Supabase-auth migration *)

Module SupabaseAuthProps.

Import Sql Db SupabaseAuth.


Lemma profile_deleted us i :
  select_by_auth_user_id
    (filter (fun row => negb (String.eqb (auth_user_id row) i)) us) i = None.
Proof.
  unfold select_by_auth_user_id. induction us as [|r us IH]; simpl; [reflexivity|].
  destruct (String.eqb (auth_user_id r) i) eqn:E; simpl; [exact IH|].
  now rewrite E.
Qed.

Lemma auth_user_deleted auth_users i :
  select_auth_user
    (filter (fun a => negb (String.eqb (Trigger.new_id a) i)) auth_users) i = None.
Proof.
  unfold select_auth_user. induction auth_users as [|a l IH]; simpl; [reflexivity|].
  destruct (String.eqb (Trigger.new_id a) i) eqn:E; simpl; [exact IH|].
  now rewrite E.
Qed.

Lemma select_auth_user_exists auth_users i a :
  select_auth_user auth_users i = Some a ->
  existsb (fun a => String.eqb (Trigger.new_id a) i) auth_users = true.
Proof.
  unfold select_auth_user. intros H. apply find_some in H.
  apply existsb_exists. exists a. exact H.
Qed.

(** The cascade keeps the foreign key. *)
Lemma references_hold_after_delete auth_users w i :
  references_hold auth_users w = true ->
  references_hold (fst (delete_auth_user auth_users w i))
                  (snd (delete_auth_user auth_users w i)) = true.
Proof.
  unfold references_hold, delete_auth_user. cbn [fst snd users set_users].
  rewrite !forallb_forall. intros H row Hin.
  apply filter_In in Hin. destruct Hin as [Hin Hne].
  specialize (H row Hin). apply existsb_exists in H. destruct H as (a & Ha & Heq).
  apply existsb_exists. exists a. split; [|exact Heq].
  apply filter_In. split; [exact Ha|].
  apply String.eqb_eq in Heq. now rewrite Heq.
Qed.

(** A call keeps the foreign key. *)
Lemma references_hold_after_call auth_users uid w :
  references_hold auth_users w = true ->
  references_hold auth_users (final (get_or_create_user_profile auth_users uid w)) = true.
Proof.
  intros Hfk. unfold get_or_create_user_profile.
  destruct (select_by_auth_user_id (users w) uid); [exact Hfk|].
  destruct (select_auth_user auth_users uid) as [a|] eqn:Hau; [|exact Hfk].
  destruct (insert_users w _) as [w1 [e|row]] eqn:Hins; cbn [final].
  - apply DbFacts.insert_rejected in Hins. unfold references_hold in *.
    now rewrite Hins.
  - apply DbFacts.insert_accepted in Hins. destruct Hins as (Hrows & Ha & _).
    simpl in Ha. injection Ha as Ha.
    unfold references_hold in *. rewrite Hrows, forallb_app, Hfk. simpl.
    rewrite <- Ha. now rewrite (select_auth_user_exists _ _ _ Hau).
Qed.

(** A profile lives as long as its [auth.users] row.  In a state that
    satisfies the foreign key of line 138, after a call has returned a
    profile the key still holds and the next call for the same subject
    returns that profile on the read path, without an INSERT.  Once the
    [auth.users] row is deleted, the cascade has removed the profile, the
    key holds, and the call raises "Auth user not found" and stores
    nothing. *)
Theorem profile_lives_as_long_as_its_auth_row auth_users uid w p :
  references_hold auth_users w = true ->
  outcome (get_or_create_user_profile auth_users uid w) = inr p ->
  let w1 := final (get_or_create_user_profile auth_users uid w) in
  let after := delete_auth_user auth_users w1 uid in
  references_hold auth_users w1 = true /\
  get_or_create_user_profile auth_users uid w1 = mk_run (inr p) w1 [] /\
  references_hold (fst after) (snd after) = true /\
  get_or_create_user_profile (fst after) uid (snd after)
  = mk_run (inl (auth_user_not_found uid)) (snd after) [].
Proof.
  intros Hfk Hout. cbv zeta.
  split; [now apply references_hold_after_call|].
  split.
  - revert Hout. unfold get_or_create_user_profile at 1 3 4.
    destruct (select_by_auth_user_id (users w) uid) as [row|] eqn:Hsel.
    + simpl. intros [= <-]. unfold get_or_create_user_profile. now rewrite Hsel.
    + destruct (select_auth_user auth_users uid) as [a|]; [|discriminate].
      destruct (insert_users w _) as [w1 [e|row]] eqn:Hins; simpl; [discriminate|].
      intros [= <-]. unfold get_or_create_user_profile.
      apply DbFacts.insert_accepted in Hins. destruct Hins as (Hrows & Ha & _).
      simpl in Ha. injection Ha as Ha.
      now rewrite Hrows, (DbFacts.select_after_insert _ _ _ Hsel (eq_sym Ha)).
  - split.
    + apply references_hold_after_delete. now apply references_hold_after_call.
    + unfold get_or_create_user_profile at 1. unfold delete_auth_user.
      cbn [fst snd users set_users].
      now rewrite profile_deleted, auth_user_deleted.
Qed.

Lemma profile_lives_as_long_as_its_auth_row_witness :
  let auth_users := [MoreSamples.auth_bob; MoreSamples.auth_jane] in
  let uid := Trigger.new_id MoreSamples.auth_jane in
  let w1 := final (get_or_create_user_profile auth_users uid MoreSamples.bob_world) in
  let after := delete_auth_user auth_users w1 uid in
  references_hold auth_users w1 = true /\
  get_or_create_user_profile auth_users uid w1
  = mk_run
      (inr (mk_users_row (Samples.uuids 1) "11111111-2222-3333-4444-555555555555"
              "jane-11111111" "jane@x.com" (Some "jane") 1000 1000))
      w1 [] /\
  references_hold (fst after) (snd after) = true /\
  get_or_create_user_profile (fst after) uid (snd after)
  = mk_run (inl (auth_user_not_found uid)) (snd after) [].
Proof.
  apply (profile_lives_as_long_as_its_auth_row
           [MoreSamples.auth_bob; MoreSamples.auth_jane]
           (Trigger.new_id MoreSamples.auth_jane) MoreSamples.bob_world).
  - vm_compute. reflexivity.
  - vm_compute. reflexivity.
Defined.

(** The deletion of the witness leaves the stored user of [bob_world] and
    removes the profile of the deleted user. *)
Example deleting_jane_keeps_bob :
  let auth_users := [MoreSamples.auth_bob; MoreSamples.auth_jane] in
  let uid := Trigger.new_id MoreSamples.auth_jane in
  let w1 := final (get_or_create_user_profile auth_users uid MoreSamples.bob_world) in
  List.length (users w1) = 2 /\
  delete_auth_user auth_users w1 uid
  = ([MoreSamples.auth_bob], set_users w1 (users MoreSamples.bob_world)).
Proof. vm_compute. split; reflexivity. Qed.

(** This function never retries: it issues at most one INSERT, and when the
    username it derived is already stored the call raises the unique
    violation and stores nothing, where the trigger of the same migration
    would go on with a suffixed username. *)
Theorem taken_username_is_not_retried auth_users uid w a u m :
  select_by_auth_user_id (users w) uid = None ->
  select_auth_user auth_users uid = Some a ->
  insert_username uid a = Some u ->
  Trigger.new_email a = Some m ->
  taken username (users w) u = true ->
  exists c,
    outcome (get_or_create_user_profile auth_users uid w)
    = inl (rejected (unique_violation c)) /\
    List.length (trace (get_or_create_user_profile auth_users uid w)) = 1 /\
    users (final (get_or_create_user_profile auth_users uid w)) = users w.
Proof.
  intros Hsel Ha Hu Hm Htaken. unfold get_or_create_user_profile.
  rewrite Hsel, Ha. unfold insert_row. rewrite Hu, Hm.
  destruct (DbMore.insert_taken_username w uid u m (insert_full_name a) Htaken)
    as [c ->].
  exists c. repeat split.
Qed.

Lemma taken_username_is_not_retried_witness :
  exists c,
    outcome (get_or_create_user_profile [MoreSamples.auth_jane_too]
               "11111111-9999-3333-4444-555555555555"
               (Samples.with_rows [Samples.other_user 0 "jane-11111111" "jane@x.com"]))
    = inl (rejected (unique_violation c)) /\
    List.length (trace (get_or_create_user_profile [MoreSamples.auth_jane_too]
               "11111111-9999-3333-4444-555555555555"
               (Samples.with_rows [Samples.other_user 0 "jane-11111111" "jane@x.com"]))) = 1 /\
    users (final (get_or_create_user_profile [MoreSamples.auth_jane_too]
               "11111111-9999-3333-4444-555555555555"
               (Samples.with_rows [Samples.other_user 0 "jane-11111111" "jane@x.com"])))
    = users (Samples.with_rows [Samples.other_user 0 "jane-11111111" "jane@x.com"]).
Proof.
  apply (taken_username_is_not_retried [MoreSamples.auth_jane_too]
           "11111111-9999-3333-4444-555555555555"
           (Samples.with_rows [Samples.other_user 0 "jane-11111111" "jane@x.com"])
           MoreSamples.auth_jane_too "jane-11111111" "jane@y.org").
  - reflexivity.
  - reflexivity.
  - reflexivity.
  - reflexivity.
  - vm_compute. reflexivity.
Defined.

(** Two users without a usable metadata username whose e-mails have the
    same local part get different usernames as soon as the first 8
    characters of their ids differ: the id prefix keeps them apart. *)
Theorem id_prefix_separates_usernames uid1 uid2 a1 a2 m1 m2 :
  nullif (trim (meta a1 "username")) "" = None ->
  nullif (trim (meta a2 "username")) "" = None ->
  Trigger.new_email a1 = Some m1 ->
  Trigger.new_email a2 = Some m2 ->
  before_at m1 = before_at m2 ->
  substring_1_8 uid1 <> substring_1_8 uid2 ->
  insert_username uid1 a1 <> insert_username uid2 a2.
Proof.
  intros H1 H2 E1 E2 Hloc Hne. unfold insert_username.
  rewrite H1, H2, E1, E2. simpl. rewrite Hloc.
  intros [= H]. apply Hne.
  rewrite !SqlFacts.append_assoc in H.
  apply ShapeFacts.append_inj_l in H. now injection H.
Qed.

Lemma id_prefix_separates_usernames_witness :
  insert_username "11111111-2222-3333-4444-555555555555" MoreSamples.auth_jane
  <> insert_username "22222222-2222-3333-4444-555555555555"
       (Trigger.mk_auth_user "22222222-2222-3333-4444-555555555555"
          (Some "jane@y.org") None).
Proof.
  apply (id_prefix_separates_usernames
           "11111111-2222-3333-4444-555555555555"
           "22222222-2222-3333-4444-555555555555"
           MoreSamples.auth_jane
           (Trigger.mk_auth_user "22222222-2222-3333-4444-555555555555"
              (Some "jane@y.org") None) "jane@x.com" "jane@y.org").
  - reflexivity.
  - reflexivity.
  - reflexivity.
  - reflexivity.
  - reflexivity.
  - vm_compute. discriminate.
Defined.

(** A first name of spaces only, with no full name and no last name: this
    function tests the raw value for NULL and stores it trimmed, so its
    INSERT carries the empty full name, while the trigger of the same
    migration treats the blank as missing and inserts the e-mail prefix. *)
Theorem blank_first_name_is_stored_empty a f :
  nullif (trim (meta a "full_name")) "" = None ->
  meta a "first_name" = Some f ->
  rtrim (ltrim f) = "" ->
  meta a "last_name" = None ->
  insert_full_name a = Some "" /\
  Trigger.construct_full_name (Trigger.init_locals a)
  = split_part_at_1 (Trigger.new_email a).
Proof.
  unfold insert_full_name, meta, Trigger.init_locals.
  destruct (Trigger.raw_user_meta_data a) as [md|]; [|discriminate 2].
  intros Hfull Hfirst Hblank Hlast. rewrite Hfull, Hfirst, Hlast. simpl.
  rewrite Hblank. split; [reflexivity|].
  destruct (nullif (trim (md ->> "username")) ""); reflexivity.
Qed.

Lemma blank_first_name_is_stored_empty_witness :
  insert_full_name MoreSamples.auth_blank_first = Some "" /\
  Trigger.construct_full_name (Trigger.init_locals MoreSamples.auth_blank_first)
  = split_part_at_1 (Trigger.new_email MoreSamples.auth_blank_first).
Proof.
  apply (blank_first_name_is_stored_empty MoreSamples.auth_blank_first "   ");
    reflexivity.
Defined.

End SupabaseAuthProps.

(** ** [get_or_create_user_profile(text)] of the first Clerk migration *)

Module ClerkBasicProps.

Import Sql Db ClerkBasic.

(** The basic profile is built from the first 8 characters of the subject
    id only: once a subject has been provisioned, no other subject whose id
    starts with the same 8 characters can be; its call raises a unique
    violation and stores nothing. *)
Theorem shared_id_prefix_blocks_the_second_subject uid1 uid2 w p :
  uid1 <> uid2 ->
  substring_1_8 uid1 = substring_1_8 uid2 ->
  select_by_auth_user_id (users w) uid1 = None ->
  select_by_auth_user_id (users w) uid2 = None ->
  outcome (get_or_create_user_profile uid1 w) = inr p ->
  let w1 := final (get_or_create_user_profile uid1 w) in
  exists c,
    outcome (get_or_create_user_profile uid2 w1) = inl (unique_violation c) /\
    users (final (get_or_create_user_profile uid2 w1)) = users w1.
Proof.
  intros Hne Hpre Hs1 Hs2. unfold get_or_create_user_profile at 1 2 4.
  rewrite Hs1.
  destruct (insert_users w (insert_row uid1)) as [w1 [e|row]] eqn:Hins; simpl;
    [discriminate|].
  intros [= <-].
  apply DbFacts.insert_accepted in Hins.
  destruct Hins as (Hrows & Ha & Hu & _). simpl in Ha, Hu.
  injection Ha as Ha. injection Hu as Hu.
  unfold get_or_create_user_profile.
  assert (Hsel : select_by_auth_user_id (users w1) uid2 = None).
  { rewrite Hrows, DbMore.select_skips_other; [assumption | congruence]. }
  rewrite Hsel. unfold insert_row.
  destruct (DbMore.insert_taken_username w1 uid2 (basic_username uid2)
              (basic_email uid2) (Some (basic_full_name uid2))) as [c ->].
  - rewrite Hrows, DbMore.taken_app. apply orb_true_iff. right.
    apply String.eqb_eq. unfold basic_username in *. rewrite <- Hu. now rewrite Hpre.
  - exists c. split; reflexivity.
Qed.

Lemma shared_id_prefix_blocks_the_second_subject_witness :
  let w1 := final (get_or_create_user_profile "user_2abXYZ1" Samples.empty_world) in
  exists c,
    outcome (get_or_create_user_profile "user_2abQRS2" w1) = inl (unique_violation c) /\
    users (final (get_or_create_user_profile "user_2abQRS2" w1)) = users w1.
Proof.
  apply (shared_id_prefix_blocks_the_second_subject "user_2abXYZ1" "user_2abQRS2"
           Samples.empty_world
           (mk_users_row (Samples.uuids 0) "user_2abXYZ1" "user_user_2ab"
              "user_user_2ab@example.com" (Some "User user_2ab") 1000 1000)).
  - vm_compute. discriminate.
  - reflexivity.
  - reflexivity.
  - reflexivity.
  - vm_compute. reflexivity.
Defined.

End ClerkBasicProps.

(** ** The profile cache of [App.tsx] *)

Module AppFacts.

Import App.

Section WithServices.

Variable item : Type.
Variable linkedinUrl : item -> option string.
Variable store : Type.
Variable js_error : Type.
Variable type_error : js_error.
Variable svc : services item store js_error.

Lemma checkProfileExists_run url s :
  checkProfileExists svc url s
  = ([checked url (snd (check_answer svc url s))],
     fst (check_answer svc url s),
     Client.normal (snd (check_answer svc url s))).
Proof.
  unfold checkProfileExists, check_answer, bind, try_catch, call, emit, ret.
  destruct (createClerkSupabaseClient _ _ _ svc s) as [s1 [[]|e]]; [|reflexivity].
  destruct (select_by_url _ _ _ svc s1 url) as [s2 [res|e]]; [|reflexivity].
  destruct (error res) as [e|]; [|reflexivity].
  destruct (String.eqb (code e) "PGRST116"); reflexivity.
Qed.

Lemma upsertProfile_run userId url x tags s :
  upsertProfile type_error svc userId url x tags s
  = ([upserted userId url x tags (snd (save_answer svc userId url x tags s))],
     fst (save_answer svc userId url x tags s),
     Client.normal (snd (save_answer svc userId url x tags s))).
Proof.
  unfold upsertProfile, save_answer, bind, try_catch, call, emit, ret, throw,
    read_clock.
  destruct (createClerkSupabaseClient _ _ _ svc s) as [s1 [[]|e]]; [|reflexivity].
  destruct (upsert_on_url _ _ _ svc s1 _) as [s2 [res|e]]; [|reflexivity].
  destruct (error res) as [e|]; [reflexivity|].
  destruct (data res); reflexivity.
Qed.

(** *** Reading appended traces *)

Lemma checks_app (a b : list (event item js_error)) :
  checks (a ++ b) = (checks a ++ checks b)%list.
Proof.
  induction a as [|[] a IH]; simpl; try assumption; [reflexivity|].
  now rewrite IH.
Qed.

Lemma scrape_answers_app (a b : list (event item js_error)) :
  scrape_answers (a ++ b) = (scrape_answers a ++ scrape_answers b)%list.
Proof.
  induction a as [|[] a IH]; simpl; try assumption; [reflexivity|].
  now rewrite IH.
Qed.

Lemma fetches_app (a b : list (event item js_error)) :
  fetches (a ++ b) = (fetches a ++ fetches b)%list.
Proof.
  induction a as [|[] a IH]; simpl; try assumption; [reflexivity|].
  now rewrite IH.
Qed.

Lemma saves_app (a b : list (event item js_error)) :
  saves (a ++ b) = (saves a ++ saves b)%list.
Proof.
  induction a as [|[] a IH]; simpl; try assumption; [reflexivity|].
  now rewrite IH.
Qed.

Lemma hits_app (a b : list (string * option (LinkedInProfile item))) :
  hits (a ++ b) = (hits a ++ hits b)%list.
Proof.
  induction a as [|[u [p|]] a IH]; simpl; [reflexivity| |assumption].
  now rewrite IH.
Qed.

Lemma misses_app (a b : list (string * option (LinkedInProfile item))) :
  misses (a ++ b) = (misses a ++ misses b)%list.
Proof.
  induction a as [|[u [p|]] a IH]; simpl; [reflexivity|assumption|].
  now rewrite IH.
Qed.

(** *** The two loops *)

(** The check loop asks the cache about every URL, in order, and does
    nothing else; hits go to the results, misses to the URLs to scrape. *)
Lemma check_each_run urls : forall results toScrape saved s,
  exists cs evs s1,
    check_each svc urls results toScrape saved s
    = (evs, s1,
       Client.normal ((results ++ hits cs)%list, (toScrape ++ misses cs)%list,
                      saved + List.length (hits cs))) /\
    checks evs = cs /\ map fst cs = urls /\
    scrape_answers evs = [] /\ fetches evs = [] /\ saves evs = [] /\
    List.length (hits cs) + List.length (misses cs) = List.length urls.
Proof.
  induction urls as [|url urls IH]; intros results toScrape saved s.
  - exists [], [], s. simpl. unfold ret. rewrite !app_nil_r, Nat.add_0_r.
    repeat split.
  - cbn [check_each]. unfold bind at 1. rewrite checkProfileExists_run.
    destruct (check_answer svc url s) as [s1 [p|]] eqn:Hans; cbn [fst snd].
    + destruct (IH (results ++ [profile_data p])%list toScrape (saved + 1) s1)
        as (cs & evs & s2 & Hrun & Hcs & Hurls & Hsc & Hf & Hsv & Hlen).
      rewrite Hrun.
      exists ((url, Some p) :: cs), (checked url (Some p) :: evs), s2.
      cbn [hits misses map fst List.length app checks scrape_answers fetches saves].
      rewrite <- !app_assoc. cbn [app].
      repeat split; try assumption; try congruence.
      * do 3 f_equal. lia.
      * lia.
    + destruct (IH results (toScrape ++ [url])%list saved s1)
        as (cs & evs & s2 & Hrun & Hcs & Hurls & Hsc & Hf & Hsv & Hlen).
      rewrite Hrun.
      exists ((url, None) :: cs), (checked url None :: evs), s2.
      cbn [hits misses map fst List.length app checks scrape_answers fetches saves].
      rewrite <- !app_assoc. cbn [app].
      repeat split; try assumption; try congruence. lia.
Qed.

(** The saves asked for are those of the items with a URL, in order, each
    under the user's id, under the URL of the item, and without tags. *)
Lemma to_save_items userId (items : list item) :
  map (fun sv => snd (fst sv)) (to_save linkedinUrl userId items)
  = with_url linkedinUrl items.
Proof.
  induction items as [|x rest IH]; cbn [to_save with_url filter map]; [reflexivity|].
  destruct (truthy_url linkedinUrl x); cbn [map fst snd]; [f_equal|]; exact IH.
Qed.

Lemma to_save_each userId (items : list item) :
  Forall (fun sv : string * string * item * list string =>
            fst (fst (fst sv)) = userId /\
            truthy_url linkedinUrl (snd (fst sv)) = Some (snd (fst (fst sv))) /\
            snd sv = [])
         (to_save linkedinUrl userId items).
Proof.
  induction items as [|x rest IH]; cbn [to_save]; [constructor|].
  destruct (truthy_url linkedinUrl x) as [url|] eqn:E; [|exact IH].
  constructor; [|exact IH]. cbn [fst snd]. auto.
Qed.

(** The save loop saves every item with a URL under the user's id, keeps
    each of them in the results whether the save succeeded or not, and
    drops the items without a URL. *)
Lemma save_each_run userId items : forall results s,
  exists evs s1,
    save_each linkedinUrl type_error svc userId items results s
    = (evs, s1, Client.normal (results ++ with_url linkedinUrl items)%list) /\
    saves evs = to_save linkedinUrl userId items /\
    checks evs = [] /\ scrape_answers evs = [] /\ fetches evs = [].
Proof.
  induction items as [|x items IH]; intros results s.
  - exists [], s. simpl. unfold ret. rewrite app_nil_r. repeat split.
  - cbn [save_each with_url filter to_save].
    destruct (truthy_url linkedinUrl x) as [url|] eqn:Hurl.
    + unfold bind at 1, try_catch, bind at 1. rewrite upsertProfile_run.
      unfold ret at 1. cbn [fst snd].
      destruct (IH (results ++ [x])%list (fst (save_answer svc userId url x [] s)))
        as (evs & s1 & Hrun & Hsv & Hcs & Hsc & Hf).
      rewrite Hrun.
      exists (upserted userId url x [] (snd (save_answer svc userId url x [] s)) :: evs),
        s1.
      split.
      * rewrite app_nil_r. cbn [app]. now rewrite <- (app_assoc results).
      * cbn [saves checks scrape_answers fetches].
        repeat split; try assumption. now rewrite Hsv.
    + apply IH.
Qed.

(** *** The whole function *)

Lemma getProfilesWithOptimization_run urls userId s :
  exists cs s1 evs s' c,
    getProfilesWithOptimization linkedinUrl type_error svc urls userId s
    = (evs, s', c) /\
    map fst cs = urls /\
    List.length (hits cs) + List.length (misses cs) = List.length urls /\
    checks evs = cs /\
    match misses cs with
    | [] =>
        scrape_answers evs = [] /\ fetches evs = [] /\ saves evs = [] /\
        c = Client.normal (hits cs)
    | _ :: _ =>
        match scrapeProfiles svc s1 (misses cs) with
        | (s2, Client.thrown e) =>
            scrape_answers evs = [(misses cs, Client.thrown e)] /\
            fetches evs = [] /\ saves evs = [] /\
            c = Client.thrown e
        | (s2, Client.normal ds) =>
            scrape_answers evs = [(misses cs, Client.normal ds)] /\
            match getDatasetItems svc s2 ds with
            | (s3, Client.thrown e) =>
                fetches evs = [(ds, Client.thrown e)] /\
                saves evs = [] /\
                c = Client.thrown e
            | (s3, Client.normal items) =>
                fetches evs = [(ds, Client.normal items)] /\
                saves evs = to_save linkedinUrl userId items /\
                c = Client.normal (hits cs ++ with_url linkedinUrl items)%list
            end
        end
    end.
Proof.
  destruct (check_each_run urls [] [] 0 s)
    as (cs & evs & s1 & Hrun & Hcs & Hurls & Hsc & Hf & Hsv & Hlen).
  exists cs, s1.
  unfold getProfilesWithOptimization, updateLoadingProgress.
  unfold bind at 1. unfold emit at 1. unfold bind at 1. rewrite Hrun.
  cbv beta iota zeta. cbn [Datatypes.app]. rewrite Nat.add_0_l.
  destruct (misses cs) as [|m ms] eqn:Hm.
  - cbn [List.length Nat.ltb Nat.leb]. unfold bind, ret, emit.
    eexists _, _, _. split; [reflexivity|].
    split; [assumption|]. split; [assumption|].
    repeat (rewrite ?checks_app, ?scrape_answers_app, ?fetches_app, ?saves_app;
            cbn [checks scrape_answers fetches saves Datatypes.app]).
    rewrite Hcs, Hsc, Hf, Hsv, ?app_nil_r. repeat split.
  - change (0 <? List.length (m :: ms))%nat with true. cbv iota.
    unfold bind at 1. unfold bind at 1. unfold emit at 1. unfold bind at 1.
    destruct (scrapeProfiles svc s1 (m :: ms)) as [s2 [ds|e]].
    + unfold bind at 1.
      destruct (getDatasetItems svc s2 ds) as [s3 [items|e]].
      * unfold bind at 1. unfold emit at 1.
        destruct (save_each_run userId items (hits cs) s3)
          as (evs2 & s4 & Hsave & Hsv2 & Hcs2 & Hsc2 & Hf2).
        rewrite Hsave. unfold bind, ret, emit.
        eexists _, _, _. split; [reflexivity|].
        split; [assumption|]. split; [assumption|].
        repeat (rewrite ?checks_app, ?scrape_answers_app, ?fetches_app, ?saves_app;
                cbn [checks scrape_answers fetches saves Datatypes.app]).
        rewrite Hcs, Hsc, Hf, Hsv, Hsv2, Hcs2, Hsc2, Hf2, ?app_nil_r.
        repeat split.
      * eexists _, _, _. split; [reflexivity|].
        split; [assumption|]. split; [assumption|].
        repeat (rewrite ?checks_app, ?scrape_answers_app, ?fetches_app, ?saves_app;
                cbn [checks scrape_answers fetches saves Datatypes.app]).
        rewrite Hcs, Hsc, Hf, Hsv, ?app_nil_r. repeat split.
    + eexists _, _, _. split; [reflexivity|].
      split; [assumption|]. split; [assumption|].
      repeat (rewrite ?checks_app, ?scrape_answers_app, ?fetches_app, ?saves_app;
              cbn [checks scrape_answers fetches saves Datatypes.app]).
      rewrite Hcs, Hsc, Hf, Hsv, ?app_nil_r. repeat split.
Qed.

End WithServices.

End AppFacts.

Module AppProps.

Import App.

Section WithServices.

Variable item : Type.
Variable linkedinUrl : item -> option string.
Variable store : Type.
Variable js_error : Type.
Variable type_error : js_error.
Variable svc : services item store js_error.

(** [checkProfileExists] never throws and tells its caller only "a row" or
    "null": the row when the query resolved with one and reported nothing
    but "no rows" (PGRST116) at most; null when no row matched and just as
    well when the client could not be built, the query was rejected or it
    reported any other error. *)
Theorem checkProfileExists_answers_row_or_null url s :
  checkProfileExists svc url s
  = ([checked url (snd (check_answer svc url s))],
     fst (check_answer svc url s),
     Client.normal (snd (check_answer svc url s))).
Proof. apply AppFacts.checkProfileExists_run. Qed.

(** [upsertProfile] never throws: it answers the saved row when the upsert
    resolved with one and without an error, and null in every other case,
    the rejected call and the missing row included. *)
Theorem upsertProfile_answers_row_or_null userId url x with_tags s :
  upsertProfile type_error svc userId url x with_tags s
  = ([upserted userId url x with_tags (snd (save_answer svc userId url x with_tags s))],
     fst (save_answer svc userId url x with_tags s),
     Client.normal (snd (save_answer svc userId url x with_tags s))).
Proof. apply AppFacts.upsertProfile_run. Qed.

(** [getProfilesWithOptimization] asks the cache about every URL once, in
    the order given; the scraper is started only when some URL was not
    found, then once, and with exactly the URLs that were not found, so a
    cached URL is never paid for. *)
Theorem cached_urls_are_never_scraped urls userId s :
  let tr := events_of (getProfilesWithOptimization linkedinUrl type_error svc urls userId s) in
  map fst (checks tr) = urls /\
  map fst (scrape_answers tr)
  = match misses (checks tr) with
    | [] => []
    | m :: ms => [m :: ms]
    end /\
  List.length (hits (checks tr)) + List.length (misses (checks tr)) = List.length urls.
Proof.
  destruct (AppFacts.getProfilesWithOptimization_run item linkedinUrl store js_error
              type_error svc urls userId s)
    as (cs & s1 & evs & s' & c & Hrun & Hurls & Hlen & Hcs & Hcase).
  cbv zeta. rewrite Hrun. unfold events_of. cbn [fst]. rewrite Hcs.
  split; [assumption|]. split; [|assumption].
  destruct (misses cs) as [|m ms].
  - destruct Hcase as (-> & _). reflexivity.
  - destruct (scrapeProfiles svc s1 (m :: ms)) as [s2 [ds|e]].
    + destruct Hcase as (-> & _). reflexivity.
    + destruct Hcase as (-> & _). reflexivity.
Qed.

(** When every URL is found in the cache, the result is the stored data of
    those profiles in the order of the URLs, and neither the scraper nor a
    save is called. *)
Theorem all_cached_needs_no_scraper urls userId s :
  let r := getProfilesWithOptimization linkedinUrl type_error svc urls userId s in
  misses (checks (events_of r)) = [] ->
  completion_of r = Client.normal (hits (checks (events_of r))) /\
  scrape_answers (events_of r) = [] /\ fetches (events_of r) = [] /\
  saves (events_of r) = [].
Proof.
  destruct (AppFacts.getProfilesWithOptimization_run item linkedinUrl store js_error
              type_error svc urls userId s)
    as (cs & s1 & evs & s' & c & Hrun & Hurls & Hlen & Hcs & Hcase).
  cbv zeta. rewrite Hrun. unfold events_of, completion_of. cbn [fst snd].
  rewrite Hcs. intros Hm. rewrite Hm in Hcase.
  destruct Hcase as (H1 & H2 & H3 & H4). auto.
Qed.

(** When the scraper delivered its items, the result is the cached data
    followed by every delivered item that has a URL, whether its save
    succeeded or failed; the saves are those of these items, one each and
    in order, each under the user's id, under the URL of the item and with
    no tags; items without a URL are neither saved nor returned. *)
Theorem scraped_items_are_returned_saved_or_not urls userId s ds items :
  let r := getProfilesWithOptimization linkedinUrl type_error svc urls userId s in
  In (ds, Client.normal items) (fetches (events_of r)) ->
  completion_of r
  = Client.normal (hits (checks (events_of r)) ++ with_url linkedinUrl items)%list /\
  saves (events_of r) = to_save linkedinUrl userId items /\
  map (fun sv => snd (fst sv)) (saves (events_of r)) = with_url linkedinUrl items /\
  Forall (fun sv : string * string * item * list string =>
            fst (fst (fst sv)) = userId /\
            truthy_url linkedinUrl (snd (fst sv)) = Some (snd (fst (fst sv))) /\
            snd sv = [])
         (saves (events_of r)).
Proof.
  destruct (AppFacts.getProfilesWithOptimization_run item linkedinUrl store js_error
              type_error svc urls userId s)
    as (cs & s1 & evs & s' & c & Hrun & Hurls & Hlen & Hcs & Hcase).
  cbv zeta. rewrite Hrun. unfold events_of, completion_of. cbn [fst snd].
  rewrite Hcs. intros Hin.
  destruct (misses cs) as [|m ms].
  - destruct Hcase as (_ & Hf & _). rewrite Hf in Hin. destruct Hin.
  - destruct (scrapeProfiles svc s1 (m :: ms)) as [s2 [ds'|e]].
    + destruct Hcase as (_ & Hcase).
      destruct (getDatasetItems svc s2 ds') as [s3 [items'|e]].
      * destruct Hcase as (Hf & Hsv & Hc). rewrite Hf in Hin.
        destruct Hin as [[= <- <-]|[]].
        split; [exact Hc|]. split; [exact Hsv|]. rewrite Hsv.
        split; [apply AppFacts.to_save_items | apply AppFacts.to_save_each].
      * destruct Hcase as (Hf & _). rewrite Hf in Hin.
        destruct Hin as [[=]|[]].
    + destruct Hcase as (_ & Hf & _). rewrite Hf in Hin. destruct Hin.
Qed.

(** A scraper that fails, when it is started or when its dataset is read,
    makes the whole function throw that error on to its caller; nothing is
    saved, and the cached data found before are not returned. *)
Theorem scraper_failure_is_thrown_on urls userId s e :
  let r := getProfilesWithOptimization linkedinUrl type_error svc urls userId s in
  (exists m, In (m, Client.thrown e) (scrape_answers (events_of r))) \/
  (exists ds, In (ds, Client.thrown e) (fetches (events_of r))) ->
  completion_of r = Client.thrown e /\ saves (events_of r) = [].
Proof.
  destruct (AppFacts.getProfilesWithOptimization_run item linkedinUrl store js_error
              type_error svc urls userId s)
    as (cs & s1 & evs & s' & c & Hrun & Hurls & Hlen & Hcs & Hcase).
  cbv zeta. rewrite Hrun. unfold events_of, completion_of. cbn [fst snd].
  intros Hin.
  destruct (misses cs) as [|m ms].
  - destruct Hcase as (Hsc & Hf & _). rewrite Hsc, Hf in Hin.
    destruct Hin as [[? []]|[? []]].
  - destruct (scrapeProfiles svc s1 (m :: ms)) as [s2 [ds'|e']].
    + destruct Hcase as (Hsc & Hcase). rewrite Hsc in Hin.
      destruct (getDatasetItems svc s2 ds') as [s3 [items'|e']].
      * destruct Hcase as (Hf & _). rewrite Hf in Hin.
        destruct Hin as [[? [[=]|[]]]|[? [[=]|[]]]].
      * destruct Hcase as (Hf & Hsv & Hc). rewrite Hf in Hin.
        destruct Hin as [[? [[=]|[]]]|[? [[= _ <-]|[]]]]. auto.
    + destruct Hcase as (Hsc & Hf & Hsv & Hc). rewrite Hsc, Hf in Hin.
      destruct Hin as [[? [[= _ <-]|[]]]|[? []]]. auto.
Qed.

End WithServices.

Lemma all_cached_needs_no_scraper_witness :
  let r := getProfilesWithOptimization CacheSamples.linkedinUrl "TypeError"
             CacheSamples.working ["https://l.in/bob"; "https://l.in/ann"] "u1"
             CacheSamples.two_cached in
  completion_of r = Client.normal (hits (checks (events_of r))) /\
  scrape_answers (events_of r) = [] /\ fetches (events_of r) = [] /\
  saves (events_of r) = [].
Proof.
  apply (all_cached_needs_no_scraper CacheSamples.item CacheSamples.linkedinUrl
           CacheSamples.store string "TypeError" CacheSamples.working
           ["https://l.in/bob"; "https://l.in/ann"] "u1" CacheSamples.two_cached).
  vm_compute. reflexivity.
Defined.

Lemma scraped_items_are_returned_saved_or_not_witness :
  let r := getProfilesWithOptimization CacheSamples.linkedinUrl "TypeError"
             CacheSamples.working
             ["https://l.in/bob"; "https://l.in/cat"; "https://l.in/dan"] "u1"
             CacheSamples.two_cached in
  let items := ["https://l.in/cat"; "https://l.in/dan"; ""] in
  completion_of r
  = Client.normal
      (hits (checks (events_of r)) ++ with_url CacheSamples.linkedinUrl items)%list /\
  saves (events_of r) = to_save CacheSamples.linkedinUrl "u1" items /\
  map (fun sv => snd (fst sv)) (saves (events_of r))
  = with_url CacheSamples.linkedinUrl items /\
  Forall (fun sv : string * string * CacheSamples.item * list string =>
            fst (fst (fst sv)) = "u1" /\
            truthy_url CacheSamples.linkedinUrl (snd (fst sv))
            = Some (snd (fst (fst sv))) /\
            snd sv = [])
         (saves (events_of r)).
Proof.
  apply (scraped_items_are_returned_saved_or_not CacheSamples.item
           CacheSamples.linkedinUrl CacheSamples.store string "TypeError"
           CacheSamples.working
           ["https://l.in/bob"; "https://l.in/cat"; "https://l.in/dan"] "u1"
           CacheSamples.two_cached "dataset-1").
  vm_compute. left. reflexivity.
Defined.

(** The saves of that run. *)
Example two_saves_without_tags :
  saves (events_of
    (getProfilesWithOptimization CacheSamples.linkedinUrl "TypeError"
       CacheSamples.working
       ["https://l.in/bob"; "https://l.in/cat"; "https://l.in/dan"] "u1"
       CacheSamples.two_cached))
  = [("u1", "https://l.in/cat", "https://l.in/cat", []);
     ("u1", "https://l.in/dan", "https://l.in/dan", [])].
Proof. vm_compute. reflexivity. Qed.

(** In the run of the witness one profile comes from the cache and two from
    the scraper; the item without a URL is dropped. *)
Example one_cached_two_scraped :
  completion_of
    (getProfilesWithOptimization CacheSamples.linkedinUrl "TypeError"
       CacheSamples.working
       ["https://l.in/bob"; "https://l.in/cat"; "https://l.in/dan"] "u1"
       CacheSamples.two_cached)
  = Client.normal ["https://l.in/bob"; "https://l.in/cat"; "https://l.in/dan"].
Proof. vm_compute. reflexivity. Qed.

Lemma scraper_failure_is_thrown_on_witness :
  let r := getProfilesWithOptimization CacheSamples.linkedinUrl "TypeError"
             CacheSamples.out_of_credit
             ["https://l.in/bob"; "https://l.in/cat"] "u1"
             CacheSamples.two_cached in
  completion_of r = Client.thrown "out of credit" /\ saves (events_of r) = [].
Proof.
  apply (scraper_failure_is_thrown_on CacheSamples.item
           CacheSamples.linkedinUrl CacheSamples.store string "TypeError"
           CacheSamples.out_of_credit
           ["https://l.in/bob"; "https://l.in/cat"] "u1"
           CacheSamples.two_cached "out of credit").
  left. exists ["https://l.in/cat"]. vm_compute. left. reflexivity.
Defined.

End AppProps.

(** ** Moving between the views *)

Module NavigationProps.

Import Navigation.

(** Opening the details of a profile and going back: on the profiles tab
    one lands on the profiles list; on every other tab one lands on the
    view the details were opened from when that was the comments, the
    profile table or the profiles list, and on the form from every other
    view; the tab changes only when the way back leads to the profiles
    list. *)
Theorem back_after_details (item : Type) (p : item) (s : nav item) :
  let s' := handleBackToPrevious (handleViewProfileDetails p s) in
  match activeTab s with
  | profiles => currentView s' = profiles_list /\ activeTab s' = profiles
  | _ =>
      match currentView s with
      | comments => currentView s' = comments /\ activeTab s' = activeTab s
      | profile_table => currentView s' = profile_table /\ activeTab s' = activeTab s
      | profiles_list => currentView s' = profiles_list /\ activeTab s' = profiles
      | _ => currentView s' = form /\ activeTab s' = activeTab s
      end
  end.
Proof.
  destruct s as [t v pv pd sel]. destruct t, v; cbn; split; reflexivity.
Qed.

(** After a change of tab, opening the details of a profile and going back
    shows the view of that tab on the profiles, scraper and jobs tabs; on
    the storage tab it shows the form while the tab stays storage. *)
Theorem back_after_details_on_a_fresh_tab (item : Type) (p : item) (t : tab)
    (s : nav item) :
  let s' := handleBackToPrevious (handleViewProfileDetails p (handleTabChange t s)) in
  activeTab s' = t /\
  currentView s'
  = match t with
    | storage => form
    | _ => currentView (handleTabChange t s)
    end.
Proof.
  destruct s as [t0 v pv pd sel]. destruct t; cbn; split; reflexivity.
Qed.

(** On the profiles tab both ways back from the details of a profile show
    the profiles list; [handleBackToProfilesList] clears the selected
    profile and [handleBackToPrevious] keeps it. *)
Theorem two_ways_back_on_the_profiles_tab (item : Type) (p : item) (s : nav item) :
  activeTab s = profiles ->
  let d := handleViewProfileDetails p s in
  currentView d = single_profile_details /\
  currentView (handleBackToProfilesList d) = profiles_list /\
  currentView (handleBackToPrevious d) = profiles_list /\
  selectedProfileForDetails (handleBackToProfilesList d) = None /\
  selectedProfileForDetails (handleBackToPrevious d) = Some p.
Proof.
  intros Ht. destruct s as [t v pv pd sel]. cbn in Ht. subst t.
  cbn. repeat split.
Qed.

Lemma two_ways_back_on_the_profiles_tab_witness :
  let d := handleViewProfileDetails "ada" (mk_nav profiles profiles_list form [] None) in
  currentView d = single_profile_details /\
  currentView (handleBackToProfilesList d) = profiles_list /\
  currentView (handleBackToPrevious d) = profiles_list /\
  selectedProfileForDetails (handleBackToProfilesList d) = None /\
  selectedProfileForDetails (handleBackToPrevious d) = Some "ada".
Proof.
  apply (two_ways_back_on_the_profiles_tab string "ada"
           (mk_nav profiles profiles_list form [] None)).
  reflexivity.
Defined.

End NavigationProps.

(** ** The list helpers and the session start *)

Module SessionProps.

Import Session.

Section WithServices.

Variable User : Type.
Variable LinkedInProfile : Type.
Variable ScrapingJob : Type.
Variable js_error : Type.
Variable profile_id : User -> string.
Variable svc : services User LinkedInProfile ScrapingJob js_error.

(** What a list helper resolves to. *)
Lemma list_helper_value (A : Type) a b c
    (query : Client.completion js_error (list_response js_error A)) :
  snd (list_helper User LinkedInProfile ScrapingJob js_error svc a b c query)
  = Client.normal
      match Client.createClerkSupabaseClient _ _ (backend svc) with
      | Client.thrown _ => []
      | Client.normal _ =>
          match query with
          | Client.thrown _ => []
          | Client.normal res =>
              match failure res with
              | Some _ => []
              | None => or_empty (rows res)
              end
          end
      end.
Proof.
  unfold list_helper.
  destruct (Client.createClerkSupabaseClient _ _ (backend svc)) as [[]|e];
    [|reflexivity].
  destruct query as [res|e]; [|reflexivity].
  simpl. destruct (failure res); reflexivity.
Qed.

(** [getUserProfiles], [getAllProfiles] and [loadScrapingJobs] never throw:
    they resolve to the rows of a response without error, and to the empty
    list when the rows are null, when the query reported an error, when it
    was rejected and when the client could not be built; the caller cannot
    tell a failed load from an empty table. *)
Theorem list_helpers_answer_rows_or_nothing userId :
  let answer (A : Type) (query : Client.completion js_error (list_response js_error A)) :=
    match Client.createClerkSupabaseClient _ _ (backend svc) with
    | Client.thrown _ => []
    | Client.normal _ =>
        match query with
        | Client.thrown _ => []
        | Client.normal res =>
            match failure res with
            | Some _ => []
            | None => or_empty (rows res)
            end
        end
    end in
  snd (getUserProfiles svc userId)
  = Client.normal (answer _ (profiles_of_user _ _ _ _ svc userId)) /\
  snd (getAllProfiles svc) = Client.normal (answer _ (all_profiles _ _ _ _ svc)) /\
  snd (loadScrapingJobs svc userId)
  = Client.normal (answer _ (jobs_of_user _ _ _ _ svc userId)).
Proof.
  cbv zeta. unfold getUserProfiles, getAllProfiles, loadScrapingJobs.
  rewrite !list_helper_value. repeat split.
Qed.

Lemma loadUserData_value userId s :
  exists l j,
    snd (getUserProfiles svc userId) = Client.normal l /\
    snd (loadScrapingJobs svc userId) = Client.normal j /\
    snd (loadUserData svc userId s)
    = Client.normal (mk_ui (userProfile s) l j (authError s)).
Proof.
  pose proof (list_helper_value LinkedInProfile "Getting profiles for user"
                "Error getting user profiles" "Retrieved user profiles"
                (profiles_of_user _ _ _ _ svc userId)) as Hp.
  pose proof (list_helper_value ScrapingJob "Loading scraping jobs for user"
                "Error loading scraping jobs" "Loaded scraping jobs"
                (jobs_of_user _ _ _ _ svc userId)) as Hj.
  fold (getUserProfiles svc userId) in Hp.
  fold (loadScrapingJobs svc userId) in Hj.
  eexists _, _. split; [exact Hp|]. split; [exact Hj|].
  unfold loadUserData.
  destruct (getUserProfiles svc userId) as [o1 c1]. simpl in Hp. subst c1.
  destruct (loadScrapingJobs svc userId) as [o2 c2]. simpl in Hj. subst c2.
  reflexivity.
Qed.

(** The session start when [getUserProfile] answered null. *)
Lemma initializeUserProfile_without_profile user_id s :
  snd (Client.getUserProfile (backend svc) user_id) = Client.normal None ->
  exists out,
    initializeUserProfile profile_id svc (Some user_id) s
    = (out,
       Client.normal
         (mk_ui (userProfile s) (profiles s) (scrapingJobs s)
            "Failed to create user profile. Please try refreshing the page.")).
Proof.
  intros Hv. unfold initializeUserProfile.
  destruct (Client.getUserProfile (backend svc) user_id) as [o c].
  cbn [snd] in Hv. subst c.
  unfold Client.try_catch, Client.bind, Client.ret.
  eexists. reflexivity.
Qed.

(** The session start never throws and ends in one of two states.  When
    [getUserProfile] answered a profile, it is stored, the error text is
    empty, and the profiles and jobs are whatever the two loads resolved
    to, the empty list for a failed load.  Otherwise the state is the old
    one with the text "Failed to create user profile...".  The texts of the
    two catch blocks are never set. *)
Theorem session_start_outcomes user_id s :
  exists out s',
    initializeUserProfile profile_id svc (Some user_id) s = (out, Client.normal s') /\
    match snd (Client.getUserProfile (backend svc) user_id) with
    | Client.normal (Some p) =>
        userProfile s' = Some p /\ authError s' = "" /\
        snd (getUserProfiles svc (profile_id p)) = Client.normal (profiles s') /\
        snd (loadScrapingJobs svc (profile_id p)) = Client.normal (scrapingJobs s')
    | _ =>
        s' = mk_ui (userProfile s) (profiles s) (scrapingJobs s)
               "Failed to create user profile. Please try refreshing the page."
    end.
Proof.
  unfold initializeUserProfile.
  pose proof (ClientProps.getUserProfile_value User js_error (backend svc) user_id) as Hv.
  destruct (Client.getUserProfile (backend svc) user_id) as [o c] eqn:Hget.
  cbn [snd] in Hv |- *. subst c.
  set (v := match Client.createClerkSupabaseClient User js_error (backend svc) with
            | Client.normal _ => _
            | Client.thrown _ => None
            end).
  destruct v as [p|].
  - destruct (loadUserData_value (profile_id p)
                (setUserProfile _ _ _ (setAuthError _ _ _ s "") (Some p)))
      as (l & j & Hl & Hj & Hload).
    destruct (loadUserData svc (profile_id p) _) as [o2 c2] eqn:Hrun.
    cbn [snd] in Hload. subst c2.
    unfold Client.try_catch, Client.bind. rewrite Hrun.
    eexists _, _. split; [reflexivity|]. cbn. auto.
  - unfold Client.try_catch, Client.bind, Client.ret.
    eexists _, _. split; [reflexivity|]. reflexivity.
Qed.

End WithServices.

(** A Clerk user whose token carries no claims and who has no profile yet
    cannot start a session: the rpc is rejected for the NULL username, the
    wrapper turns that into null, and the session start leaves the text
    "Failed to create user profile. Please try refreshing the page."; the
    table still holds no row for the user, so refreshing ends the same
    way. *)
Theorem user_without_claims_cannot_start fuel uid w s :
  Db.select_by_auth_user_id (Db.users w) uid = None ->
  (exists out,
      initializeUserProfile Db.id (served_session fuel [] w) (Some uid) s
      = (out,
         Client.normal
           (mk_ui (userProfile s) (profiles s) (scrapingJobs s)
              "Failed to create user profile. Please try refreshing the page."))) /\
  (exists r,
      Clerk.get_or_create_user_profile fuel uid [] w = Some r /\
      Db.select_by_auth_user_id (Db.users (Clerk.final r)) uid = None).
Proof.
  intros Hsel.
  destruct (ProvisioningProps.empty_claims_are_rejected fuel uid w Hsel)
    as (r & Hr & Hout & Hus).
  split.
  - apply initializeUserProfile_without_profile.
    rewrite ClientProps.getUserProfile_value.
    unfold served_session, Client.served_by. cbn.
    rewrite Hr, Hout. reflexivity.
  - exists r. split; [assumption|]. now rewrite Hus.
Qed.

Lemma user_without_claims_cannot_start_witness :
  (exists out,
      initializeUserProfile Db.id (served_session 1 [] Samples.empty_world)
        (Some "sub_123") (mk_ui None [] [] "")
      = (out,
         Client.normal
           (mk_ui None [] []
              "Failed to create user profile. Please try refreshing the page."))) /\
  (exists r,
      Clerk.get_or_create_user_profile 1 "sub_123" [] Samples.empty_world = Some r /\
      Db.select_by_auth_user_id (Db.users (Clerk.final r)) "sub_123" = None).
Proof.
  apply (user_without_claims_cannot_start 1 "sub_123" Samples.empty_world
           (mk_ui None [] [] "")).
  reflexivity.
Defined.

End SessionProps.
